(** * weather-aks: the freshness-and-dedup ingestion pipeline

    A shallow embedding of the two FastAPI services of the repository,
    [src/image/main.py] (module [Image]) and [src/main.py] (module [Main]),
    and the properties of the pipeline proved over it.

    Python values are kept at the shapes the external interfaces declare:
    JSON scalars, ordered dictionaries with string keys, Kusto result rows.
    Calls that leave the process (Kusto query and ingest, the two HTTP
    clients, the clock, [asyncio.sleep]) are nodes of a program tree; a run
    feeds the tree the replies of the outside world and records the calls.
    [print] is not modelled.  Left out: the homepage route, the construction
    of the Kusto clients (the handlers take its outcome as [initialized]),
    and [get_weather_stats] of src/main.py, which nothing calls. *)

From Stdlib Require Import ZArith QArith List String Ascii Bool Lia DecimalString.
From ExtLib Require Import Structures.Monad Structures.MonadExc.
Import ListNotations.
Import MonadNotation.

Local Open Scope string_scope.
Local Open Scope Z_scope.
Local Open Scope monad_scope.

(** ** Python values *)

Module Py.

(** A JSON scalar as [response.json()] hands it to the program.  A float is
    carried as the text [str] prints for it: the program never computes with
    the floats of a forecast, it only prints them. *)
Inductive scalar : Type :=
| SNone
| SBool (b : bool)
| SInt (z : Z)
| SFloat (repr : string)
| SStr (s : string).

(** The exceptions the modelled code can meet.  [ClientError] stands for
    whatever the Kusto and httpx clients raise. *)
Inductive exn : Type :=
| KeyError (key : string)
| IndexError
| TypeError (msg : string)
| AttributeError (msg : string)
| ValueError (msg : string)
| ClientError (msg : string).

(** [str(e)] *)
Definition exn_str (e : exn) : string :=
  match e with
  | KeyError key => "'" ++ key ++ "'"
  | IndexError => "list index out of range"
  | TypeError msg => msg
  | AttributeError msg => msg
  | ValueError msg => msg
  | ClientError msg => msg
  end.

Inductive result (A : Type) : Type :=
| Ok (a : A)
| Raise (e : exn).
Arguments Ok {A} a.
Arguments Raise {A} e.

#[export] Instance Monad_result : Monad result :=
  {| ret := fun A a => Ok a;
     bind := fun A B m f => match m with Ok a => f a | Raise e => Raise e end |}.

(** A loop body run over a list, left to right, stopping at the first
    exception. *)
Fixpoint mapM {A B : Type} (f : A -> result B) (l : list A) : result (list B) :=
  match l with
  | [] => Ok []
  | a :: l' =>
      match f a with
      | Ok b => match mapM f l' with Ok bs => Ok (b :: bs) | Raise e => Raise e end
      | Raise e => Raise e
      end
  end.

Fixpoint foldM {A S : Type} (f : S -> A -> result S) (l : list A) (s : S) : result S :=
  match l with
  | [] => Ok s
  | a :: l' => match f s a with Ok s' => foldM f l' s' | Raise e => Raise e end
  end.

(** [range(n)] *)
Definition range (n : nat) : list nat := seq 0 n.

(** *** Ordered dictionaries with string keys

    A Python [dict] keeps insertion order and has no duplicate key; the
    order is what [prepare_ingestion_data] serialises by. *)
Definition dict (V : Type) : Type := list (string * V).

Definition keys {V : Type} (d : dict V) : list string := map fst d.

Fixpoint dict_get {V : Type} (k : string) (d : dict V) : option V :=
  match d with
  | [] => None
  | (k', v) :: d' => if String.eqb k k' then Some v else dict_get k d'
  end.

(** [d[k] = v]: overwrite in place, or append a new key at the end. *)
Fixpoint dict_set {V : Type} (k : string) (v : V) (d : dict V) : dict V :=
  match d with
  | [] => [(k, v)]
  | (k', v') :: d' =>
      if String.eqb k k' then (k, v) :: d' else (k', v') :: dict_set k v d'
  end.

(** [k in d] *)
Definition dict_mem {V : Type} (k : string) (d : dict V) : bool :=
  existsb (String.eqb k) (keys d).

(** [d[k]], raising [KeyError] *)
Definition getitem {V : Type} (d : dict V) (k : string) : result V :=
  match dict_get k d with
  | Some v => Ok v
  | None => Raise (KeyError k)
  end.

(** [l[i]] for [i >= 0], raising [IndexError] *)
Definition index {V : Type} (l : list V) (i : nat) : result V :=
  match nth_error l i with
  | Some v => Ok v
  | None => Raise IndexError
  end.

(** [sep.join(l)] *)
Fixpoint join (sep : string) (l : list string) : string :=
  match l with
  | [] => ""
  | [s] => s
  | s :: l' => s ++ sep ++ join sep l'
  end.

(** [s.lower()] and [s.capitalize()] follow Unicode's case mapping.  The
    model holds a string by its bytes and maps the letters A to Z and a to z
    only: it is the library's function on ASCII text, which [is_ascii]
    marks, and leaves the bytes of every other character as they are. *)
Definition is_ascii (s : string) : bool :=
  forallb (fun c => (nat_of_ascii c <? 128)%nat) (list_ascii_of_string s).

(** [s.lower()], on ASCII text *)
Definition lower_ascii (c : ascii) : ascii :=
  let n := nat_of_ascii c in
  if ((65 <=? n)%nat && (n <=? 90)%nat)%bool then ascii_of_nat (n + 32) else c.

Fixpoint lower (s : string) : string :=
  match s with
  | EmptyString => EmptyString
  | String c s' => String (lower_ascii c) (lower s')
  end.

(** [s.capitalize()], on ASCII text *)
Definition upper_ascii (c : ascii) : ascii :=
  let n := nat_of_ascii c in
  if ((97 <=? n)%nat && (n <=? 122)%nat)%bool then ascii_of_nat (n - 32) else c.

Definition capitalize (s : string) : string :=
  match s with
  | EmptyString => EmptyString
  | String c s' => String (upper_ascii c) (lower s')
  end.

(** *** Decimal text *)

Definition digit (n : Z) : ascii := ascii_of_nat (48 + Z.to_nat n).

Definition digit_val (c : ascii) : option Z :=
  let n := nat_of_ascii c in
  if ((48 <=? n)%nat && (n <=? 57)%nat)%bool then Some (Z.of_nat (n - 48)) else None.

(** [str(z)] for an [int] *)
Definition int_str (z : Z) : string := NilZero.string_of_int (Z.to_int z).

(** [str(value)] for a scalar *)
Definition str (v : scalar) : string :=
  match v with
  | SNone => "None"
  | SBool true => "True"
  | SBool false => "False"
  | SInt z => int_str z
  | SFloat repr => repr
  | SStr s => s
  end.

(** *** [datetime.date]

    The proleptic Gregorian calendar of CPython's [datetime]: the ordinal of
    a date is [_ymd2ord], and the [days] of a difference of two dates is the
    difference of their ordinals. *)
Record date : Type := mkdate { year : Z; month : Z; day : Z }.

(** A [datetime]: its calendar date and the time of day in microseconds. *)
Record datetime : Type := mkdatetime { dt_date : date; dt_micros : Z }.

Definition is_leap (y : Z) : bool :=
  (y mod 4 =? 0) && (negb (y mod 100 =? 0) || (y mod 400 =? 0)).

Definition days_before_year (y : Z) : Z :=
  let y' := y - 1 in y' * 365 + y' / 4 - y' / 100 + y' / 400.

Definition days_in_month (y m : Z) : Z :=
  if (m =? 2) && is_leap y then 29
  else nth (Z.to_nat m) [0; 31; 28; 31; 30; 31; 30; 31; 31; 30; 31; 30; 31] 0.

Definition days_before_month (y m : Z) : Z :=
  nth (Z.to_nat m) [0; 0; 31; 59; 90; 120; 151; 181; 212; 243; 273; 304; 334] 0
  + (if (2 <? m) && is_leap y then 1 else 0).

Definition toordinal (d : date) : Z :=
  days_before_year (year d) + days_before_month (year d) (month d) + day d.

(** [(a - b).days] *)
Definition days_between (a b : date) : Z := toordinal a - toordinal b.

(** The dates [datetime.date] can hold: [MINYEAR = 1], [MAXYEAR = 9999]. *)
Definition valid_date (d : date) : bool :=
  (1 <=? year d) && (year d <=? 9999)
  && (1 <=? month d) && (month d <=? 12)
  && (1 <=? day d) && (day d <=? days_in_month (year d) (month d)).

Definition pad2 (n : Z) : string :=
  String (digit (n / 10)) (String (digit (n mod 10)) EmptyString).

Definition pad4 (n : Z) : string :=
  String (digit (n / 1000)) (String (digit (n / 100 mod 10))
    (String (digit (n / 10 mod 10)) (String (digit (n mod 10)) EmptyString))).

(** [d.strftime('%Y-%m-%d')], the year written with four digits.  From the
    year 1000 on this is the text on every platform.  Below it the C library
    decides: glibc writes the year without leading zeros ([999-12-31]), a
    text that [strptime] with [%Y] refuses. *)
Definition strftime_ymd (d : date) : string :=
  pad4 (year d) ++ "-" ++ pad2 (month d) ++ "-" ++ pad2 (day d).

(** The years whose [%Y] text has four digits whatever the platform. *)
Definition four_digit_year (d : date) : bool := 1000 <=? year d.

Definition num2 (a b : ascii) : option Z :=
  match digit_val a, digit_val b with
  | Some x, Some y => Some (10 * x + y)
  | _, _ => None
  end.

Definition num4 (a b c d : ascii) : option Z :=
  match num2 a b, num2 c d with
  | Some x, Some y => Some (100 * x + y)
  | _, _ => None
  end.

(** [datetime.strptime(s, '%Y-%m-%d').date()] on the ten-character strings
    [YYYY-MM-DD], which are all that [strftime_ymd] makes; any other text,
    and any text that names no calendar day, is a [ValueError]. *)
Definition strptime_ymd (s : string) : result date :=
  match s with
  | String y1 (String y2 (String y3 (String y4 (String "-"%char
      (String m1 (String m2 (String "-"%char
        (String d1 (String d2 EmptyString))))))))) =>
      match num4 y1 y2 y3 y4, num2 m1 m2, num2 d1 d2 with
      | Some y, Some m, Some d =>
          if valid_date (mkdate y m d) then Ok (mkdate y m d)
          else Raise (ValueError "day is out of range for month")
      | _, _, _ => Raise (ValueError "time data does not match format '%Y-%m-%d'")
      end
  | _ => Raise (ValueError "time data does not match format '%Y-%m-%d'")
  end.

End Py.

(** ** The outside world *)

Module Eff.
Import Py.

(** A cell of a Kusto result row, by column type.  A [real] is held by its
    exact value: every finite double is a rational. *)
Inductive cell : Type :=
| CNull
| CLong (n : Z)
| CReal (x : Q)
| CString (s : string)
| CDatetime (dt : datetime)
| CStrings (l : list string).

(** A row of a result, addressed by column name. *)
Definition row : Type := dict cell.

(** [response.primary_results[0]], a [KustoResultTable].  Its truth value is
    [any(self.columns)] and [table[0]] is [self.rows[0]]: a result that has
    its columns is true also when it has no row, and only a result without
    columns is false. *)
Inductive table : Type :=
| NoColumns
| Rows (rows : list row).

(** The KQL texts the services send, each with the city it is built from. *)
Inductive query : Type :=
| LatestDateQuery (city : string)
    (* WeatherData | where tolower(CityName) == '{city}'
       | summarize LatestDate = max(Date), DataPoints = count() *)
| ExistingDatesQuery (city : string)
    (* WeatherData | where tolower(CityName) == '{city}' | project Date
       | extend DateStr = format_datetime(Date, 'yyyy-MM-dd')
       | summarize make_set(DateStr) *)
| StatsQuery (city : string)
    (* ... | where Date >= ago(30d) | summarize MinTemp = ..., CurrentWeatherCode = ... *)
| RecordCountQuery (city : string)
    (* ... | where Date >= ago(30d) | summarize RecordCount = count() *)
| StatsQueryNoCode (city : string).
    (* the statistics query of src/main.py, without CurrentWeatherCode *)

(** The value under a key of a JSON object: the [daily] object of a
    forecast is a dictionary of equally indexed sequences; the geocoder's
    [results] is a list of objects. *)
Definition series : Type := dict (list scalar).

Inductive json : Type :=
| JScalar (s : scalar)
| JSeries (d : series)
| JObjects (l : list (dict scalar)).

(** A program that talks to the outside world: each node is one call, the
    continuation takes what the call gave back. *)
Inductive prog (A : Type) : Type :=
| Ret (a : A)
| Execute (q : query) (k : result table -> prog A)
| ForecastGet (lat lon : scalar) (k : result (dict json) -> prog A)
| GeoGet (name : string) (k : result (dict json) -> prog A)
| IngestFromStream (csv : string) (k : result unit -> prog A)
| Now (k : date -> prog A)
| Sleep (secs : Z) (k : unit -> prog A).
Arguments Ret {A} a.
Arguments Execute {A} q k.
Arguments ForecastGet {A} lat lon k.
Arguments GeoGet {A} name k.
Arguments IngestFromStream {A} csv k.
Arguments Now {A} k.
Arguments Sleep {A} secs k.

Fixpoint pbind {A B : Type} (p : prog A) (f : A -> prog B) : prog B :=
  match p with
  | Ret a => f a
  | Execute q k => Execute q (fun r => pbind (k r) f)
  | ForecastGet lat lon k => ForecastGet lat lon (fun r => pbind (k r) f)
  | GeoGet name k => GeoGet name (fun r => pbind (k r) f)
  | IngestFromStream csv k => IngestFromStream csv (fun r => pbind (k r) f)
  | Now k => Now (fun r => pbind (k r) f)
  | Sleep secs k => Sleep secs (fun r => pbind (k r) f)
  end.

(** A Python coroutine: a program that returns a value or raises. *)
Definition M (A : Type) : Type := prog (result A).

#[export] Instance Monad_M : Monad M :=
  {| ret := fun A a => Ret (Ok a);
     bind := fun A B m f =>
       pbind m (fun r => match r with Ok a => f a | Raise e => Ret (Raise e) end) |}.

(** [raise] and [try: ... except Exception as e: ...] *)
#[export] Instance MonadExc_M : MonadExc exn M :=
  {| raise := fun A e => Ret (Raise e);
     catch := fun A m h =>
       pbind m (fun r => match r with Ok a => Ret (Ok a) | Raise e => h e end) |}.

(** A pure step that may raise. *)
Definition lift {A : Type} (r : result A) : M A := Ret r.

Definition execute (q : query) : M table := Execute q Ret.
Definition forecast_get (lat lon : scalar) : M (dict json) := ForecastGet lat lon Ret.
Definition geo_get (name : string) : M (dict json) := GeoGet name Ret.
Definition ingest_from_stream (csv : string) : M unit := IngestFromStream csv Ret.
Definition now : M date := Now (fun d => Ret (Ok d)).
Definition sleep (secs : Z) : M unit := Sleep secs (fun u => Ret (Ok u)).

(** *** Runs

    A call as the outside world sees it, and what the world gave back. *)
Inductive call : Type :=
| CExecute (q : query)
| CForecastGet (lat lon : scalar)
| CGeoGet (name : string)
| CIngest (csv : string)
| CNow
| CSleep (secs : Z).

Inductive reply : Type :=
| RExecute (r : result table)
| RForecastGet (r : result (dict json))
| RGeoGet (r : result (dict json))
| RIngest (r : result unit)
| RNow (d : date)
| RSleep.

(** [exec p script]: run [p] against the replies of [script], in order.  The
    run is [Some (a, calls)] when the script answers every call of [p] with
    a reply of its kind and has no reply left over; [calls] are the calls
    made, in order. *)
Fixpoint exec {A : Type} (p : prog A) (script : list reply) : option (A * list call) :=
  let continue (c : call) (rest : option (A * list call)) :=
    match rest with
    | Some (a, cs) => Some (a, c :: cs)
    | None => None
    end in
  match p, script with
  | Ret a, [] => Some (a, [])
  | Execute q k, RExecute r :: s => continue (CExecute q) (exec (k r) s)
  | ForecastGet lat lon k, RForecastGet r :: s => continue (CForecastGet lat lon) (exec (k r) s)
  | GeoGet name k, RGeoGet r :: s => continue (CGeoGet name) (exec (k r) s)
  | IngestFromStream csv k, RIngest r :: s => continue (CIngest csv) (exec (k r) s)
  | Now k, RNow d :: s => continue CNow (exec (k d) s)
  | Sleep secs k, RSleep :: s => continue (CSleep secs) (exec (k tt) s)
  | _, _ => None
  end.

(** An outside world with state [W]: how it answers each call. *)
Record world (W : Type) : Type := mkworld {
  on_execute : query -> W -> result table * W;
  on_forecast_get : scalar -> scalar -> W -> result (dict json) * W;
  on_geo_get : string -> W -> result (dict json) * W;
  on_ingest : string -> W -> result unit * W;
  on_now : W -> date * W;
  on_sleep : Z -> W -> W
}.
Arguments on_execute {W} _ _ _.
Arguments on_forecast_get {W} _ _ _ _.
Arguments on_geo_get {W} _ _ _.
Arguments on_ingest {W} _ _ _.
Arguments on_now {W} _ _.
Arguments on_sleep {W} _ _ _.

(** [run env p w]: run [p] in the world [env] from state [w]; the value, the
    final state, and the replies the world gave. *)
Fixpoint run {A W : Type} (env : world W) (p : prog A) (w : W) : A * W * list reply :=
  let record (r : reply) (rest : A * W * list reply) :=
    let '(a, w', rs) := rest in (a, w', r :: rs) in
  match p with
  | Ret a => (a, w, [])
  | Execute q k =>
      let '(r, w1) := on_execute env q w in record (RExecute r) (run env (k r) w1)
  | ForecastGet lat lon k =>
      let '(r, w1) := on_forecast_get env lat lon w in record (RForecastGet r) (run env (k r) w1)
  | GeoGet name k =>
      let '(r, w1) := on_geo_get env name w in record (RGeoGet r) (run env (k r) w1)
  | IngestFromStream csv k =>
      let '(r, w1) := on_ingest env csv w in record (RIngest r) (run env (k r) w1)
  | Now k =>
      let '(d, w1) := on_now env w in record (RNow d) (run env (k d) w1)
  | Sleep secs k =>
      record RSleep (run env (k tt) (on_sleep env secs w))
  end.

Definition is_forecast_get (c : call) : bool :=
  match c with CForecastGet _ _ => true | _ => false end.

Definition is_ingest (c : call) : bool :=
  match c with CIngest _ => true | _ => false end.

Definition not_ingest_reply (x : reply) : Prop :=
  match x with RIngest _ => False | _ => True end.

(** How many of the calls satisfy [f]. *)
Definition count_calls (f : call -> bool) (cs : list call) : nat :=
  List.length (filter f cs).

End Eff.

(** ** What both services share

    The responses of the HTTP surface, and the helpers on Kusto cells. *)

Module Web.
Import Py Eff.

(** A statistics value handed to the template: a cell as stored, or
    [round(cell, 1)], which is a decimal rounding of a double and is left
    unevaluated. *)
Inductive stat : Type :=
| Plain (c : cell)
| Round1 (c : cell).

(** What a handler returns: [HTMLResponse(body)], or the rendering of a
    template over a context (the template engine is a collaborator). *)
Inductive page : Type :=
| HTMLResponse (body : string)
| Rendered (template : string) (city : string) (context : dict stat)
           (description icon_url : option string).

(** [round(c, 1)] raises on what is not a number. *)
Definition round1 (c : cell) : result stat :=
  match c with
  | CLong _ | CReal _ => Ok (Round1 c)
  | _ => Raise (TypeError "type doesn't define __round__ method")
  end.

(** [c < 30] *)
Definition lt_30 (c : cell) : result bool :=
  match c with
  | CLong n => Ok (n <? 30)
  | CReal x => Ok (negb (Qle_bool (30 # 1) x))
  | _ => Raise (TypeError "'<' not supported between these instances")
  end.

(** [c >= 30] *)
Definition ge_30 (c : cell) : result bool :=
  match c with
  | CLong n => Ok (30 <=? n)
  | CReal x => Ok (Qle_bool (30 # 1) x)
  | _ => Raise (TypeError "'>=' not supported between these instances")
  end.

(** [a, b, c = t] *)
Definition unpack3 {A : Type} (t : list A) : result (A * A * A) :=
  match t with
  | [a; b; c] => Ok (a, b, c)
  | [] => Raise (ValueError "not enough values to unpack (expected 3, got 0)")
  | [_] => Raise (ValueError "not enough values to unpack (expected 3, got 1)")
  | [_; _] => Raise (ValueError "not enough values to unpack (expected 3, got 2)")
  | _ => Raise (ValueError "too many values to unpack (expected 3)")
  end.

(** [s.lower()] on a value that may not be a [str] *)
Definition str_lower (v : scalar) : result string :=
  match v with
  | SStr s => Ok (lower s)
  | _ => Raise (AttributeError "object has no attribute 'lower'")
  end.

(** [sep.join(values)]: every item has to be a [str]. *)
Definition str_join (sep : string) (values : list scalar) : result string :=
  names <- mapM (fun v => match v with
                          | SStr s => Ok s
                          | _ => Raise (TypeError "sequence item: expected str instance")
                          end) values ;;
  ret (join sep names).

Definition newline : string := String (ascii_of_nat 10) EmptyString.

(** [not weather_data or "daily" not in weather_data], on what
    [get_weather_data] returned *)
Definition lacks_daily (weather_data : option (dict json)) : bool :=
  match weather_data with
  | None => true
  | Some [] => true
  | Some d => negb (dict_mem "daily" d)
  end.

End Web.

(** ** src/image/main.py *)

Module Image.
Import Py Eff Web.

(** [get_city_coordinates]: the tuple it returns.  Whatever goes wrong
    inside the [try] ends in the same [(None, None, None)]. *)
Definition get_city_coordinates (city : string) : M (list scalar) :=
  catch
    (geo_data <- geo_get city ;;
     match dict_get "results" geo_data with
     | Some (JObjects (result :: _)) =>
         latitude <- lift (getitem result "latitude") ;;
         longitude <- lift (getitem result "longitude") ;;
         name <- lift (getitem result "name") ;;
         ret [latitude; longitude; name]
     | Some (JObjects []) | None => ret [SNone; SNone; SNone]
     | Some (JSeries _) | Some (JScalar _) =>
         (* falsy, or truthy and not a list of objects: [...][0][...] raises *)
         ret [SNone; SNone; SNone]
     end)
    (fun _ => ret [SNone; SNone; SNone]).

(** [get_weather_data]: the decoded response, or [None] when the client
    raised. *)
Definition get_weather_data (lat lon : scalar) : M (option (dict json)) :=
  catch
    (weather_response <- forecast_get lat lon ;; ret (Some weather_response))
    (fun _ => ret None).

(** [key for key in daily_data.keys() if key != "time"] *)
Definition weather_attributes (daily_data : series) : list string :=
  filter (fun key => negb (String.eqb key "time")) (keys daily_data).

(** One turn of the loop of [prepare_ingestion_data]: the row of index [i]. *)
Definition prepare_row (city : string) (daily_data : series) (dates : list scalar)
    (attributes : list string) (i : nat) : result string :=
  date_i <- index dates i ;;
  values <- mapM (fun attr =>
                    column <- getitem daily_data attr ;;
                    value <- index column i ;;
                    ret (match value with
                         | SNone => SStr ""
                         | _ => SStr (str value)
                         end)) attributes ;;
  str_join "," (SStr city :: date_i :: values).

(** The body of the [try] of [prepare_ingestion_data]. *)
Definition prepare_ingestion_body (city : string) (daily_data : json)
    : result (list string * list string) :=
  match daily_data with
  | JSeries daily_data =>
      dates <- getitem daily_data "time" ;;
      let attributes := weather_attributes daily_data in
      ingestion_data <- mapM (prepare_row city daily_data dates attributes)
                             (range (List.length dates)) ;;
      ret (ingestion_data, attributes)
  | _ => Raise (TypeError "indices must be integers")
  end.

(** [prepare_ingestion_data]: [Some (ingestion_data, weather_attributes)], or
    [None] for the [(None, None)] of the [except] branch. *)
Definition prepare_ingestion_data (city : string) (daily_data : json)
    : option (list string * list string) :=
  match prepare_ingestion_body city daily_data with
  | Ok r => Some r
  | Raise _ => None
  end.

(** [check_data_freshness]: [(is_fresh, latest_date)].  Nothing here catches
    what [query_client.execute] raises. *)
Definition check_data_freshness (city : string) : M (bool * string) :=
  response <- execute (LatestDateQuery city) ;;
  match response with
  | NoColumns => ret (false, "")
  | Rows rows =>
      row <- lift (index rows 0) ;;
      kusto_latest_date <- lift (getitem row "LatestDate") ;;
      data_points <- lift (getitem row "DataPoints") ;;
      match kusto_latest_date with
      | CNull => ret (false, "")
      | CDatetime dt =>
          let latest_date := strftime_ymd (dt_date dt) in
          latest_date_obj <- lift (strptime_ymd latest_date) ;;
          today <- now ;;
          let date_difference := Z.abs (days_between today latest_date_obj) in
          is_fresh <- (if date_difference <=? 1
                       then lift (ge_30 data_points)
                       else ret false) ;;
          ret (is_fresh, latest_date)
      | _ => raise (AttributeError "object has no attribute 'strftime'")
      end
  end.

(** [set(response.primary_results[0][0]['set_DateStr'])] *)
Definition existing_dates_of (response : table) : result (list string) :=
  match response with
  | NoColumns => Ok []
  | Rows rows =>
      row <- index rows 0 ;;
      set_DateStr <- getitem row "set_DateStr" ;;
      match set_DateStr with
      | CStrings l => Ok l
      | CString s => Ok (map (fun c => String c EmptyString) (list_ascii_of_string s))
      | _ => Raise (TypeError "object is not iterable")
      end
  end.

(** [date not in existing_dates]: only a [str] can equal a member. *)
Definition not_in (date : scalar) (existing_dates : list string) : bool :=
  match date with
  | SStr s => negb (existsb (String.eqb s) existing_dates)
  | _ => true
  end.

(** [filtered_daily_data[key].append(daily_data[key][i])] *)
Definition append_at (daily_data : series) (i : nat) (filtered : series) (key : string)
    : result series :=
  column <- getitem daily_data key ;;
  value <- index column i ;;
  kept <- getitem filtered key ;;
  ret (dict_set key (kept ++ [value])%list filtered).

(** The dedup loop: a fresh dictionary with every key of [daily_data], then
    for each index whose date is new, one value appended under every key. *)
Definition filter_daily_data (daily_data : series) (existing_dates : list string)
    : result series :=
  let empty := fold_left (fun acc key => dict_set key [] acc) (keys daily_data) [] in
  dates <- getitem daily_data "time" ;;
  foldM (fun filtered i =>
           date_i <- index dates i ;;
           if not_in date_i existing_dates
           then foldM (append_at daily_data i) (keys daily_data) filtered
           else ret filtered)
        (range (List.length dates)) empty.

(** The [if latest_date:] block of [ensure_fresh_data]: [inl b] when the
    function returns [b] from inside the block, [inr daily_data] when it
    goes on to ingestion. *)
Definition dedup (city : string) (daily_data : json) : M (bool + json) :=
  catch
    (response <- execute (ExistingDatesQuery (lower city)) ;;
     existing_dates <- lift (existing_dates_of response) ;;
     match daily_data with
     | JSeries daily_data =>
         filtered_daily_data <- lift (filter_daily_data daily_data existing_dates) ;;
         time <- lift (getitem filtered_daily_data "time") ;;
         match time with
         | [] => ret (inl true)
         | _ :: _ => ret (inr (JSeries filtered_daily_data))
         end
     | _ => raise (AttributeError "object has no attribute 'keys'")
     end)
    (fun _ => ret (inl false)).

(** The last [try] of [ensure_fresh_data]: ingest, then check again. *)
Definition ingest_and_verify (city : string) (ingestion_data : list string) : M bool :=
  catch
    (ingest_from_stream (join newline ingestion_data) ;;
     '(is_fresh, new_latest_date) <- check_data_freshness city ;;
     if negb is_fresh then ret false else ret true)
    (fun _ => ret false).

(** The body of [if not is_fresh:] in [ensure_fresh_data]. *)
Definition refresh (city : string) (lat lon : scalar) (latest_date : string) : M bool :=
  weather_data <- get_weather_data lat lon ;;
  if lacks_daily weather_data then ret false
  else
    match weather_data with
    | None => ret false
    | Some weather_data =>
        daily_data <- lift (getitem weather_data "daily") ;;
        continue <- (if negb (String.eqb latest_date "")
                     then dedup city daily_data
                     else ret (inr daily_data)) ;;
        match continue with
        | inl returned => ret returned
        | inr daily_data =>
            match prepare_ingestion_data city daily_data with
            | None | Some ([], _) => ret false
            | Some (ingestion_data, _) => ingest_and_verify city ingestion_data
            end
        end
    end.

Definition ensure_fresh_data (city : string) (lat lon : scalar) : M bool :=
  '(is_fresh, latest_date) <- check_data_freshness city ;;
  if negb is_fresh then refresh city lat lon latest_date else ret true.

(** The two lookup tables of [get_weather_stats], in source order. *)
Definition weather_codes : list (Z * string) :=
  [ (0, "Clear sky"); (1, "Mainly clear"); (2, "Partly cloudy"); (3, "Overcast");
    (45, "Foggy"); (48, "Depositing rime fog");
    (51, "Light drizzle"); (53, "Moderate drizzle"); (55, "Dense drizzle");
    (61, "Slight rain"); (63, "Moderate rain"); (65, "Heavy rain");
    (71, "Slight snow fall"); (73, "Moderate snow fall"); (75, "Heavy snow fall");
    (77, "Snow grains");
    (80, "Slight rain showers"); (81, "Moderate rain showers");
    (82, "Violent rain showers");
    (85, "Slight snow showers"); (86, "Heavy snow showers");
    (95, "Thunderstorm"); (96, "Thunderstorm with slight hail");
    (99, "Thunderstorm with heavy hail") ].

Definition icon_map : list (Z * string) :=
  [ (0, "01d"); (1, "01d"); (2, "02d"); (3, "03d"); (45, "03d"); (48, "03d");
    (51, "09d"); (53, "09d"); (55, "09d"); (61, "09d"); (63, "09d"); (65, "09d");
    (71, "13d"); (73, "13d"); (75, "13d"); (77, "13d");
    (80, "09d"); (81, "09d"); (82, "09d"); (85, "13d"); (86, "13d");
    (95, "11d"); (96, "11d"); (99, "11d") ].

Fixpoint lookup (code : Z) (table : list (Z * string)) : option string :=
  match table with
  | [] => None
  | (k, v) :: table' => if code =? k then Some v else lookup code table'
  end.

(** The [int] a cell equals as a dictionary key, if any: a [long], or a
    [real] with an integral value. *)
Definition cell_key (c : cell) : result (option Z) :=
  match c with
  | CLong n => Ok (Some n)
  | CReal x =>
      Ok (if Qnum x mod Zpos (Qden x) =? 0 then Some (Qnum x / Zpos (Qden x)) else None)
  | CStrings _ => Raise (TypeError "unhashable type: 'list'")
  | _ => Ok None
  end.

(** [table.get(weather_code, default)] *)
Definition get_default (table : list (Z * string)) (weather_code : cell) (default : string)
    : result string :=
  key <- cell_key weather_code ;;
  ret (match key with
       | Some code => match lookup code table with Some v => v | None => default end
       | None => default
       end).

(** The dictionary [get_weather_stats] returns, with its two strings apart
    from the numbers. *)
Record weather_stats : Type := mkstats {
  numbers : dict stat;
  weather_description : string;
  weather_icon_url : string
}.

(** [get_weather_stats]: [None] when the result is false. *)
Definition get_weather_stats (city : string) : M (option weather_stats) :=
  response <- execute (StatsQuery city) ;;
  match response with
  | NoColumns => ret None
  | Rows rows =>
      row <- lift (index rows 0) ;;
      weather_code <- lift (getitem row "CurrentWeatherCode") ;;
      description <- lift (get_default weather_codes weather_code "Unknown") ;;
      icon_code <- lift (get_default icon_map weather_code "01d") ;;
      let icon_url := "https://openweathermap.org/img/wn/" ++ icon_code ++ "@2x.png" in
      min_temp <- lift (getitem row "MinTemp") ;;
      max_temp <- lift (getitem row "MaxTemp") ;;
      avg_temp <- lift (getitem row "AvgTemp") ;;
      avg_temp <- lift (round1 avg_temp) ;;
      min_wind <- lift (getitem row "MinWind") ;;
      max_wind <- lift (getitem row "MaxWind") ;;
      avg_wind <- lift (getitem row "AvgWind") ;;
      avg_wind <- lift (round1 avg_wind) ;;
      current_max_temp <- lift (getitem row "CurrentMaxTemp") ;;
      current_min_temp <- lift (getitem row "CurrentMinTemp") ;;
      current_wind <- lift (getitem row "CurrentWind") ;;
      ret (Some {| numbers :=
                     [ ("min_temp", Plain min_temp); ("max_temp", Plain max_temp);
                       ("avg_temp", avg_temp);
                       ("min_wind", Plain min_wind); ("max_wind", Plain max_wind);
                       ("avg_wind", avg_wind);
                       ("current_max_temp", Plain current_max_temp);
                       ("current_min_temp", Plain current_min_temp);
                       ("current_wind", Plain current_wind) ];
                   weather_description := description;
                   weather_icon_url := icon_url |})
  end.

(** The body of the [try] of the [/weather] handler. *)
Definition get_weather_body (city : string) : M page :=
  coordinates <- get_city_coordinates city ;;
  '(lat, lon, guessed_city) <- lift (unpack3 coordinates) ;;
  match guessed_city with
  | SNone => ret (HTMLResponse "<p>Error: Invalid city name, please try again.</p>")
  | _ =>
      guessed_lower <- lift (str_lower guessed_city) ;;
      if negb (String.eqb (lower city) guessed_lower)
      then ret (HTMLResponse ("<p>Error: Inaccurate city name, Did you mean "
                              ++ str guessed_city ++ "? </p>"))
      else
        let city := lower city in
        fresh <- ensure_fresh_data city lat lon ;;
        if negb fresh
        then ret (HTMLResponse "<p>Error: Could not ensure fresh weather data.</p>")
        else
          stats <- get_weather_stats city ;;
          match stats with
          | None =>
              ret (HTMLResponse "<p>Error: Could not retrieve weather data from database.</p>")
          | Some stats =>
              ret (Rendered "weather.html" (capitalize city) (numbers stats)
                     (Some (weather_description stats)) (Some (weather_icon_url stats)))
          end
  end.

(** [get_weather]: [initialized] says whether the two Kusto clients were
    built at start-up.  Every exception of the body becomes a page. *)
Definition get_weather (initialized : bool) (city : string) : prog page :=
  if negb initialized
  then Ret (HTMLResponse "<p>Error: Kusto clients not properly initialized</p>")
  else
    pbind (get_weather_body city)
      (fun r => match r with
                | Ok p => Ret p
                | Raise e => Ret (HTMLResponse ("<p>An error occurred: " ++ exn_str e ++ "</p>"))
                end).

End Image.

(** ** src/main.py *)

Module Main.
Import Py Eff Web.

(** [get_city_coordinates]: three values when the geocoder has a result,
    the pair [(None, None)] otherwise. *)
Definition get_city_coordinates (city : string) : M (list scalar) :=
  catch
    (geo_data <- geo_get city ;;
     match dict_get "results" geo_data with
     | Some (JObjects (result :: _)) =>
         latitude <- lift (getitem result "latitude") ;;
         longitude <- lift (getitem result "longitude") ;;
         name <- lift (getitem result "name") ;;
         ret [latitude; longitude; name]
     | Some (JObjects []) | None => ret [SNone; SNone]
     | Some (JSeries _) | Some (JScalar _) =>
         (* falsy, or truthy and not a list of objects: [...][0][...] raises *)
         ret [SNone; SNone]
     end)
    (fun _ => ret [SNone; SNone]).

Definition get_weather_data (city : string) (lat lon : scalar) : M (option (dict json)) :=
  catch
    (weather_response <- forecast_get lat lon ;; ret (Some weather_response))
    (fun _ => ret None).

Definition weather_attributes (daily_data : series) : list string :=
  filter (fun key => negb (String.eqb key "time")) (keys daily_data).

Definition prepare_row (city : string) (daily_data : series) (dates : list scalar)
    (attributes : list string) (i : nat) : result string :=
  date_i <- index dates i ;;
  values <- mapM (fun attr =>
                    column <- getitem daily_data attr ;;
                    value <- index column i ;;
                    ret (match value with
                         | SNone => SStr ""
                         | _ => SStr (str value)
                         end)) attributes ;;
  str_join "," (SStr city :: date_i :: values).

Definition prepare_ingestion_body (city : string) (daily_data : json)
    : result (list string * list string) :=
  match daily_data with
  | JSeries daily_data =>
      dates <- getitem daily_data "time" ;;
      let attributes := weather_attributes daily_data in
      ingestion_data <- mapM (prepare_row city daily_data dates attributes)
                             (range (List.length dates)) ;;
      ret (ingestion_data, attributes)
  | _ => Raise (TypeError "indices must be integers")
  end.

Definition prepare_ingestion_data (city : string) (daily_data : json)
    : option (list string * list string) :=
  match prepare_ingestion_body city daily_data with
  | Ok r => Some r
  | Raise _ => None
  end.

(** [response.primary_results[0][0]['RecordCount'] if response.primary_results[0] else 0] *)
Definition record_count (response : table) : result cell :=
  match response with
  | NoColumns => Ok (CLong 0)
  | Rows rows => row <- index rows 0 ;; getitem row "RecordCount"
  end.

(** The inner [try] of the handler, after the data is prepared: [Some page]
    when the handler returns from inside it, [None] when it goes on to the
    statistics. *)
Definition store_and_verify (city : string) (ingestion_data : list string)
    : M (option page) :=
  catch
    (ingest_from_stream (join newline ingestion_data) ;;
     sleep 3 ;;
     verify_response <- execute (RecordCountQuery city) ;;
     verify_count <- lift (record_count verify_response) ;;
     too_few <- lift (lt_30 verify_count) ;;
     if too_few
     then ret (Some (HTMLResponse
            "<p>Error: Data storage verification failed. Please try again in a few minutes.</p>"))
     else ret None)
    (fun e => ret (Some (HTMLResponse
            ("<p>Error storing weather data: " ++ exn_str e ++ "</p>")))).

(** The [if result_count < 30:] block: [Some page] when the handler returns
    from inside it. *)
Definition fetch_and_store (city : string) (lat lon : scalar) : M (option page) :=
  match lat, lon with
  | SNone, _ | _, SNone =>
      ret (Some (HTMLResponse "<p>Could not find coordinates for this city.</p>"))
  | _, _ =>
      weather_data <- get_weather_data city lat lon ;;
      if lacks_daily weather_data
      then ret (Some (HTMLResponse "<p>Error: Invalid response from weather API.</p>"))
      else
        match weather_data with
        | None => ret (Some (HTMLResponse "<p>Error: Invalid response from weather API.</p>"))
        | Some weather_data =>
            daily_data <- lift (getitem weather_data "daily") ;;
            match prepare_ingestion_data city daily_data with
            | None | Some ([], _) =>
                ret (Some (HTMLResponse
                       "<p>Error: Could not prepare weather data for storage.</p>"))
            | Some (ingestion_data, _) => store_and_verify city ingestion_data
            end
        end
  end.

(** The statistics the handler reads back and renders. *)
Definition render_stats (city : string) : M page :=
  stats_response <- execute (StatsQueryNoCode city) ;;
  match stats_response with
  | NoColumns =>
      ret (HTMLResponse "<p>Error: Could not retrieve weather data from database.</p>")
  | Rows rows =>
      row <- lift (index rows 0) ;;
      min_temp <- lift (getitem row "MinTemp") ;;
      max_temp <- lift (getitem row "MaxTemp") ;;
      avg_temp <- lift (getitem row "AvgTemp") ;;
      avg_temp <- lift (round1 avg_temp) ;;
      min_wind <- lift (getitem row "MinWind") ;;
      max_wind <- lift (getitem row "MaxWind") ;;
      avg_wind <- lift (getitem row "AvgWind") ;;
      avg_wind <- lift (round1 avg_wind) ;;
      current_max_temp <- lift (getitem row "CurrentMaxTemp") ;;
      current_min_temp <- lift (getitem row "CurrentMinTemp") ;;
      current_wind <- lift (getitem row "CurrentWind") ;;
      ret (Rendered "weather.html" (capitalize city)
             [ ("min_temp", Plain min_temp); ("max_temp", Plain max_temp);
               ("avg_temp", avg_temp);
               ("min_wind", Plain min_wind); ("max_wind", Plain max_wind);
               ("avg_wind", avg_wind);
               ("current_max_temp", Plain current_max_temp);
               ("current_min_temp", Plain current_min_temp);
               ("current_wind", Plain current_wind) ]
             None None)
  end.

(** The body of the outer [try] of the [/weather] handler. *)
Definition get_weather_body (city : string) : M page :=
  coordinates <- get_city_coordinates city ;;
  '(lat, lon, guessed_city) <- lift (unpack3 coordinates) ;;
  city <- lift (str_lower guessed_city) ;;
  response <- execute (RecordCountQuery city) ;;
  result_count <- lift (record_count response) ;;
  too_few <- lift (lt_30 result_count) ;;
  returned <- (if too_few then fetch_and_store city lat lon else ret None) ;;
  match returned with
  | Some p => ret p
  | None => render_stats city
  end.

Definition get_weather (initialized : bool) (city : string) : prog page :=
  if negb initialized
  then Ret (HTMLResponse "<p>Error: Kusto clients not properly initialized</p>")
  else
    pbind (get_weather_body city)
      (fun r => match r with
                | Ok p => Ret p
                | Raise e => Ret (HTMLResponse ("<p>An error occurred: " ++ exn_str e ++ "</p>"))
                end).

End Main.

(** ** The dedup filter as the design words it

    Step 3 of fetch-and-dedup: keep the date indices whose date string is
    absent from the existing dates, and cut every attribute sequence by that
    one index set.  [Image.filter_daily_data] is compared with this. *)

Module Dedup.
Import Py Eff.

Definition kept_indices (dates : list scalar) (existing_dates : list string) : list nat :=
  filter (fun i => Image.not_in (nth i dates SNone) existing_dates)
         (range (List.length dates)).

Definition select (column : list scalar) (indices : list nat) : list scalar :=
  map (fun i => nth i column SNone) indices.

Definition filtered_by_index (daily_data : series) (indices : list nat) : series :=
  map (fun kv => (fst kv, select (snd kv) indices)) daily_data.

(** What the caller of a check makes of its result: fresh or not. *)
Definition verdict (checked : result (bool * string)) : bool :=
  match checked with
  | Ok (is_fresh, _) => is_fresh
  | Raise _ => false
  end.

End Dedup.

(** ** The ingestion rows as the design words them

    Section 4.3: one row per date, the ordered attribute list (city, date,
    then every attribute other than [time], in the order of the series)
    joined by commas.  [prepare_ingestion_data] is compared with this. *)

Module Rows.
Import Py Eff.

Definition column (daily_data : series) (attr : string) : list scalar :=
  match dict_get attr daily_data with
  | Some values => values
  | None => []
  end.

(** The text of one value: nothing for a missing value. *)
Definition value_text (value : scalar) : string :=
  match value with
  | SNone => ""
  | _ => str value
  end.

Definition row_fields (city : string) (daily_data : series) (i : nat) : list string :=
  city
  :: str (nth i (column daily_data "time") SNone)
  :: map (fun attr => value_text (nth i (column daily_data attr) SNone))
         (filter (fun key => negb (String.eqb key "time")) (keys daily_data)).

Definition is_str (value : scalar) : bool :=
  match value with SStr _ => true | _ => false end.

End Rows.

(** ** Worlds for concrete runs *)

Module Worlds.
Import Py Eff.

(** A world that answers from a list of prepared replies, first the next
    one of the asked kind; when none is left, the store and the HTTP clients
    raise and the clock shows the first day of 2025. *)
Fixpoint take {A : Type} (pick : reply -> option A) (w : list reply)
    : option (A * list reply) :=
  match w with
  | [] => None
  | r :: w' =>
      match pick r with
      | Some a => Some (a, w')
      | None => match take pick w' with
                | Some (a, w'') => Some (a, r :: w'')
                | None => None
                end
      end
  end.

Definition answer {A : Type} (pick : reply -> option A) (default : A) (w : list reply)
    : A * list reply :=
  match take pick w with
  | Some (a, w') => (a, w')
  | None => (default, w)
  end.

Definition scripted : world (list reply) :=
  {| on_execute := fun _ =>
       answer (fun r => match r with RExecute x => Some x | _ => None end)
              (Raise (ClientError "store unreachable"));
     on_forecast_get := fun _ _ =>
       answer (fun r => match r with RForecastGet x => Some x | _ => None end)
              (Raise (ClientError "forecast unreachable"));
     on_geo_get := fun _ =>
       answer (fun r => match r with RGeoGet x => Some x | _ => None end)
              (Raise (ClientError "geocoder unreachable"));
     on_ingest := fun _ =>
       answer (fun r => match r with RIngest x => Some x | _ => None end)
              (Raise (ClientError "ingest unreachable"));
     on_now :=
       answer (fun r => match r with RNow d => Some d | _ => None end)
              (mkdate 2025 1 1);
     on_sleep := fun _ w => w |}.

End Worlds.

(** ** Sample data: Paris, 17 February 2025 *)

Module Samples.
Import Py Eff.

Definition today : date := mkdate 2025 2 17.

(** 29 rows, the latest of today: recent, and not enough. *)
Definition paris_row : row :=
  [ ("LatestDate", CDatetime (mkdatetime (mkdate 2025 2 17) 0));
    ("DataPoints", CLong 29) ].

(** 29 rows, the latest of yesterday. *)
Definition stale_row : row :=
  [ ("LatestDate", CDatetime (mkdatetime (mkdate 2025 2 16) 0));
    ("DataPoints", CLong 29) ].

Definition fresh_row : row :=
  [ ("LatestDate", CDatetime (mkdatetime (mkdate 2025 2 17) 0));
    ("DataPoints", CLong 30) ].

(** What the summarize gives for a city the store has no row of: one row,
    no latest date and a count of zero. *)
Definition unknown_row : row :=
  [ ("LatestDate", CNull); ("DataPoints", CLong 0) ].

Definition daily : series :=
  [ ("time", [SStr "2025-02-16"; SStr "2025-02-17"]);
    ("weather_code", [SInt 3; SInt 0]);
    ("temperature_2m_max", [SFloat "12.5"; SNone]);
    ("sunrise", [SStr "2025-02-16T07:58"; SStr "2025-02-17T07:56"]) ].

Definition weather : dict json :=
  [ ("latitude", JScalar (SFloat "48.85"));
    ("longitude", JScalar (SFloat "2.35"));
    ("daily", JSeries daily) ].

(** A forecast answer without the [daily] field. *)
Definition weather_error : dict json :=
  [ ("error", JScalar (SBool true));
    ("reason", JScalar (SStr "Latitude must be in range of -90 to 90")) ].

Definition yesterday_stored : table :=
  Rows [ [ ("set_DateStr", CStrings ["2025-02-16"]) ] ].

Definition both_stored : table :=
  Rows [ [ ("set_DateStr", CStrings ["2025-02-17"; "2025-02-16"]) ] ].

Definition lat : scalar := SFloat "48.85".
Definition lon : scalar := SFloat "2.35".

Definition geo_paris : dict json :=
  [ ("results", JObjects [ [ ("latitude", lat); ("longitude", lon);
                             ("name", SStr "Paris") ] ]);
    ("generationtime_ms", JScalar (SFloat "0.5")) ].

Definition geo_nowhere : dict json :=
  [ ("generationtime_ms", JScalar (SFloat "0.5")) ].

Definition stats_row (code : Z) : row :=
  [ ("MinTemp", CReal (-1 # 2)); ("MaxTemp", CReal (25 # 2)); ("AvgTemp", CReal (6 # 1));
    ("MinWind", CReal (7 # 1)); ("MaxWind", CReal (31 # 1)); ("AvgWind", CReal (15 # 1));
    ("CurrentMaxTemp", CReal (25 # 2)); ("CurrentMinTemp", CReal (4 # 1));
    ("CurrentWind", CReal (12 # 1)); ("CurrentWeatherCode", CLong code) ].

(** A refresh that ingests: the store has yesterday, the forecast brings
    yesterday and today, the append returns, and the check after it still
    sees yesterday's 29 rows. *)
Definition refresh_script : list reply :=
  [ RExecute (Ok (Rows [stale_row])); RNow today;
    RForecastGet (Ok weather);
    RExecute (Ok yesterday_stored);
    RIngest (Ok tt);
    RExecute (Ok (Rows [stale_row])); RNow today ].

Definition refresh_calls : list call :=
  Eval vm_compute in
    match exec (Image.ensure_fresh_data "paris" lat lon) refresh_script with
    | Some (_, calls) => calls
    | None => []
    end.

(** A first ingestion: the store has no row of the city, the forecast is
    appended as fetched, and the check after the append sees 30 rows. *)
Definition first_ingestion_rest : list reply :=
  [ RForecastGet (Ok weather); RIngest (Ok tt);
    RExecute (Ok (Rows [fresh_row])); RNow today ].

Definition first_ingestion_calls : list call :=
  Eval vm_compute in
    match exec (Image.ensure_fresh_data "paris" lat lon)
               (RExecute (Ok (Rows [unknown_row])) :: first_ingestion_rest) with
    | Some (_, calls) => calls
    | None => []
    end.

(** A series whose weather codes stop a day early, and one without a day. *)
Definition daily_short : series :=
  [ ("time", [SStr "2025-02-16"; SStr "2025-02-17"]);
    ("weather_code", [SInt 3]) ].

Definition weather_no_day : dict json :=
  [ ("daily", JSeries [ ("time", []); ("weather_code", []) ]) ].

(** 29 rows last dated a week ago, and a row whose count is null. *)
Definition old_row : row :=
  [ ("LatestDate", CDatetime (mkdatetime (mkdate 2025 2 10) 0));
    ("DataPoints", CNull) ].

Definition uncounted_row : row :=
  [ ("LatestDate", CDatetime (mkdatetime (mkdate 2025 2 17) 0));
    ("DataPoints", CNull) ].

(** The aggregate over no row: every statistic null. *)
Definition null_stats_row : row :=
  [ ("MinTemp", CNull); ("MaxTemp", CNull); ("AvgTemp", CNull);
    ("MinWind", CNull); ("MaxWind", CNull); ("AvgWind", CNull);
    ("CurrentMaxTemp", CNull); ("CurrentMinTemp", CNull);
    ("CurrentWind", CNull); ("CurrentWeatherCode", CNull) ].

Definition geo_no_latitude : dict json :=
  [ ("results", JObjects [ [ ("latitude", SNone); ("longitude", lon);
                             ("name", SStr "Paris") ] ]) ].

Definition count_row (n : Z) : row := [ ("RecordCount", CLong n) ].

(** A request to src/image/main.py for a city with fresh rows. *)
Definition fresh_request : list reply :=
  [ RGeoGet (Ok geo_paris); RExecute (Ok (Rows [fresh_row])); RNow today;
    RExecute (Ok (Rows [stats_row 0])) ].

Definition fresh_request_page : Web.page :=
  Eval vm_compute in
    match exec (Image.get_weather true "Paris") fresh_request with
    | Some (p, _) => p
    | None => Web.HTMLResponse ""
    end.

Definition fresh_request_calls : list call :=
  Eval vm_compute in
    match exec (Image.get_weather true "Paris") fresh_request with
    | Some (_, calls) => calls
    | None => []
    end.

(** The page src/main.py renders from the statistics of a city. *)
Definition main_stats_page : Web.page :=
  Eval vm_compute in
    match exec (Main.render_stats "paris") [RExecute (Ok (Rows [stats_row 0]))] with
    | Some (Ok p, _) => p
    | _ => Web.HTMLResponse ""
    end.

(** A request to src/main.py for a city with no row yet. *)
Definition main_request : list reply :=
  [ RGeoGet (Ok geo_paris); RExecute (Ok (Rows [count_row 0]));
    RForecastGet (Ok weather);
    RIngest (Ok tt); RSleep; RExecute (Ok (Rows [count_row 31]));
    RExecute (Ok (Rows [stats_row 0])) ].

Definition main_request_page : Web.page :=
  Eval vm_compute in
    match exec (Main.get_weather true "Paris") main_request with
    | Some (p, _) => p
    | None => Web.HTMLResponse ""
    end.

Definition main_request_calls : list call :=
  Eval vm_compute in
    match exec (Main.get_weather true "Paris") main_request with
    | Some (_, calls) => calls
    | None => []
    end.

End Samples.

(** * Properties *)

Local Open Scope list_scope.

(** ** Calendar text *)

Module PyFacts.
Import Py.

Lemma digit_val_digit (n : Z) : 0 <= n <= 9 -> digit_val (digit n) = Some n.
Proof.
  intros H.
  remember (Z.to_nat n) as k eqn:Hk.
  assert (n = Z.of_nat k) as -> by lia.
  assert (k < 10)%nat as Hlt by lia. clear H Hk.
  do 10 (destruct k as [| k]; [reflexivity |]).
  lia.
Qed.

Lemma num2_pad (n : Z) :
  0 <= n <= 99 ->
  num2 (digit (n / 10)) (digit (n mod 10)) = Some n.
Proof.
  intros H. unfold num2.
  rewrite !digit_val_digit by (Z.to_euclidean_division_equations; lia).
  f_equal. Z.to_euclidean_division_equations; lia.
Qed.

Lemma num4_pad (n : Z) :
  0 <= n <= 9999 ->
  num4 (digit (n / 1000)) (digit (n / 100 mod 10))
       (digit (n / 10 mod 10)) (digit (n mod 10)) = Some n.
Proof.
  intros H. unfold num4.
  replace (n / 1000) with (n / 100 / 10)
    by (Z.to_euclidean_division_equations; lia).
  replace (n / 10 mod 10) with (n mod 100 / 10)
    by (Z.to_euclidean_division_equations; lia).
  replace (n mod 10) with (n mod 100 mod 10)
    by (Z.to_euclidean_division_equations; lia).
  rewrite !num2_pad by (Z.to_euclidean_division_equations; lia).
  f_equal. Z.to_euclidean_division_equations; lia.
Qed.

Lemma days_in_month_le (y m : Z) : days_in_month y m <= 31.
Proof.
  unfold days_in_month.
  destruct ((m =? 2) && is_leap y); [lia |].
  destruct (Z.to_nat m) as [|[|[|[|[|[|[|[|[|[|[|[|[|[|k]]]]]]]]]]]]]]; simpl; lia.
Qed.

(** Parsing the text of a date gives the date back: the two steps of
    [check_data_freshness] on [kusto_latest_date] amount to taking its date. *)
Lemma strptime_strftime (d : date) :
  valid_date d = true -> strptime_ymd (strftime_ymd d) = Ok d.
Proof.
  intros Hv. pose proof Hv as Hv'.
  unfold valid_date in Hv'.
  repeat (apply andb_prop in Hv'; destruct Hv' as [Hv' ?]).
  pose proof (days_in_month_le (year d) (month d)).
  cbv [strftime_ymd pad4 pad2 append strptime_ymd].
  rewrite num4_pad by lia. rewrite !num2_pad by lia.
  destruct d as [y m dd]. cbn [year month day] in *. rewrite Hv. reflexivity.
Qed.

Lemma strftime_not_empty (d : date) : strftime_ymd d <> ""%string.
Proof. cbv [strftime_ymd pad4 pad2 append]. discriminate. Qed.

End PyFacts.

(** ** Runs of composed programs *)

Module EffFacts.
Import Py Eff.

(** The run of [pbind p f] is a run of [p] followed by a run of what [f]
    makes of its value. *)
Lemma exec_pbind_intro {A B : Type} (p : prog A) (f : A -> prog B) :
  forall s1 s2 a c1 b c2,
    exec p s1 = Some (a, c1) ->
    exec (f a) s2 = Some (b, c2) ->
    exec (pbind p f) (s1 ++ s2) = Some (b, c1 ++ c2).
Proof.
  induction p as [a0 | q k IH | lat lon k IH | name k IH | csv k IH | k IH | secs k IH];
    intros s1 s2 a c1 b c2 Hp Hf.
  - destruct s1; simpl in Hp; [| discriminate].
    injection Hp as <- <-. exact Hf.
  - destruct s1 as [| [] s1]; simpl in Hp; try discriminate.
    destruct (exec (k r) s1) as [[a' c'] |] eqn:E; [| discriminate].
    injection Hp as <- <-. simpl. rewrite (IH r _ _ _ _ _ _ E Hf). reflexivity.
  - destruct s1 as [| [] s1]; simpl in Hp; try discriminate.
    destruct (exec (k r) s1) as [[a' c'] |] eqn:E; [| discriminate].
    injection Hp as <- <-. simpl. rewrite (IH r _ _ _ _ _ _ E Hf). reflexivity.
  - destruct s1 as [| [] s1]; simpl in Hp; try discriminate.
    destruct (exec (k r) s1) as [[a' c'] |] eqn:E; [| discriminate].
    injection Hp as <- <-. simpl. rewrite (IH r _ _ _ _ _ _ E Hf). reflexivity.
  - destruct s1 as [| [] s1]; simpl in Hp; try discriminate.
    destruct (exec (k r) s1) as [[a' c'] |] eqn:E; [| discriminate].
    injection Hp as <- <-. simpl. rewrite (IH r _ _ _ _ _ _ E Hf). reflexivity.
  - destruct s1 as [| [] s1]; simpl in Hp; try discriminate.
    destruct (exec (k d) s1) as [[a' c'] |] eqn:E; [| discriminate].
    injection Hp as <- <-. simpl. rewrite (IH d _ _ _ _ _ _ E Hf). reflexivity.
  - destruct s1 as [| [] s1]; simpl in Hp; try discriminate.
    destruct (exec (k tt) s1) as [[a' c'] |] eqn:E; [| discriminate].
    injection Hp as <- <-. simpl. rewrite (IH tt _ _ _ _ _ _ E Hf). reflexivity.
Qed.

Lemma exec_pbind_elim {A B : Type} (p : prog A) (f : A -> prog B) :
  forall s b cs,
    exec (pbind p f) s = Some (b, cs) ->
    exists s1 s2 a c1 c2,
      s = s1 ++ s2 /\ cs = c1 ++ c2 /\
      exec p s1 = Some (a, c1) /\ exec (f a) s2 = Some (b, c2).
Proof.
  induction p as [a0 | q k IH | lat lon k IH | name k IH | csv k IH | k IH | secs k IH];
    intros s b cs H.
  - exists [], s, a0, [], cs. repeat split; assumption.
  - destruct s as [| [] s]; simpl in H; try discriminate.
    destruct (exec (pbind (k r) f) s) as [[b' c'] |] eqn:E; [| discriminate].
    injection H as <- <-.
    destruct (IH r _ _ _ E) as (s1 & s2 & a & c1 & c2 & -> & -> & H1 & H2).
    exists (RExecute r :: s1), s2, a, (CExecute q :: c1), c2.
    repeat split; try assumption. simpl. rewrite H1. reflexivity.
  - destruct s as [| [] s]; simpl in H; try discriminate.
    destruct (exec (pbind (k r) f) s) as [[b' c'] |] eqn:E; [| discriminate].
    injection H as <- <-.
    destruct (IH r _ _ _ E) as (s1 & s2 & a & c1 & c2 & -> & -> & H1 & H2).
    exists (RForecastGet r :: s1), s2, a, (CForecastGet lat lon :: c1), c2.
    repeat split; try assumption. simpl. rewrite H1. reflexivity.
  - destruct s as [| [] s]; simpl in H; try discriminate.
    destruct (exec (pbind (k r) f) s) as [[b' c'] |] eqn:E; [| discriminate].
    injection H as <- <-.
    destruct (IH r _ _ _ E) as (s1 & s2 & a & c1 & c2 & -> & -> & H1 & H2).
    exists (RGeoGet r :: s1), s2, a, (CGeoGet name :: c1), c2.
    repeat split; try assumption. simpl. rewrite H1. reflexivity.
  - destruct s as [| [] s]; simpl in H; try discriminate.
    destruct (exec (pbind (k r) f) s) as [[b' c'] |] eqn:E; [| discriminate].
    injection H as <- <-.
    destruct (IH r _ _ _ E) as (s1 & s2 & a & c1 & c2 & -> & -> & H1 & H2).
    exists (RIngest r :: s1), s2, a, (CIngest csv :: c1), c2.
    repeat split; try assumption. simpl. rewrite H1. reflexivity.
  - destruct s as [| [] s]; simpl in H; try discriminate.
    destruct (exec (pbind (k d) f) s) as [[b' c'] |] eqn:E; [| discriminate].
    injection H as <- <-.
    destruct (IH d _ _ _ E) as (s1 & s2 & a & c1 & c2 & -> & -> & H1 & H2).
    exists (RNow d :: s1), s2, a, (CNow :: c1), c2.
    repeat split; try assumption. simpl. rewrite H1. reflexivity.
  - destruct s as [| [] s]; simpl in H; try discriminate.
    destruct (exec (pbind (k tt) f) s) as [[b' c'] |] eqn:E; [| discriminate].
    injection H as <- <-.
    destruct (IH tt _ _ _ E) as (s1 & s2 & a & c1 & c2 & -> & -> & H1 & H2).
    exists (RSleep :: s1), s2, a, (CSleep secs :: c1), c2.
    repeat split; try assumption. simpl. rewrite H1. reflexivity.
Qed.

(** The converse, once the run of [p] is known: on a script that starts
    with the replies [p] consumed, the run of [pbind p f] goes on with what
    [f] makes of the value of [p]. *)
Lemma exec_pbind_split {A B : Type} (p : prog A) (f : A -> prog B) :
  forall s1 s2 a c1 b cs,
    exec p s1 = Some (a, c1) ->
    exec (pbind p f) (s1 ++ s2) = Some (b, cs) ->
    exists c2, cs = c1 ++ c2 /\ exec (f a) s2 = Some (b, c2).
Proof.
  induction p as [a0 | q k IH | lat lon k IH | name k IH | csv k IH | k IH | secs k IH];
    intros s1 s2 a c1 b cs Hp H;
    (destruct s1 as [| [] s1]; simpl in Hp; try discriminate).
  - injection Hp as <- <-. exists cs. split; [reflexivity | exact H].
  - destruct (exec (k r) s1) as [[a' c'] |] eqn:E; [| discriminate].
    injection Hp as <- <-. simpl in H.
    destruct (exec (pbind (k r) f) (s1 ++ s2)) as [[b' cs'] |] eqn:E'; [| discriminate].
    injection H as <- <-.
    destruct (IH r _ _ _ _ _ _ E E') as (c2 & -> & H2). exists c2. auto.
  - destruct (exec (k r) s1) as [[a' c'] |] eqn:E; [| discriminate].
    injection Hp as <- <-. simpl in H.
    destruct (exec (pbind (k r) f) (s1 ++ s2)) as [[b' cs'] |] eqn:E'; [| discriminate].
    injection H as <- <-.
    destruct (IH r _ _ _ _ _ _ E E') as (c2 & -> & H2). exists c2. auto.
  - destruct (exec (k r) s1) as [[a' c'] |] eqn:E; [| discriminate].
    injection Hp as <- <-. simpl in H.
    destruct (exec (pbind (k r) f) (s1 ++ s2)) as [[b' cs'] |] eqn:E'; [| discriminate].
    injection H as <- <-.
    destruct (IH r _ _ _ _ _ _ E E') as (c2 & -> & H2). exists c2. auto.
  - destruct (exec (k r) s1) as [[a' c'] |] eqn:E; [| discriminate].
    injection Hp as <- <-. simpl in H.
    destruct (exec (pbind (k r) f) (s1 ++ s2)) as [[b' cs'] |] eqn:E'; [| discriminate].
    injection H as <- <-.
    destruct (IH r _ _ _ _ _ _ E E') as (c2 & -> & H2). exists c2. auto.
  - destruct (exec (k d) s1) as [[a' c'] |] eqn:E; [| discriminate].
    injection Hp as <- <-. simpl in H.
    destruct (exec (pbind (k d) f) (s1 ++ s2)) as [[b' cs'] |] eqn:E'; [| discriminate].
    injection H as <- <-.
    destruct (IH d _ _ _ _ _ _ E E') as (c2 & -> & H2). exists c2. auto.
  - destruct (exec (k tt) s1) as [[a' c'] |] eqn:E; [| discriminate].
    injection Hp as <- <-. simpl in H.
    destruct (exec (pbind (k tt) f) (s1 ++ s2)) as [[b' cs'] |] eqn:E'; [| discriminate].
    injection H as <- <-.
    destruct (IH tt _ _ _ _ _ _ E E') as (c2 & -> & H2). exists c2. auto.
Qed.

(** A program returns in every world, and [exec] on the replies the world
    gave is that run: what is proved of [exec] over all scripts holds of
    every run. *)
Lemma run_exec {A W : Type} (env : world W) (p : prog A) :
  forall w a w' rs,
    run env p w = (a, w', rs) -> exists cs, exec p rs = Some (a, cs).
Proof.
  induction p as [a0 | q k IH | lat lon k IH | name k IH | csv k IH | k IH | secs k IH];
    intros w a w' rs H; simpl in H.
  - injection H as <- <- <-. exists []. reflexivity.
  - destruct (on_execute env q w) as [r w1].
    destruct (run env (k r) w1) as [[a1 w2] rs1] eqn:E. injection H as <- <- <-.
    destruct (IH r _ _ _ _ E) as [cs Hcs]. exists (CExecute q :: cs).
    simpl. rewrite Hcs. reflexivity.
  - destruct (on_forecast_get env lat lon w) as [r w1].
    destruct (run env (k r) w1) as [[a1 w2] rs1] eqn:E. injection H as <- <- <-.
    destruct (IH r _ _ _ _ E) as [cs Hcs]. exists (CForecastGet lat lon :: cs).
    simpl. rewrite Hcs. reflexivity.
  - destruct (on_geo_get env name w) as [r w1].
    destruct (run env (k r) w1) as [[a1 w2] rs1] eqn:E. injection H as <- <- <-.
    destruct (IH r _ _ _ _ E) as [cs Hcs]. exists (CGeoGet name :: cs).
    simpl. rewrite Hcs. reflexivity.
  - destruct (on_ingest env csv w) as [r w1].
    destruct (run env (k r) w1) as [[a1 w2] rs1] eqn:E. injection H as <- <- <-.
    destruct (IH r _ _ _ _ E) as [cs Hcs]. exists (CIngest csv :: cs).
    simpl. rewrite Hcs. reflexivity.
  - destruct (on_now env w) as [d w1].
    destruct (run env (k d) w1) as [[a1 w2] rs1] eqn:E. injection H as <- <- <-.
    destruct (IH d _ _ _ _ E) as [cs Hcs]. exists (CNow :: cs).
    simpl. rewrite Hcs. reflexivity.
  - destruct (run env (k tt) (on_sleep env secs w)) as [[a1 w2] rs1] eqn:E.
    injection H as <- <- <-.
    destruct (IH tt _ _ _ _ E) as [cs Hcs]. exists (CSleep secs :: cs).
    simpl. rewrite Hcs. reflexivity.
Qed.


End EffFacts.

(** ** src/image/main.py: the freshness check *)

Module ImageFacts.
Import Py Eff Web Image Samples PyFacts EffFacts.

Example toordinal_2025_02_17 : toordinal (mkdate 2025 2 17) = 739299.
Proof. reflexivity. Qed.

Example days_over_leap_day : days_between (mkdate 2024 3 1) (mkdate 2024 2 28) = 2.
Proof. reflexivity. Qed.

Example strftime_2025_02_17 : strftime_ymd (mkdate 2025 2 17) = "2025-02-17"%string.
Proof. reflexivity. Qed.

(** The check on a row that has a date: one query, one look at the clock. *)
Lemma check_data_freshness_dated (city : string) (row : row) (rest : list Eff.row)
    (dt : datetime) (points : cell) (today : date) :
  valid_date (dt_date dt) = true ->
  dict_get "LatestDate" row = Some (CDatetime dt) ->
  dict_get "DataPoints" row = Some points ->
  exec (check_data_freshness city) [RExecute (Ok (Rows (row :: rest))); RNow today]
  = Some (match (if Z.abs (days_between today (dt_date dt)) <=? 1
                 then ge_30 points else Ok false) with
          | Ok is_fresh => Ok (is_fresh, strftime_ymd (dt_date dt))
          | Raise e => Raise e
          end,
          [CExecute (LatestDateQuery city); CNow]).
Proof.
  intros Hv Hd Hp.
  unfold check_data_freshness, execute, lift, now, getitem, index.
  cbn [bind ret Monad_M pbind exec nth_error].
  rewrite Hd, Hp. cbn [pbind exec].
  rewrite (strptime_strftime _ Hv). cbn [pbind exec].
  destruct (Z.abs (days_between today (dt_date dt)) <=? 1).
  - cbn [pbind exec]. destruct (ge_30 points); reflexivity.
  - reflexivity.
Qed.

(** Every run of the check is one query, then at most one look at the
    clock: it fetches nothing and ingests nothing. *)
Lemma check_data_freshness_runs (city : string) (script : list reply)
    (r : result (bool * string)) (calls : list call) :
  exec (check_data_freshness city) script = Some (r, calls) ->
  (exists t, script = [RExecute t] /\ calls = [CExecute (LatestDateQuery city)])
  \/ (exists t d, script = [RExecute t; RNow d]
                  /\ calls = [CExecute (LatestDateQuery city); CNow]).
Proof.
  unfold check_data_freshness, execute, lift, now.
  cbn [bind ret raise Monad_M MonadExc_M pbind exec].
  destruct script as [| [t | | | | |] script]; try discriminate.
  destruct t as [[| [| row rest]] | e]; unfold index; cbn [pbind exec nth_error].
  - destruct script; [| discriminate]. intros H. injection H as <- <-. left. eauto.
  - destruct script; [| discriminate]. intros H. injection H as <- <-. left. eauto.
  - destruct (getitem row "LatestDate") as [latest | e]; cbn [pbind exec].
    + destruct (getitem row "DataPoints") as [points | e]; cbn [pbind exec].
      * destruct latest; cbn [pbind exec];
          try (destruct script; [| discriminate]; intros H; injection H as <- <-;
               left; eauto).
        destruct (strptime_ymd (strftime_ymd (dt_date dt))) as [obj | e];
          cbn [pbind exec].
        -- destruct script as [| [| | | | d |] script]; try discriminate.
           destruct (Z.abs (days_between d obj) <=? 1); cbn [pbind exec].
           ++ destruct (ge_30 points); cbn [pbind exec];
                (destruct script; [| discriminate]; intros H; injection H as <- <-;
                 right; eauto).
           ++ destruct script; [| discriminate]. intros H. injection H as <- <-.
              right. eauto.
        -- destruct script; [| discriminate]. intros H. injection H as <- <-.
           left. eauto.
      * destruct script; [| discriminate]. intros H. injection H as <- <-. left. eauto.
    + destruct script; [| discriminate]. intros H. injection H as <- <-. left. eauto.
  - destruct script; [| discriminate]. intros H. injection H as <- <-. left. eauto.
Qed.

Lemma check_data_freshness_quiet (city : string) (script : list reply)
    (r : result (bool * string)) (calls : list call) :
  exec (check_data_freshness city) script = Some (r, calls) ->
  count_calls is_forecast_get calls = 0%nat /\ count_calls is_ingest calls = 0%nat
  /\ Forall not_ingest_reply script.
Proof.
  intros H.
  destruct (check_data_freshness_runs _ _ _ _ H)
    as [(t & -> & ->) | (t & d & -> & ->)]; repeat split; repeat constructor.
Qed.

(** A row without a latest date: the check answers before it reads the
    clock. *)
Lemma check_data_freshness_undated (city : string) (row : row) (rest : list Eff.row)
    (points : cell) :
  dict_get "LatestDate" row = Some CNull ->
  dict_get "DataPoints" row = Some points ->
  exec (check_data_freshness city) [RExecute (Ok (Rows (row :: rest)))]
  = Some (Ok (false, ""%string), [CExecute (LatestDateQuery city)]).
Proof.
  intros Hd Hp.
  unfold check_data_freshness, execute, lift, getitem, index.
  cbn [bind ret Monad_M pbind exec nth_error].
  rewrite Hd, Hp. reflexivity.
Qed.

(** A result that has its columns and no row is true, and [[0]] on it
    raises: the check has no answer for it. *)
Lemma check_data_freshness_no_row (city : string) :
  exec (check_data_freshness city) [RExecute (Ok (Rows []))]
  = Some (Raise IndexError, [CExecute (LatestDateQuery city)]).
Proof. reflexivity. Qed.

(** C1. For a city with stored rows the check answers [is_fresh = true]
    exactly when today and the latest stored date are at most one day apart
    and at least 30 rows are stored; 29 rows dated today are not fresh.  The
    latest date is of the year 1000 or later, where its [%Y-%m-%d] text is
    the one [strptime] reads back.  For a city without rows the summarize
    gives one row whose latest date is null, and the answer is
    [(False, "")]; a result without columns has the same answer. *)
Theorem check_data_freshness_spec (city : string) :
  (forall (row : row) (rest : list Eff.row) (dt : datetime) (n : Z) (today : date),
      valid_date (dt_date dt) = true ->
      four_digit_year (dt_date dt) = true ->
      dict_get "LatestDate" row = Some (CDatetime dt) ->
      dict_get "DataPoints" row = Some (CLong n) ->
      exists is_fresh : bool,
        exec (check_data_freshness city)
             [RExecute (Ok (Rows (row :: rest))); RNow today]
        = Some (Ok (is_fresh, strftime_ymd (dt_date dt)),
                [CExecute (LatestDateQuery city); CNow])
        /\ (is_fresh = true <->
            Z.abs (days_between today (dt_date dt)) <= 1 /\ 30 <= n)
        /\ (n = 29 -> dt_date dt = today -> is_fresh = false))
  /\ (forall (row : row) (rest : list Eff.row) (points : cell),
        dict_get "LatestDate" row = Some CNull ->
        dict_get "DataPoints" row = Some points ->
        exec (check_data_freshness city) [RExecute (Ok (Rows (row :: rest)))]
        = Some (Ok (false, ""%string), [CExecute (LatestDateQuery city)]))
  /\ exec (check_data_freshness city) [RExecute (Ok NoColumns)]
     = Some (Ok (false, ""%string), [CExecute (LatestDateQuery city)]).
Proof.
  split; [| split].
  - intros row rest dt n today Hv _ Hd Hp.
    exists ((Z.abs (days_between today (dt_date dt)) <=? 1) && (30 <=? n)).
    split; [| split].
    + rewrite (check_data_freshness_dated city row rest dt (CLong n) today Hv Hd Hp).
      destruct (Z.abs (days_between today (dt_date dt)) <=? 1); reflexivity.
    + rewrite andb_true_iff, Z.leb_le, Z.leb_le. reflexivity.
    + intros -> _. apply andb_false_intro2. reflexivity.
  - intros row rest points Hd Hp.
    exact (check_data_freshness_undated city row rest points Hd Hp).
  - reflexivity.
Qed.

Lemma check_data_freshness_spec_witness :
  (exists is_fresh : bool,
    exec (check_data_freshness "paris")
         [RExecute (Ok (Rows [paris_row])); RNow (mkdate 2025 2 17)]
    = Some (Ok (is_fresh, "2025-02-17"%string),
            [CExecute (LatestDateQuery "paris"); CNow])
    /\ (is_fresh = true <->
        Z.abs (days_between (mkdate 2025 2 17) (mkdate 2025 2 17)) <= 1 /\ 30 <= 29)
    /\ (29 = 29 -> mkdate 2025 2 17 = mkdate 2025 2 17 -> is_fresh = false))
  /\ exec (check_data_freshness "paris") [RExecute (Ok (Rows [unknown_row]))]
     = Some (Ok (false, ""%string), [CExecute (LatestDateQuery "paris")]).
Proof.
  split.
  - exact (proj1 (check_data_freshness_spec "paris") paris_row []
             (mkdatetime (mkdate 2025 2 17) 0) 29 (mkdate 2025 2 17)
             eq_refl eq_refl eq_refl eq_refl).
  - exact (proj1 (proj2 (check_data_freshness_spec "paris")) unknown_row []
             (CLong 0) eq_refl eq_refl).
Defined.

End ImageFacts.

(** ** Dictionaries *)

Module DictFacts.
Import Py.

Lemma dict_get_app_notin {V : Type} (k : string) (a b : dict V) :
  ~ In k (keys a) -> dict_get k (a ++ b) = dict_get k b.
Proof.
  induction a as [| [k' v] a IH]; intros Hk; [reflexivity |].
  simpl in *. destruct (String.eqb_spec k k') as [-> | _].
  - exfalso. apply Hk. now left.
  - apply IH. intros Hin. apply Hk. now right.
Qed.

Lemma dict_set_app_notin {V : Type} (k : string) (v : V) (a b : dict V) :
  ~ In k (keys a) -> dict_set k v (a ++ b) = a ++ dict_set k v b.
Proof.
  induction a as [| [k' v'] a IH]; intros Hk; [reflexivity |].
  simpl in *. destruct (String.eqb_spec k k') as [-> | _].
  - exfalso. apply Hk. now left.
  - f_equal. apply IH. intros Hin. apply Hk. now right.
Qed.

Lemma dict_get_set_same {V : Type} (k : string) (v : V) (d : dict V) :
  dict_get k (dict_set k v d) = Some v.
Proof.
  induction d as [| [k' v'] d IH]; simpl.
  - now rewrite String.eqb_refl.
  - destruct (String.eqb_spec k k') as [-> | Hne]; simpl.
    + now rewrite String.eqb_refl.
    + destruct (String.eqb_spec k k'); [contradiction | exact IH].
Qed.

Lemma dict_get_set_other {V : Type} (k k' : string) (v : V) (d : dict V) :
  k <> k' -> dict_get k (dict_set k' v d) = dict_get k d.
Proof.
  intros Hne. induction d as [| [k0 v0] d IH]; simpl.
  - destruct (String.eqb_spec k k'); [contradiction | reflexivity].
  - destruct (String.eqb_spec k' k0) as [<- | Hne0]; simpl.
    + destruct (String.eqb_spec k k'); [contradiction | reflexivity].
    + destruct (String.eqb_spec k k0); [reflexivity | exact IH].
Qed.

Lemma dict_get_in_keys {V : Type} (k : string) (d : dict V) :
  In k (keys d) -> exists v, dict_get k d = Some v /\ In (k, v) d.
Proof.
  induction d as [| [k' v'] d IH]; simpl; [contradiction |].
  intros Hin. destruct (String.eqb_spec k k') as [-> | Hne].
  - exists v'. split; [reflexivity | now left].
  - destruct Hin as [-> | Hin]; [contradiction |].
    destruct (IH Hin) as (v & Hv & Hi). exists v. split; [exact Hv | now right].
Qed.

Lemma dict_get_in {V : Type} (k : string) (v : V) (d : dict V) :
  dict_get k d = Some v -> In (k, v) d.
Proof.
  induction d as [| [k' v'] d IH]; simpl; [discriminate |].
  destruct (String.eqb_spec k k') as [-> | Hne].
  - intros H. injection H as ->. now left.
  - intros H. right. exact (IH H).
Qed.

Lemma dict_mem_get {V : Type} (k : string) (d : dict V) :
  dict_mem k d = true <-> exists v, dict_get k d = Some v.
Proof.
  unfold dict_mem. induction d as [| [k' v'] d IH]; simpl.
  - split; [discriminate | intros [v H]; discriminate].
  - destruct (String.eqb_spec k k') as [-> | Hne]; simpl.
    + split; [eauto | reflexivity].
    + exact IH.
Qed.

Lemma index_lt {V : Type} (l : list V) (i : nat) (d : V) :
  (i < List.length l)%nat -> index l i = Ok (nth i l d).
Proof.
  intros H. unfold index. now rewrite (nth_error_nth' l d H).
Qed.

End DictFacts.

(** ** src/image/main.py: the dedup filter *)

Module DedupFacts.
Import Py Eff Web Image Dedup DictFacts.

Lemma select_snoc (column : list scalar) (indices : list nat) (i : nat) :
  select column (indices ++ [i]) = select column indices ++ [nth i column SNone].
Proof. unfold select. now rewrite map_app. Qed.

Lemma keys_filtered_by_index (daily_data : series) (indices : list nat) :
  keys (filtered_by_index daily_data indices) = keys daily_data.
Proof.
  unfold keys, filtered_by_index. rewrite map_map. reflexivity.
Qed.

Lemma dict_get_filtered_by_index (daily_data : series) (indices : list nat) (k : string) :
  dict_get k (filtered_by_index daily_data indices)
  = option_map (fun column => select column indices) (dict_get k daily_data).
Proof.
  induction daily_data as [| [k' column] d IH]; [reflexivity |].
  simpl. destruct (String.eqb k k'); [reflexivity | exact IH].
Qed.

(** The fresh dictionary of the comprehension: every key, with no value. *)
Lemma empty_columns (ks : list string) :
  NoDup ks ->
  forall acc : series,
    (forall k, In k ks -> ~ In k (keys acc)) ->
    fold_left (fun acc key => dict_set key [] acc) ks acc
    = acc ++ map (fun k => (k, [])) ks.
Proof.
  induction 1 as [| k ks Hk Hnd IH]; intros acc Hacc; simpl.
  - now rewrite app_nil_r.
  - rewrite IH.
    + replace acc with (acc ++ []) at 1 by apply app_nil_r.
      rewrite dict_set_app_notin by (apply Hacc; now left).
      simpl. rewrite <- app_assoc. reflexivity.
    + intros k' Hk'.
      replace acc with (acc ++ []) by apply app_nil_r.
      rewrite dict_set_app_notin by (apply Hacc; now left).
      unfold keys. rewrite map_app. simpl. rewrite in_app_iff. simpl.
      intros [Hin | [<- | []]].
      * apply (Hacc k'); [now right | exact Hin].
      * contradiction.
Qed.

Section OneIndex.
Variable indices : list nat.
Variable i : nat.

Let old (kv : string * list scalar) := (fst kv, select (snd kv) indices).
Let new (kv : string * list scalar) := (fst kv, select (snd kv) (indices ++ [i])).

(** The inner loop at index [i]: one value more under every key. *)
Lemma append_every_key (todo : series) :
  forall done : series,
    NoDup (keys (done ++ todo)) ->
    (forall kv, In kv todo -> (i < List.length (snd kv))%nat) ->
    foldM (append_at (done ++ todo) i) (keys todo) (map new done ++ map old todo)
    = Ok (map new (done ++ todo)).
Proof.
  induction todo as [| [k column] todo IH]; intros done Hnd Hlen.
  - simpl. now rewrite !app_nil_r.
  - assert (~ In k (keys done)) as Hk.
    { unfold keys in *. rewrite map_app in Hnd. simpl in Hnd.
      apply NoDup_remove_2 in Hnd. intros Hin. apply Hnd.
      apply in_or_app. now left. }
    simpl. unfold append_at at 1. unfold getitem.
    cbn [bind ret Monad_result].
    rewrite dict_get_app_notin by exact Hk. simpl. rewrite String.eqb_refl.
    rewrite (index_lt column i SNone) by (apply (Hlen (k, column)); now left).
    rewrite dict_get_app_notin
      by (unfold keys, new; rewrite map_map; exact Hk).
    simpl. rewrite String.eqb_refl.
    rewrite dict_set_app_notin
      by (unfold keys, new; rewrite map_map; exact Hk).
    simpl. rewrite String.eqb_refl.
    specialize (IH (done ++ [(k, column)])).
    rewrite <- !app_assoc in IH. simpl in IH.
    rewrite map_app in IH. simpl in IH. rewrite <- app_assoc in IH. simpl in IH.
    unfold new at 2 in IH. simpl in IH. rewrite select_snoc in IH.
    rewrite IH.
    + reflexivity.
    + exact Hnd.
    + intros kv Hkv. apply Hlen. now right.
Qed.
End OneIndex.

Section Loop.
Variable daily_data : series.
Variable dates : list scalar.
Variable existing_dates : list string.
Hypothesis unique_keys : NoDup (keys daily_data).
Hypothesis aligned :
  Forall (fun kv => List.length (snd kv) = List.length dates) daily_data.

Let keep (i : nat) : bool := not_in (nth i dates SNone) existing_dates.

Let body (filtered : series) (i : nat) : result series :=
  date_i <- index dates i ;;
  if not_in date_i existing_dates
  then foldM (append_at daily_data i) (keys daily_data) filtered
  else ret filtered.

(** The outer loop over the indices [l]: the kept ones are added, in
    order, to every key alike. *)
Lemma filter_loop (l : list nat) :
  forall indices : list nat,
    (forall i, In i l -> (i < List.length dates)%nat) ->
    foldM body l (filtered_by_index daily_data indices)
    = Ok (filtered_by_index daily_data (indices ++ filter keep l)).
Proof.
  induction l as [| i l IH]; intros indices Hl; simpl.
  - now rewrite app_nil_r.
  - unfold body at 1. cbn [bind ret Monad_result].
    rewrite (index_lt dates i SNone) by (apply Hl; now left).
    fold (keep i). destruct (keep i).
    + pose proof (append_every_key indices i daily_data [] unique_keys) as Hin.
      simpl in Hin. unfold filtered_by_index at 1. rewrite Hin.
      * fold (filtered_by_index daily_data (indices ++ [i])).
        rewrite IH by (intros j Hj; apply Hl; now right).
        rewrite <- app_assoc. reflexivity.
      * intros kv Hkv. rewrite Forall_forall in aligned.
        rewrite (aligned kv Hkv). apply Hl. now left.
    + apply IH. intros j Hj. apply Hl. now right.
Qed.
End Loop.

(** The filter on a well-formed series is the cut by the kept indices. *)
Lemma filter_daily_data_closed_form (daily_data : series) (dates : list scalar)
    (existing_dates : list string) :
  NoDup (keys daily_data) ->
  dict_get "time" daily_data = Some dates ->
  Forall (fun kv => List.length (snd kv) = List.length dates) daily_data ->
  filter_daily_data daily_data existing_dates
  = Ok (filtered_by_index daily_data (kept_indices dates existing_dates)).
Proof.
  intros Hnd Htime Hlen.
  unfold filter_daily_data, getitem. rewrite Htime.
  cbn [bind ret Monad_result].
  rewrite (empty_columns (keys daily_data) Hnd []) by (intros k _ []).
  simpl.
  pose proof (filter_loop daily_data dates existing_dates Hnd Hlen
                (range (List.length dates)) []) as Hloop.
  simpl in Hloop. unfold filtered_by_index at 1 in Hloop. simpl in Hloop.
  unfold keys. rewrite map_map.
  unfold select in Hloop. simpl in Hloop.
  unfold kept_indices. apply Hloop.
  intros i Hi. unfold range in Hi. apply in_seq in Hi. lia.
Qed.


(** Whatever the series looks like, what ends up under ["time"] passed the
    membership test. *)
Section NoExistingDate.
Variable daily_data : series.
Variable dates : list scalar.
Variable existing_dates : list string.
Hypothesis time_column : dict_get "time" daily_data = Some dates.

Let new_dates (filtered : series) : Prop :=
  forall time, dict_get "time" filtered = Some time ->
               Forall (fun v => not_in v existing_dates = true) time.

Lemma append_at_new_dates (i : nat) (date_i : scalar) (filtered filtered' : series)
    (key : string) :
  index dates i = Ok date_i ->
  not_in date_i existing_dates = true ->
  new_dates filtered ->
  append_at daily_data i filtered key = Ok filtered' ->
  new_dates filtered'.
Proof.
  intros Hi Hnew Hinv. unfold append_at, getitem.
  cbn [bind ret Monad_result].
  destruct (dict_get key daily_data) as [column |] eqn:Hcol; [| discriminate].
  destruct (index column i) as [value | e] eqn:Hval; [| discriminate].
  destruct (dict_get key filtered) as [kept |] eqn:Hkept; [| discriminate].
  intros H. injection H as <-. intros time.
  destruct (String.eqb_spec "time" key) as [<- | Hne].
  - rewrite dict_get_set_same. intros Ht. injection Ht as <-.
    rewrite time_column in Hcol. injection Hcol as <-.
    rewrite Hi in Hval. injection Hval as <-.
    apply Forall_app. split; [exact (Hinv _ Hkept) | now constructor].
  - rewrite dict_get_set_other by exact Hne. apply Hinv.
Qed.

Lemma append_every_key_new_dates (i : nat) (date_i : scalar) (ks : list string) :
  index dates i = Ok date_i ->
  not_in date_i existing_dates = true ->
  forall filtered filtered',
    new_dates filtered ->
    foldM (append_at daily_data i) ks filtered = Ok filtered' ->
    new_dates filtered'.
Proof.
  intros Hi Hnew. induction ks as [| k ks IH]; intros filtered filtered' Hinv; simpl.
  - intros H. injection H as <-. exact Hinv.
  - destruct (append_at daily_data i filtered k) as [f1 | e] eqn:E; [| discriminate].
    apply IH. exact (append_at_new_dates i date_i filtered f1 k Hi Hnew Hinv E).
Qed.

Lemma empty_columns_new_dates (ks : list string) :
  forall acc, new_dates acc ->
              new_dates (fold_left (fun acc key => dict_set key [] acc) ks acc).
Proof.
  induction ks as [| k ks IH]; intros acc Hinv; simpl; [exact Hinv |].
  apply IH. intros time.
  destruct (String.eqb_spec "time" k) as [<- | Hne].
  - rewrite dict_get_set_same. intros H. injection H as <-. constructor.
  - rewrite dict_get_set_other by exact Hne. apply Hinv.
Qed.

Lemma filter_loop_new_dates (l : list nat) :
  forall filtered filtered',
    new_dates filtered ->
    foldM (fun filtered i =>
             date_i <- index dates i ;;
             if not_in date_i existing_dates
             then foldM (append_at daily_data i) (keys daily_data) filtered
             else ret filtered) l filtered = Ok filtered' ->
    new_dates filtered'.
Proof.
  induction l as [| i l IH]; intros filtered filtered' Hinv; simpl.
  - intros H. injection H as <-. exact Hinv.
  - cbn [bind ret Monad_result].
    destruct (index dates i) as [date_i | e] eqn:Hi; [| discriminate].
    destruct (not_in date_i existing_dates) eqn:Hnew.
    + destruct (foldM (append_at daily_data i) (keys daily_data) filtered)
        as [f1 | e] eqn:E; [| discriminate].
      apply IH.
      exact (append_every_key_new_dates i date_i _ Hi Hnew _ _ Hinv E).
    + apply IH. exact Hinv.
Qed.
End NoExistingDate.

Lemma not_in_existing (s : string) (existing_dates : list string) :
  not_in (SStr s) existing_dates = true -> ~ In s existing_dates.
Proof.
  simpl. intros H Hin.
  apply negb_true_iff in H.
  assert (existsb (String.eqb s) existing_dates = true) as Hex.
  { apply existsb_exists. exists s. split; [exact Hin | apply String.eqb_refl]. }
  congruence.
Qed.

(** No date of the store survives the filter. *)
Lemma filter_daily_data_new_dates (daily_data filtered : series)
    (existing_dates : list string) (time : list scalar) :
  filter_daily_data daily_data existing_dates = Ok filtered ->
  dict_get "time" filtered = Some time ->
  forall s, In s existing_dates -> ~ In (SStr s) time.
Proof.
  unfold filter_daily_data, getitem. cbn [bind ret Monad_result].
  destruct (dict_get "time" daily_data) as [dates |] eqn:Htime; [| discriminate].
  intros Hf Ht s Hs Hin.
  pose proof (filter_loop_new_dates daily_data dates existing_dates Htime
                (range (List.length dates)) _ filtered
                (empty_columns_new_dates existing_dates (keys daily_data) []
                   (fun time H => ltac:(discriminate H)))
                Hf time Ht) as Hall.
  rewrite Forall_forall in Hall.
  exact (not_in_existing s existing_dates (Hall _ Hin) Hs).
Qed.

End DedupFacts.

(** ** src/image/main.py: the runs of [ensure_fresh_data] *)

Module PipelineFacts.
Import Py Eff Web Image Dedup PyFacts EffFacts DictFacts DedupFacts ImageFacts.

Lemma exec_ret_inv {A : Type} (a r : A) (s : list reply) (cs : list call) :
  exec (Ret a) s = Some (r, cs) -> s = [] /\ cs = [] /\ r = a.
Proof.
  destruct s; simpl; [| discriminate].
  intros H. injection H as <- <-. auto.
Qed.

Ltac ret_inv H :=
  apply exec_ret_inv in H; destruct H as (-> & -> & ->).

(** A run of the last [try]: the append, and when the append returned, a
    whole run of the check whose verdict is the result. *)
Lemma ingest_and_verify_runs (city : string) (data : list string)
    (s : list reply) (r : result bool) (calls : list call) :
  exec (ingest_and_verify city data) s = Some (r, calls) ->
  exists res s4 c4,
    s = RIngest res :: s4 /\ calls = CIngest (join newline data) :: c4 /\
    match res with
    | Raise _ => s4 = [] /\ c4 = [] /\ r = Ok false
    | Ok _ => exists checked,
        exec (check_data_freshness city) s4 = Some (checked, c4)
        /\ r = Ok (verdict checked)
    end.
Proof.
  unfold ingest_and_verify, ingest_from_stream.
  cbn [catch bind ret Monad_M MonadExc_M pbind].
  destruct s as [| [| | | res | |] s]; try discriminate.
  cbn [exec].
  destruct (exec _ s) as [[r' c'] |] eqn:E; [| discriminate].
  intros H. injection H as <- <-.
  exists res, s, c'. split; [reflexivity | split; [reflexivity |]].
  destruct res as [u | e].
  - apply exec_pbind_elim in E.
    destruct E as (sA & sB & a & cA & cB & -> & -> & EA & EB).
    apply exec_pbind_elim in EA.
    destruct EA as (s1 & s2 & checked & c1 & c2 & -> & -> & E1 & E2).
    exists checked.
    destruct checked as [[is_fresh latest] | e]; [destruct is_fresh |];
      cbn in E2; ret_inv E2; cbn in EB; ret_inv EB;
      rewrite !app_nil_r; split; [exact E1 | reflexivity | exact E1 | reflexivity
                                  | exact E1 | reflexivity].
  - cbn in E. ret_inv E. auto.
Qed.


(** The other way round: an append that returned, then a run of the check. *)
Lemma ingest_and_verify_returns (city : string) (data : list string)
    (s4 : list reply) (checked : result (bool * string)) (c4 : list call) :
  exec (check_data_freshness city) s4 = Some (checked, c4) ->
  exec (ingest_and_verify city data) (RIngest (Ok tt) :: s4)
  = Some (Ok (verdict checked), CIngest (join newline data) :: c4).
Proof.
  intros E4. unfold ingest_and_verify, ingest_from_stream.
  cbn [catch bind ret Monad_M MonadExc_M pbind exec].
  match goal with
  | |- match exec ?P s4 with _ => _ end = _ =>
      assert (exec P s4 = Some (Ok (verdict checked), c4)) as ->; [| reflexivity]
  end.
  rewrite <- (app_nil_r s4), <- (app_nil_r c4).
  destruct checked as [[[|] latest] | e];
    (eapply exec_pbind_intro;
     [ rewrite <- (app_nil_r s4), <- (app_nil_r c4);
       eapply exec_pbind_intro; [exact E4 | reflexivity]
     | reflexivity ]).
Qed.

Ltac no_ingest H :=
  exfalso; destruct H as [? H]; simpl in H;
  repeat (destruct H as [H | H]; [discriminate H |]); exact H.

(** A run of the [if latest_date:] block: one query for the dates of the
    store; it hands on a series only as the filter made it, and only when
    the filter left a date. *)
Lemma dedup_runs (city : string) (daily_json : json)
    (s : list reply) (out : result (bool + json)) (calls : list call) :
  exec (dedup city daily_json) s = Some (out, calls) ->
  exists treply,
    s = [RExecute treply] /\ calls = [CExecute (ExistingDatesQuery (lower city))] /\
    (out = Ok (inl false)
     \/ exists tbl existing daily filtered time,
          treply = Ok tbl /\ existing_dates_of tbl = Ok existing /\
          daily_json = JSeries daily /\
          filter_daily_data daily existing = Ok filtered /\
          dict_get "time" filtered = Some time /\
          ((time = [] /\ out = Ok (inl true))
           \/ (time <> [] /\ out = Ok (inr (JSeries filtered))))).
Proof.
  unfold dedup, execute, lift.
  cbn [catch bind ret raise Monad_M MonadExc_M pbind].
  destruct s as [| [treply | | | | |] s]; try discriminate.
  cbn [exec].
  destruct (exec _ s) as [[r' c'] |] eqn:E; [| discriminate].
  intros H. injection H as <- <-. exists treply.
  destruct treply as [tbl | e]; cbn [pbind] in E.
  2: { ret_inv E. auto. }
  destruct (existing_dates_of tbl) as [existing | e] eqn:Hex; cbn [pbind] in E.
  2: { ret_inv E. auto. }
  destruct daily_json as [sc | daily | objs]; cbn [pbind] in E.
  1, 3: ret_inv E; auto.
  destruct (filter_daily_data daily existing) as [filtered | e] eqn:Hf;
    cbn [pbind] in E.
  2: { ret_inv E. auto. }
  unfold getitem in E.
  destruct (dict_get "time" filtered) as [time |] eqn:Ht; cbn [pbind] in E.
  2: { ret_inv E. auto. }
  destruct time as [| d time]; cbn [pbind] in E; ret_inv E.
  - repeat split. right. exists tbl, existing, daily, filtered, [].
    repeat split; auto.
  - repeat split. right. exists tbl, existing, daily, filtered, (d :: time).
    repeat split; auto. right. split; [discriminate | reflexivity].
Qed.


(** A run of the refresh that ingests: the forecast had a [daily] field; on
    a first ingestion the series is prepared as fetched, on a refresh as the
    filter made it; and the run ends with the append and its check. *)
Lemma refresh_ingest_run (city : string) (lat lon : scalar) (latest : string)
    (s : list reply) (r : result bool) (calls : list call) :
  exec (refresh city lat lon latest) s = Some (r, calls) ->
  (exists csv, In (CIngest csv) calls) ->
  exists weather daily_json mid cmid prepared data attrs tail ctail,
    s = RForecastGet (Ok weather) :: mid ++ tail /\
    calls = CForecastGet lat lon :: cmid ++ ctail /\
    dict_get "daily" weather = Some daily_json /\
    ((latest = ""%string /\ mid = [] /\ cmid = [] /\ prepared = daily_json)
     \/ (latest <> ""%string /\
         exists tbl existing daily filtered time,
           mid = [RExecute (Ok tbl)] /\
           cmid = [CExecute (ExistingDatesQuery (lower city))] /\
           existing_dates_of tbl = Ok existing /\
           daily_json = JSeries daily /\
           filter_daily_data daily existing = Ok filtered /\
           dict_get "time" filtered = Some time /\ time <> [] /\
           prepared = JSeries filtered)) /\
    prepare_ingestion_data city prepared = Some (data, attrs) /\ data <> [] /\
    exec (ingest_and_verify city data) tail = Some (r, ctail).
Proof.
  unfold refresh, get_weather_data, forecast_get, lift.
  cbn [catch bind ret raise Monad_M MonadExc_M pbind].
  destruct s as [| [| freply | | | |] s]; try discriminate.
  cbn [exec].
  destruct (exec _ s) as [[r' c'] |] eqn:E; [| discriminate].
  intros H Hing. injection H as <- <-.
  destruct freply as [weather | e]; cbn [pbind] in E.
  2: { cbn [lacks_daily] in E. ret_inv E. no_ingest Hing. }
  destruct (lacks_daily (Some weather)) eqn:Hlack.
  { cbn [pbind] in E. ret_inv E. no_ingest Hing. }
  unfold getitem in E.
  destruct (dict_get "daily" weather) as [daily_json |] eqn:Hd; cbn [pbind] in E.
  2: { ret_inv E. no_ingest Hing. }
  apply exec_pbind_elim in E.
  destruct E as (mid & tail & cont & cmid & ctail & -> & -> & Emid & Etail).
  exists weather, daily_json, mid, cmid.
  destruct (String.eqb_spec latest "") as [-> | Hne]; cbn [negb] in Emid.
  - cbn in Emid. ret_inv Emid. cbn [app].
    destruct (prepare_ingestion_data city daily_json)
      as [[[| row rows] attrs] |] eqn:Hprep; cbn [pbind] in Etail.
    1, 3: ret_inv Etail; no_ingest Hing.
    exists daily_json, (row :: rows), attrs, tail, ctail.
    repeat split; auto. discriminate.
  - destruct (dedup_runs _ _ _ _ _ Emid) as (treply & -> & -> & Hout).
    destruct Hout as [-> | (tbl & existing & daily & filtered & time & -> & Hex
                            & -> & Hf & Ht & [[-> ->] | [Hnil ->]])];
      cbn [pbind] in Etail.
    1, 2: ret_inv Etail; no_ingest Hing.
    destruct (prepare_ingestion_data city (JSeries filtered))
      as [[[| row rows] attrs] |] eqn:Hprep; cbn [pbind] in Etail.
    1, 3: ret_inv Etail; no_ingest Hing.
    exists (JSeries filtered), (row :: rows), attrs, tail, ctail.
    repeat split; auto; [| discriminate].
    right. split; [exact Hne |].
    exists tbl, existing, daily, filtered, time. repeat split; auto.
Qed.

End PipelineFacts.

(** ** src/image/main.py: [ensure_fresh_data] *)

Module EnsureFacts.
Import Py Eff Web Image Dedup PyFacts EffFacts DictFacts DedupFacts ImageFacts PipelineFacts.

Lemma split_unique {A : Type} (P : A -> Prop) (a : list A) :
  forall (x : A) (b a' : list A) (x' : A) (b' : list A),
    a ++ x :: b = a' ++ x' :: b' ->
    ~ P x -> ~ P x' -> Forall P a -> Forall P b ->
    a = a' /\ x = x' /\ b = b'.
Proof.
  induction a as [| y a IH]; intros x b a' x' b' Heq Hx Hx' Ha Hb.
  - destruct a' as [| y' a']; simpl in Heq.
    + injection Heq as -> ->. auto.
    + injection Heq as -> ->. exfalso. apply Hx'.
      rewrite Forall_forall in Hb. apply Hb. apply in_or_app. right. now left.
  - destruct a' as [| y' a']; simpl in Heq.
    + injection Heq as <- _. exfalso. apply Hx'. now inversion Ha.
    + injection Heq as <- Heq. inversion Ha; subst.
      destruct (IH _ _ _ _ _ Heq Hx Hx') as (-> & -> & ->); auto.
Qed.

(** Every run of [ensure_fresh_data] is a run of the check, then, only when
    the check answered not fresh, a run of the refresh. *)
Lemma ensure_fresh_data_runs (city : string) (lat lon : scalar)
    (script : list reply) (r : result bool) (calls : list call) :
  exec (ensure_fresh_data city lat lon) script = Some (r, calls) ->
  exists s1 s2 checked c1 c2,
    script = s1 ++ s2 /\ calls = c1 ++ c2 /\
    exec (check_data_freshness city) s1 = Some (checked, c1) /\
    match checked with
    | Raise e => s2 = [] /\ c2 = [] /\ r = Raise e
    | Ok (true, _) => s2 = [] /\ c2 = [] /\ r = Ok true
    | Ok (false, latest) => exec (refresh city lat lon latest) s2 = Some (r, c2)
    end.
Proof.
  unfold ensure_fresh_data. cbn [bind ret Monad_M].
  intros H. apply exec_pbind_elim in H.
  destruct H as (s1 & s2 & checked & c1 & c2 & -> & -> & E1 & E2).
  exists s1, s2, checked, c1, c2. repeat split; auto.
  destruct checked as [[[|] latest] | e]; cbn [negb] in E2.
  - ret_inv E2. auto.
  - exact E2.
  - ret_inv E2. auto.
Qed.

Lemma ensure_fresh_data_refreshes (city : string) (lat lon : scalar)
    (s1 s2 : list reply) (latest : string) (c1 c2 : list call) (r : result bool) :
  exec (check_data_freshness city) s1 = Some (Ok (false, latest), c1) ->
  exec (refresh city lat lon latest) s2 = Some (r, c2) ->
  exec (ensure_fresh_data city lat lon) (s1 ++ s2) = Some (r, c1 ++ c2).
Proof.
  intros E1 E2. unfold ensure_fresh_data. cbn [bind ret Monad_M].
  exact (exec_pbind_intro _ _ _ _ _ _ _ _ E1 E2).
Qed.

(** And every run that starts with such a check goes on as the refresh. *)
Lemma ensure_fresh_data_refresh_of (city : string) (lat lon : scalar)
    (s1 s2 : list reply) (latest : string) (c1 calls : list call) (r : result bool) :
  exec (check_data_freshness city) s1 = Some (Ok (false, latest), c1) ->
  exec (ensure_fresh_data city lat lon) (s1 ++ s2) = Some (r, calls) ->
  exists c2, calls = c1 ++ c2
             /\ exec (refresh city lat lon latest) s2 = Some (r, c2).
Proof.
  intros E1 H. unfold ensure_fresh_data in H. cbn [bind ret Monad_M] in H.
  exact (exec_pbind_split _ _ _ _ _ _ _ _ E1 H).
Qed.

(** C3. When the check reports fresh, [ensure_fresh_data] returns [True] on
    the spot: its calls are those of the check, none of them a forecast
    fetch or an ingest.  So it is for every city whose latest stored date is
    within a day of today and that has at least 30 rows. *)
Theorem ensure_fresh_data_fresh (city : string) (lat lon : scalar) :
  (forall (script : list reply) (latest : string) (calls : list call),
      exec (check_data_freshness city) script = Some (Ok (true, latest), calls) ->
      exec (ensure_fresh_data city lat lon) script = Some (Ok true, calls)
      /\ count_calls is_forecast_get calls = 0%nat
      /\ count_calls is_ingest calls = 0%nat)
  /\ (forall (row : row) (rest : list Eff.row) (dt : datetime) (n : Z) (today : date),
        valid_date (dt_date dt) = true ->
        dict_get "LatestDate" row = Some (CDatetime dt) ->
        dict_get "DataPoints" row = Some (CLong n) ->
        Z.abs (days_between today (dt_date dt)) <= 1 ->
        30 <= n ->
        exec (ensure_fresh_data city lat lon)
             [RExecute (Ok (Rows (row :: rest))); RNow today]
        = Some (Ok true, [CExecute (LatestDateQuery city); CNow])).
Proof.
  assert (forall script latest calls,
             exec (check_data_freshness city) script = Some (Ok (true, latest), calls) ->
             exec (ensure_fresh_data city lat lon) script = Some (Ok true, calls))
    as Hgen.
  { intros script latest calls E.
    unfold ensure_fresh_data. cbn [bind ret Monad_M].
    rewrite <- (app_nil_r script), <- (app_nil_r calls).
    apply (exec_pbind_intro _ _ _ _ _ _ _ _ E). reflexivity. }
  split.
  - intros script latest calls E. split; [exact (Hgen _ _ _ E) |].
    destruct (check_data_freshness_quiet _ _ _ _ E) as (Hf & Hi & _). auto.
  - intros row rest dt n today Hv Hd Hp Hdiff Hn.
    apply (Hgen _ (strftime_ymd (dt_date dt))).
    rewrite (check_data_freshness_dated city row rest dt (CLong n) today Hv Hd Hp).
    apply Z.leb_le in Hdiff, Hn. rewrite Hdiff. simpl. rewrite Hn. reflexivity.
Qed.

(** C4. Wherever a run of [ensure_fresh_data] has an append that returned,
    what follows is a whole run of the freshness check for the same city,
    and the result of the operation is the verdict of that check: [False]
    when it still reports not fresh (or raises), although the append
    succeeded.  An append that raised ends the run with [False]. *)
Theorem ensure_fresh_data_verifies (city : string) (lat lon : scalar)
    (script : list reply) (r : result bool) (calls : list call)
    (pre : list reply) (res : result unit) (post : list reply) :
  exec (ensure_fresh_data city lat lon) script = Some (r, calls) ->
  script = pre ++ RIngest res :: post ->
  match res with
  | Ok _ =>
      exists checked before csv after,
        exec (check_data_freshness city) post = Some (checked, after)
        /\ calls = before ++ CIngest csv :: after
        /\ r = Ok (verdict checked)
        /\ (forall latest, checked = Ok (false, latest) -> r = Ok false)
  | Raise _ => post = [] /\ r = Ok false
  end.
Proof.
  intros H Hsplit.
  destruct (ensure_fresh_data_runs _ _ _ _ _ _ H)
    as (s1 & s2 & checked & c1 & c2 & Hs & -> & E1 & Hrest).
  rewrite Hs in Hsplit. clear Hs H script.
  destruct (check_data_freshness_quiet _ _ _ _ E1) as (_ & _ & Hq1).
  assert (forall l, Forall not_ingest_reply l -> ~ In (RIngest res) l) as Hnot.
  { intros l Hl Hin. rewrite Forall_forall in Hl. exact (Hl _ Hin). }
  assert (In (RIngest res) s2) as Hin2.
  { assert (In (RIngest res) (s1 ++ s2)) as Hin
      by (rewrite Hsplit; apply in_or_app; right; now left).
    apply in_app_or in Hin. destruct Hin as [Hin | Hin]; [| exact Hin].
    exfalso. exact (Hnot _ Hq1 Hin). }
  assert (exists latest, exec (refresh city lat lon latest) s2 = Some (r, c2))
    as [latest E2].
  { destruct checked as [[[|] latest] | e].
    - destruct Hrest as (-> & _). contradiction.
    - eauto.
    - destruct Hrest as (-> & _). contradiction. }
  clear Hrest.
  assert (exists csv, In (CIngest csv) c2) as Hing.
  { clear - E2 Hin2.
    revert E2 Hin2. generalize (refresh city lat lon latest). generalize c2 r.
    induction s2 as [| x s2 IH]; intros c r0 p E Hin; [contradiction |].
    destruct p; destruct x; simpl in E; try discriminate;
      match type of E with
      | context [exec ?q s2] =>
          destruct (exec q s2) as [[a' c'] |] eqn:E'; [| discriminate]
      end;
      injection E as <- <-;
      destruct Hin as [Hx | Hin]; try discriminate;
      try (eexists; left; reflexivity);
      destruct (IH _ _ _ E' Hin) as [csv' Hcsv]; exists csv'; right; exact Hcsv. }
  destruct (refresh_ingest_run _ _ _ _ _ _ _ E2 Hing)
    as (weather & daily_json & mid & cmid & prepared & data & attrs & tail & ctail
        & -> & -> & Hd & Hsrc & Hprep & Hdata & Etail).
  destruct (ingest_and_verify_runs _ _ _ _ _ Etail)
    as (res' & s4 & c4 & -> & -> & Hafter).
  assert (Forall not_ingest_reply mid) as Hmid.
  { destruct Hsrc as [(_ & -> & _) | (_ & tbl & ? & ? & ? & ? & -> & _)];
      repeat constructor. }
  assert (Forall not_ingest_reply s4) as Hs4.
  { destruct res' as [u | e].
    - destruct Hafter as (checked' & E4 & _).
      destruct (check_data_freshness_quiet _ _ _ _ E4) as (_ & _ & Hq4). exact Hq4.
    - destruct Hafter as (-> & _). constructor. }
  replace (s1 ++ RForecastGet (Ok weather) :: mid ++ RIngest res' :: s4)
    with ((s1 ++ RForecastGet (Ok weather) :: mid) ++ RIngest res' :: s4) in Hsplit
    by (rewrite <- app_assoc; reflexivity).
  destruct (split_unique not_ingest_reply _ _ _ _ _ _ Hsplit) as (_ & Hres & <-).
  - intros Hx. exact Hx.
  - intros Hx. exact Hx.
  - apply Forall_app. split; [exact Hq1 |]. constructor; [exact I | exact Hmid].
  - exact Hs4.
  - injection Hres as <-.
    destruct res' as [u | e].
    + destruct Hafter as (checked' & E4 & ->).
      exists checked', (c1 ++ CForecastGet lat lon :: cmid), (join newline data), c4.
      repeat split; auto.
      * rewrite <- app_assoc. reflexivity.
      * intros latest' ->. reflexivity.
    + destruct Hafter as (-> & _ & ->). auto.
Qed.

End EnsureFacts.

(** ** src/image/main.py: what reaches ingestion *)

Module RefreshFacts.
Import Py Eff Web Image Dedup PyFacts EffFacts DictFacts DedupFacts ImageFacts
       PipelineFacts EnsureFacts.

Lemma lacks_daily_false (weather : dict json) (daily_json : json) :
  dict_get "daily" weather = Some daily_json -> lacks_daily (Some weather) = false.
Proof.
  intros H. unfold lacks_daily.
  destruct weather as [| kv weather]; [discriminate |].
  apply negb_false_iff. apply dict_mem_get. eauto.
Qed.

Lemma kept_indices_spec (dates : list scalar) (existing_dates : list string) (i : nat) :
  In i (kept_indices dates existing_dates)
  <-> (i < List.length dates)%nat /\ not_in (nth i dates SNone) existing_dates = true.
Proof.
  unfold kept_indices, range. rewrite filter_In, in_seq. intuition lia.
Qed.

Lemma check_calls_no_ingest (city : string) (s : list reply)
    (checked : result (bool * string)) (calls : list call) (c : call) :
  exec (check_data_freshness city) s = Some (checked, calls) ->
  In c calls -> c = CExecute (LatestDateQuery city) \/ c = CNow.
Proof.
  intros E Hin.
  destruct (check_data_freshness_runs _ _ _ _ E)
    as [(t & _ & ->) | (t & d & _ & ->)]; simpl in Hin; intuition.
Qed.

(** C5. On a refresh whose filter leaves no date, [ensure_fresh_data]
    returns [True] after the forecast fetch and the query for the existing
    dates, and calls no ingest. *)
Theorem ensure_fresh_data_nothing_new (city : string) (lat lon : scalar)
    (s1 : list reply) (c1 : list call) (latest : string)
    (weather : dict json) (daily_data : series) (tbl : table)
    (existing_dates : list string) (filtered : series) :
  exec (check_data_freshness city) s1 = Some (Ok (false, latest), c1) ->
  latest <> ""%string ->
  dict_get "daily" weather = Some (JSeries daily_data) ->
  existing_dates_of tbl = Ok existing_dates ->
  filter_daily_data daily_data existing_dates = Ok filtered ->
  dict_get "time" filtered = Some [] ->
  exec (ensure_fresh_data city lat lon)
       (s1 ++ [RForecastGet (Ok weather); RExecute (Ok tbl)])
  = Some (Ok true,
          c1 ++ [CForecastGet lat lon; CExecute (ExistingDatesQuery (lower city))])
  /\ count_calls is_ingest
       (c1 ++ [CForecastGet lat lon; CExecute (ExistingDatesQuery (lower city))])
     = 0%nat.
Proof.
  intros E1 Hne Hd Hex Hf Ht. split.
  - apply (ensure_fresh_data_refreshes _ _ _ _ _ _ _ _ _ E1).
    unfold refresh, get_weather_data, forecast_get, lift.
    cbn [catch bind ret raise Monad_M MonadExc_M pbind exec].
    rewrite (lacks_daily_false _ _ Hd). unfold getitem. rewrite Hd.
    cbn [pbind].
    destruct (String.eqb_spec latest "") as [-> | _]; [contradiction |].
    cbn [negb]. unfold dedup, execute, lift.
    cbn [catch bind ret raise Monad_M MonadExc_M pbind exec].
    rewrite Hex. cbn [pbind]. rewrite Hf. cbn [pbind].
    unfold getitem. rewrite Ht. reflexivity.
  - destruct (check_data_freshness_quiet _ _ _ _ E1) as (_ & Hi & _).
    unfold count_calls in *. rewrite filter_app, length_app, Hi. reflexivity.
Qed.

End RefreshFacts.

(** ** The [/weather] handlers on a failed refresh *)

Module HandlerFacts.
Import Py Eff Web Dedup PyFacts EffFacts DictFacts DedupFacts ImageFacts
       PipelineFacts EnsureFacts RefreshFacts.

(** The handler of src/image/main.py once the city is resolved: a refresh
    that returns [False] and a refresh that raises give two different
    pages. *)
Lemma image_get_weather_not_fresh (city name : string) (lat lon : scalar)
    (sg se : list reply) (cg ce : list call) (er : result bool) :
  exec (Image.get_city_coordinates city) sg = Some (Ok [lat; lon; SStr name], cg) ->
  lower city = lower name ->
  exec (Image.ensure_fresh_data (lower city) lat lon) se = Some (er, ce) ->
  er <> Ok true ->
  exec (Image.get_weather true city) (sg ++ se)
  = Some (HTMLResponse
            match er with
            | Ok _ => "<p>Error: Could not ensure fresh weather data.</p>"
            | Raise e => "<p>An error occurred: " ++ exn_str e ++ "</p>"
            end%string,
          cg ++ ce).
Proof.
  intros Eg Hname Ee Her.
  unfold Image.get_weather. cbn [negb].
  rewrite <- (app_nil_r (sg ++ se)), <- (app_nil_r (cg ++ ce)).
  destruct er as [[|] | e]; [contradiction | |].
  - eapply exec_pbind_intro.
    + unfold Image.get_weather_body. cbn [bind ret Monad_M].
      eapply exec_pbind_intro; [exact Eg |].
      cbn [lift unpack3 pbind str_lower]. rewrite <- Hname, String.eqb_refl.
      cbn [negb].
      rewrite <- (app_nil_r se), <- (app_nil_r ce).
      eapply exec_pbind_intro; [exact Ee | reflexivity].
    + reflexivity.
  - eapply exec_pbind_intro.
    + unfold Image.get_weather_body. cbn [bind ret Monad_M].
      eapply exec_pbind_intro; [exact Eg |].
      cbn [lift unpack3 pbind str_lower]. rewrite <- Hname, String.eqb_refl.
      cbn [negb].
      rewrite <- (app_nil_r se), <- (app_nil_r ce).
      eapply exec_pbind_intro; [exact Ee | reflexivity].
    + reflexivity.
Qed.

Lemma image_refresh_lacks_daily (city : string) (lat lon : scalar) (latest : string)
    (answer : result (dict json)) :
  lacks_daily (match answer with Ok w => Some w | Raise _ => None end) = true ->
  exec (Image.refresh city lat lon latest) [RForecastGet answer]
  = Some (Ok false, [CForecastGet lat lon]).
Proof.
  intros Hl.
  unfold Image.refresh, Image.get_weather_data, forecast_get.
  cbn [catch bind ret raise Monad_M MonadExc_M pbind exec].
  destruct answer as [w | e]; cbn [pbind]; [rewrite Hl |]; reflexivity.
Qed.

(** The handler of src/main.py once the city is resolved and the store has
    fewer than 30 recent rows for it. *)
Lemma main_get_weather_lacks_daily (city name : string) (lat lon : scalar)
    (sg : list reply) (cg : list call) (tbl : table) (count : cell)
    (answer : result (dict json)) :
  exec (Main.get_city_coordinates city) sg = Some (Ok [lat; lon; SStr name], cg) ->
  lat <> SNone -> lon <> SNone ->
  Main.record_count tbl = Ok count -> lt_30 count = Ok true ->
  lacks_daily (match answer with Ok w => Some w | Raise _ => None end) = true ->
  exec (Main.get_weather true city) (sg ++ [RExecute (Ok tbl); RForecastGet answer])
  = Some (HTMLResponse "<p>Error: Invalid response from weather API.</p>",
          cg ++ [CExecute (RecordCountQuery (lower name)); CForecastGet lat lon]).
Proof.
  intros Eg Hlat Hlon Hcount Hlt Hl.
  unfold Main.get_weather. cbn [negb].
  rewrite <- (app_nil_r (sg ++ _)), <- (app_nil_r (cg ++ _)).
  eapply exec_pbind_intro.
  - unfold Main.get_weather_body. cbn [bind ret Monad_M].
    eapply exec_pbind_intro; [exact Eg |].
    unfold execute, lift.
    cbn [unpack3 pbind str_lower exec]. rewrite Hcount. cbn [pbind].
    rewrite Hlt. cbn [pbind].
    unfold Main.fetch_and_store, Main.get_weather_data, forecast_get.
    destruct lat; try contradiction; destruct lon; try contradiction;
      cbn [catch bind ret raise Monad_M MonadExc_M pbind exec];
      (destruct answer as [w | e]; cbn [pbind]; [rewrite Hl |]; reflexivity).
  - reflexivity.
Qed.

(** C6. When the forecast client fails, or answers with an empty response
    or one without the [daily] field, the refresh stops there: the result is
    [False], the forecast fetch is the last call, nothing is ingested, and
    each of the two [/weather] handlers answers with an error page. *)
Theorem forecast_without_daily_fails (lat lon : scalar) (answer : result (dict json)) :
  lacks_daily (match answer with Ok w => Some w | Raise _ => None end) = true ->
  (forall (city : string) (s1 : list reply) (latest : string) (c1 : list call),
      exec (Image.check_data_freshness city) s1 = Some (Ok (false, latest), c1) ->
      exec (Image.ensure_fresh_data city lat lon) (s1 ++ [RForecastGet answer])
      = Some (Ok false, c1 ++ [CForecastGet lat lon])
      /\ count_calls is_ingest (c1 ++ [CForecastGet lat lon]) = 0%nat)
  /\ (forall (city name : string) (sg s1 : list reply) (latest : string)
             (cg c1 : list call),
         exec (Image.get_city_coordinates city) sg
         = Some (Ok [lat; lon; SStr name], cg) ->
         lower city = lower name ->
         exec (Image.check_data_freshness (lower city)) s1
         = Some (Ok (false, latest), c1) ->
         exec (Image.get_weather true city) (sg ++ s1 ++ [RForecastGet answer])
         = Some (HTMLResponse "<p>Error: Could not ensure fresh weather data.</p>",
                 cg ++ c1 ++ [CForecastGet lat lon]))
  /\ (forall (city name : string) (sg : list reply) (cg : list call)
             (tbl : table) (count : cell),
         exec (Main.get_city_coordinates city) sg
         = Some (Ok [lat; lon; SStr name], cg) ->
         lat <> SNone -> lon <> SNone ->
         Main.record_count tbl = Ok count -> lt_30 count = Ok true ->
         exec (Main.get_weather true city)
              (sg ++ [RExecute (Ok tbl); RForecastGet answer])
         = Some (HTMLResponse "<p>Error: Invalid response from weather API.</p>",
                 cg ++ [CExecute (RecordCountQuery (lower name));
                        CForecastGet lat lon])).
Proof.
  intros Hl.
  assert (forall city s1 latest c1,
             exec (Image.check_data_freshness city) s1 = Some (Ok (false, latest), c1) ->
             exec (Image.ensure_fresh_data city lat lon) (s1 ++ [RForecastGet answer])
             = Some (Ok false, c1 ++ [CForecastGet lat lon])) as Hens.
  { intros city s1 latest c1 E1.
    apply (ensure_fresh_data_refreshes _ _ _ _ _ _ _ _ _ E1).
    exact (image_refresh_lacks_daily city lat lon latest answer Hl). }
  split; [| split].
  - intros city s1 latest c1 E1. split; [exact (Hens _ _ _ _ E1) |].
    destruct (check_data_freshness_quiet _ _ _ _ E1) as (_ & Hi & _).
    unfold count_calls in *. rewrite filter_app, length_app, Hi. reflexivity.
  - intros city name sg s1 latest cg c1 Eg Hname E1.
    exact (image_get_weather_not_fresh city name lat lon sg _ cg _ (Ok false)
             Eg Hname (Hens _ _ _ _ E1) ltac:(discriminate)).
  - intros city name sg cg tbl count Eg Hlat Hlon Hcount Hlt.
    exact (main_get_weather_lacks_daily city name lat lon sg cg tbl count answer
             Eg Hlat Hlon Hcount Hlt Hl).
Qed.

(** C7. A store query that fails during the freshness check makes the check
    raise what the store raised; it does not answer [(False, ...)].
    [ensure_fresh_data] lets the exception through, and the handler shows it
    on the page of its generic [except], not on the page of stale data. *)
Theorem check_data_freshness_fails_loudly (city : string) (e : exn) :
  exec (Image.check_data_freshness city) [RExecute (Raise e)]
  = Some (Raise e, [CExecute (LatestDateQuery city)])
  /\ (forall lat lon,
         exec (Image.ensure_fresh_data city lat lon) [RExecute (Raise e)]
         = Some (Raise e, [CExecute (LatestDateQuery city)]))
  /\ (forall (request name : string) (lat lon : scalar) (sg : list reply)
             (cg : list call),
         exec (Image.get_city_coordinates request) sg
         = Some (Ok [lat; lon; SStr name], cg) ->
         lower request = lower name ->
         city = lower request ->
         exec (Image.get_weather true request) (sg ++ [RExecute (Raise e)])
         = Some (HTMLResponse ("<p>An error occurred: " ++ exn_str e ++ "</p>")%string,
                 cg ++ [CExecute (LatestDateQuery city)])).
Proof.
  split; [reflexivity | split; [reflexivity |]].
  intros request name lat lon sg cg Eg Hname ->.
  exact (image_get_weather_not_fresh request name lat lon sg
           [RExecute (Raise e)] cg [CExecute (LatestDateQuery (lower request))]
           (Raise e) Eg Hname eq_refl ltac:(discriminate)).
Qed.

End HandlerFacts.

(** ** [prepare_ingestion_data] *)

Module RowsFacts.
Import Py Eff Web Rows DictFacts.

Lemma mapM_pointwise {A B : Type} (f : A -> result B) (g : A -> B) (l : list A) :
  (forall a, In a l -> f a = Ok (g a)) -> mapM f l = Ok (map g l).
Proof.
  induction l as [| a l IH]; intros H; simpl; [reflexivity |].
  rewrite (H a) by now left.
  rewrite IH by (intros b Hb; apply H; now right). reflexivity.
Qed.

Lemma str_join_strings (sep : string) (l : list string) :
  str_join sep (map SStr l) = Ok (join sep l).
Proof.
  unfold str_join. cbn [bind ret Monad_result].
  rewrite (mapM_pointwise _ (fun v => match v with SStr s => s | _ => ""%string end)).
  - rewrite map_map. simpl. rewrite map_id. reflexivity.
  - intros v Hv. apply in_map_iff in Hv. destruct Hv as (s & <- & _). reflexivity.
Qed.

(** The two services prepare their rows by the same text. *)
Lemma prepare_ingestion_data_same (city : string) (daily_data : json) :
  Main.prepare_ingestion_data city daily_data
  = Image.prepare_ingestion_data city daily_data.
Proof. reflexivity. Qed.

Lemma prepare_row_fields (city : string) (daily_data : series) (dates : list scalar)
    (i : nat) :
  dict_get "time" daily_data = Some dates ->
  Forall (fun v => is_str v = true) dates ->
  Forall (fun kv => List.length (snd kv) = List.length dates) daily_data ->
  (i < List.length dates)%nat ->
  Image.prepare_row city daily_data dates (Image.weather_attributes daily_data) i
  = Ok (join "," (row_fields city daily_data i)).
Proof.
  intros Htime Hstr Hlen Hi.
  unfold Image.prepare_row. cbn [bind ret Monad_result].
  rewrite (index_lt dates i SNone Hi).
  rewrite (mapM_pointwise _
             (fun attr => SStr (value_text (nth i (column daily_data attr) SNone)))).
  - assert (exists s, nth i dates SNone = SStr s) as [s Hs].
    { rewrite Forall_forall in Hstr.
      specialize (Hstr (nth i dates SNone) (nth_In _ _ Hi)).
      destruct (nth i dates SNone); try discriminate. eauto. }
    rewrite <- str_join_strings. f_equal.
    unfold row_fields.
    replace (column daily_data "time") with dates
      by (unfold column; now rewrite Htime).
    rewrite Hs.
    simpl. rewrite map_map. reflexivity.
  - intros attr Hattr. unfold Image.weather_attributes in Hattr.
    apply filter_In in Hattr. destruct Hattr as [Hattr _].
    destruct (dict_get_in_keys attr daily_data Hattr) as (values & Hget & Hin).
    unfold getitem, column. rewrite Hget.
    rewrite Forall_forall in Hlen. specialize (Hlen _ Hin). simpl in Hlen.
    rewrite (index_lt values i SNone) by lia.
    destruct (nth i values SNone); reflexivity.
Qed.

(** C8. For a series whose [time] holds date strings and whose sequences
    all have the length of [time], both services prepare one row per date,
    in order; the row of a date is the comma-join of the city, the date and
    the text of every attribute other than [time] in the order of the
    series: 2 + (number of such attributes) fields. *)
Theorem prepare_ingestion_data_shape (city : string) (daily_data : series)
    (dates : list scalar) :
  dict_get "time" daily_data = Some dates ->
  Forall (fun v => is_str v = true) dates ->
  Forall (fun kv => List.length (snd kv) = List.length dates) daily_data ->
  exists rows : list string,
    Image.prepare_ingestion_data city (JSeries daily_data)
    = Some (rows, Image.weather_attributes daily_data)
    /\ Main.prepare_ingestion_data city (JSeries daily_data)
       = Some (rows, Main.weather_attributes daily_data)
    /\ List.length rows = List.length dates
    /\ rows = map (fun i => join "," (row_fields city daily_data i))
                  (range (List.length dates))
    /\ forall i, (i < List.length dates)%nat ->
         nth_error rows i = Some (join "," (row_fields city daily_data i))
         /\ List.length (row_fields city daily_data i)
            = (2 + List.length (Image.weather_attributes daily_data))%nat.
Proof.
  intros Htime Hstr Hlen.
  exists (map (fun i => join "," (row_fields city daily_data i))
              (range (List.length dates))).
  assert (Image.prepare_ingestion_data city (JSeries daily_data)
          = Some (map (fun i => join "," (row_fields city daily_data i))
                      (range (List.length dates)),
                  Image.weather_attributes daily_data)) as Himage.
  { unfold Image.prepare_ingestion_data, Image.prepare_ingestion_body, getitem.
    rewrite Htime. cbn [bind ret Monad_result].
    rewrite (mapM_pointwise _ (fun i => join "," (row_fields city daily_data i))).
    - reflexivity.
    - intros i Hin. unfold range in Hin. apply in_seq in Hin.
      apply prepare_row_fields; auto. lia. }
  split; [exact Himage |].
  split; [rewrite prepare_ingestion_data_same; exact Himage |].
  split; [unfold range; now rewrite length_map, length_seq |].
  split; [reflexivity |].
  intros i Hi. split.
  - rewrite nth_error_map. unfold range.
    rewrite (nth_error_nth' _ 0%nat) by (rewrite length_seq; exact Hi).
    rewrite seq_nth by exact Hi. reflexivity.
  - unfold row_fields, Image.weather_attributes. simpl. now rewrite length_map.
Qed.

(** A date that is not a string stops the preparation: [",".join] raises
    and the function answers [(None, None)]. *)
Lemma prepare_ingestion_data_needs_date_strings (city : string) :
  Image.prepare_ingestion_data city (JSeries [("time"%string, [SInt 20250217])]) = None.
Proof. reflexivity. Qed.

End RowsFacts.

(** ** [get_weather_stats]: the weather-code tables *)

Module StatsFacts.
Import Py Eff Web Image.

Lemma lookup_outside (code : Z) (table : list (Z * string)) :
  ~ In code (map fst table) -> lookup code table = None.
Proof.
  induction table as [| [k v] table IH]; intros Hout; simpl; [reflexivity |].
  destruct (Z.eqb_spec code k) as [-> | _].
  - exfalso. apply Hout. now left.
  - apply IH. intros Hin. apply Hout. now right.
Qed.

(** What [get_weather_stats] answers for a row with weather code [code],
    when it answers: the two strings come from the two tables. *)
Lemma get_weather_stats_strings (city : string) (row : row) (rest : list Eff.row) (code : Z)
    (stats : weather_stats) (calls : list call) :
  dict_get "CurrentWeatherCode" row = Some (CLong code) ->
  exec (get_weather_stats city) [RExecute (Ok (Rows (row :: rest)))]
  = Some (Ok (Some stats), calls) ->
  weather_description stats
  = match lookup code weather_codes with Some v => v | None => "Unknown"%string end
  /\ weather_icon_url stats
     = ("https://openweathermap.org/img/wn/"
        ++ match lookup code icon_map with Some v => v | None => "01d" end
        ++ "@2x.png")%string.
Proof.
  intros Hcode H.
  unfold get_weather_stats, execute, lift, index in H.
  cbn [bind ret Monad_M pbind exec nth_error] in H.
  unfold getitem at 1 in H. rewrite Hcode in H.
  cbn [pbind get_default cell_key bind ret Monad_result] in H.
  set (description := match lookup code weather_codes with
                      | Some v => v | None => "Unknown"%string end) in *.
  set (icon := match lookup code icon_map with
               | Some v => v | None => "01d"%string end) in *.
  repeat match type of H with
         | context [match getitem row ?k with _ => _ end] =>
             destruct (getitem row k); [| discriminate H]
         | context [match round1 ?c with _ => _ end] =>
             destruct (round1 c); [| discriminate H]
         end.
  cbn [exec] in H.
  injection H as <- _. split; reflexivity.
Qed.

(** The weather-code table has 24 entries, not 23. *)
Lemma weather_codes_not_23 : List.length weather_codes <> 23%nat.
Proof. discriminate. Qed.

(** C9, amended. [get_weather_stats] maps the weather code of the most
    recent row by two fixed tables over the same 24 known codes: code 0 is
    "Clear sky" with icon 01d, and every code outside the table is "Unknown"
    with icon 01d. *)
Theorem weather_code_mapping :
  List.length weather_codes = 24%nat
  /\ NoDup (map fst weather_codes)
  /\ map fst icon_map = map fst weather_codes
  /\ forall (city : string) (row : row) (rest : list Eff.row) (code : Z)
            (stats : weather_stats) (calls : list call),
      dict_get "CurrentWeatherCode" row = Some (CLong code) ->
      exec (get_weather_stats city) [RExecute (Ok (Rows (row :: rest)))]
      = Some (Ok (Some stats), calls) ->
      (code = 0 ->
       weather_description stats = "Clear sky"%string
       /\ weather_icon_url stats
          = "https://openweathermap.org/img/wn/01d@2x.png"%string)
      /\ (~ In code (map fst weather_codes) ->
          weather_description stats = "Unknown"%string
          /\ weather_icon_url stats
             = "https://openweathermap.org/img/wn/01d@2x.png"%string).
Proof.
  split; [reflexivity |].
  split.
  { simpl. repeat (constructor; [simpl; intuition discriminate |]). constructor. }
  split; [reflexivity |].
  intros city row rest code stats calls Hcode H.
  destruct (get_weather_stats_strings _ _ _ _ _ _ Hcode H) as [Hd Hi].
  split.
  - intros ->. rewrite Hd, Hi. split; reflexivity.
  - intros Hout. rewrite Hd, Hi.
    rewrite (lookup_outside code weather_codes Hout).
    assert (~ In code (map fst icon_map)) as Hout' by exact Hout.
    rewrite (lookup_outside code icon_map Hout'). split; reflexivity.
Qed.

End StatsFacts.

(** ** src/main.py: the handler *)

Module MainFacts.
Import Py Eff Web EffFacts.

(** What [get_city_coordinates] of src/main.py returns: three values of the
    first result, or the pair [(None, None)]. *)
Lemma get_city_coordinates_arity (city : string) (answer : result (dict json)) :
  exists coordinates,
    exec (Main.get_city_coordinates city) [RGeoGet answer]
    = Some (Ok coordinates, [CGeoGet city])
    /\ (coordinates = [SNone; SNone]
        \/ exists geo_data result rest latitude longitude name,
             answer = Ok geo_data
             /\ dict_get "results" geo_data = Some (JObjects (result :: rest))
             /\ dict_get "latitude" result = Some latitude
             /\ dict_get "longitude" result = Some longitude
             /\ dict_get "name" result = Some name
             /\ coordinates = [latitude; longitude; name]).
Proof.
  unfold Main.get_city_coordinates, geo_get, lift.
  cbn [catch bind ret raise Monad_M MonadExc_M pbind exec].
  destruct answer as [geo_data | e]; cbn [pbind].
  2: { eexists. split; [reflexivity | now left]. }
  destruct (dict_get "results" geo_data) as [[sc | d | [| result rest]] |] eqn:Hres;
    cbn [pbind]; try (eexists; split; [reflexivity | now left]).
  unfold getitem.
  destruct (dict_get "latitude" result) as [latitude |] eqn:Hlat; cbn [pbind];
    [| eexists; split; [reflexivity | now left]].
  destruct (dict_get "longitude" result) as [longitude |] eqn:Hlon; cbn [pbind];
    [| eexists; split; [reflexivity | now left]].
  destruct (dict_get "name" result) as [name |] eqn:Hname; cbn [pbind];
    [| eexists; split; [reflexivity | now left]].
  eexists. split; [reflexivity |]. right.
  exists geo_data, result, rest, latitude, longitude, name. repeat split; auto.
Qed.


(** The sibling service returns three values on every path, and answers an
    unresolved city with its own page. *)
Lemma image_unresolved_city (city : string) (e : exn) :
  exec (Image.get_weather true city) [RGeoGet (Raise e)]
  = Some (HTMLResponse "<p>Error: Invalid city name, please try again.</p>",
          [CGeoGet city]).
Proof. reflexivity. Qed.

(** The verification of src/main.py after its append: a pause of three
    seconds, a count of the recent rows, and the failure page when fewer
    than 30 are counted. *)
Lemma store_and_verify_too_few (city : string) (ingestion_data : list string)
    (tbl : table) (count : cell) :
  Main.record_count tbl = Ok count -> lt_30 count = Ok true ->
  exec (Main.store_and_verify city ingestion_data)
       [RIngest (Ok tt); RSleep; RExecute (Ok tbl)]
  = Some (Ok (Some (HTMLResponse
       "<p>Error: Data storage verification failed. Please try again in a few minutes.</p>")),
          [CIngest (join newline ingestion_data); CSleep 3;
           CExecute (RecordCountQuery city)]).
Proof.
  intros Hcount Hlt.
  unfold Main.store_and_verify, ingest_from_stream, sleep, execute, lift.
  cbn [catch bind ret raise Monad_M MonadExc_M pbind exec].
  rewrite Hcount. cbn [pbind]. rewrite Hlt. reflexivity.
Qed.

End MainFacts.

(** ** The properties on the sample data *)

Module Witnesses.
Import Py Eff Web Dedup Rows Samples.
Import ImageFacts EnsureFacts RefreshFacts HandlerFacts RowsFacts StatsFacts MainFacts.

Lemma ensure_fresh_data_fresh_witness :
  (exec (Image.ensure_fresh_data "paris" lat lon) [RExecute (Ok (Rows [fresh_row])); RNow today]
   = Some (Ok true, [CExecute (LatestDateQuery "paris"); CNow])
   /\ count_calls is_forecast_get [CExecute (LatestDateQuery "paris"); CNow] = 0%nat
   /\ count_calls is_ingest [CExecute (LatestDateQuery "paris"); CNow] = 0%nat)
  /\ exec (Image.ensure_fresh_data "paris" lat lon)
          [RExecute (Ok (Rows [fresh_row; stale_row])); RNow (mkdate 2025 2 18)]
     = Some (Ok true, [CExecute (LatestDateQuery "paris"); CNow]).
Proof.
  split.
  - exact (proj1 (ensure_fresh_data_fresh "paris" lat lon)
             [RExecute (Ok (Rows [fresh_row])); RNow today] "2025-02-17"%string
             [CExecute (LatestDateQuery "paris"); CNow] eq_refl).
  - refine (proj2 (ensure_fresh_data_fresh "paris" lat lon)
              fresh_row [stale_row] (mkdatetime (mkdate 2025 2 17) 0) 30
              (mkdate 2025 2 18) eq_refl eq_refl eq_refl _ _).
    + vm_compute. discriminate.
    + lia.
Defined.

Lemma ensure_fresh_data_verifies_witness :
  exists checked before csv after,
    exec (Image.check_data_freshness "paris") [RExecute (Ok (Rows [stale_row])); RNow today]
    = Some (checked, after)
    /\ refresh_calls = before ++ CIngest csv :: after
    /\ Ok false = Ok (verdict checked)
    /\ (forall latest, checked = Ok (false, latest) -> Ok false = @Ok bool false).
Proof.
  exact (ensure_fresh_data_verifies "paris" lat lon refresh_script (Ok false)
           refresh_calls
           [RExecute (Ok (Rows [stale_row])); RNow today; RForecastGet (Ok weather);
            RExecute (Ok yesterday_stored)]
           (Ok tt)
           [RExecute (Ok (Rows [stale_row])); RNow today]
           eq_refl eq_refl).
Defined.

Lemma ensure_fresh_data_nothing_new_witness :
  exec (Image.ensure_fresh_data "paris" lat lon)
       ([RExecute (Ok (Rows [stale_row])); RNow today]
        ++ [RForecastGet (Ok weather); RExecute (Ok both_stored)])
  = Some (Ok true,
          [CExecute (LatestDateQuery "paris"); CNow]
          ++ [CForecastGet lat lon; CExecute (ExistingDatesQuery (lower "paris"))])
  /\ count_calls is_ingest
       ([CExecute (LatestDateQuery "paris"); CNow]
        ++ [CForecastGet lat lon; CExecute (ExistingDatesQuery (lower "paris"))])
     = 0%nat.
Proof.
  refine (ensure_fresh_data_nothing_new "paris" lat lon
            [RExecute (Ok (Rows [stale_row])); RNow today]
            [CExecute (LatestDateQuery "paris"); CNow] "2025-02-16"%string
            weather daily both_stored ["2025-02-17"; "2025-02-16"]%string
            (filtered_by_index daily []) eq_refl _ eq_refl eq_refl eq_refl eq_refl).
  discriminate.
Defined.

Lemma forecast_without_daily_fails_witness :
  (exec (Image.ensure_fresh_data "paris" lat lon)
        ([RExecute (Ok (Rows [stale_row])); RNow today] ++ [RForecastGet (Ok weather_error)])
   = Some (Ok false, [CExecute (LatestDateQuery "paris"); CNow] ++ [CForecastGet lat lon])
   /\ count_calls is_ingest
        ([CExecute (LatestDateQuery "paris"); CNow] ++ [CForecastGet lat lon]) = 0%nat)
  /\ exec (Image.get_weather true "Paris")
          ([RGeoGet (Ok geo_paris)]
           ++ [RExecute (Ok (Rows [stale_row])); RNow today]
           ++ [RForecastGet (Ok weather_error)])
     = Some (HTMLResponse "<p>Error: Could not ensure fresh weather data.</p>",
             [CGeoGet "Paris"]
             ++ [CExecute (LatestDateQuery "paris"); CNow] ++ [CForecastGet lat lon])
  /\ exec (Main.get_weather true "Paris")
          ([RGeoGet (Ok geo_paris)]
           ++ [RExecute (Ok (Rows [count_row 0])); RForecastGet (Ok weather_error)])
     = Some (HTMLResponse "<p>Error: Invalid response from weather API.</p>",
             [CGeoGet "Paris"]
             ++ [CExecute (RecordCountQuery (lower "Paris")); CForecastGet lat lon]).
Proof.
  pose proof (forecast_without_daily_fails lat lon (Ok weather_error) eq_refl)
    as (H1 & H2 & H3).
  split; [| split].
  - exact (H1 "paris"%string [RExecute (Ok (Rows [stale_row])); RNow today]
             "2025-02-16"%string [CExecute (LatestDateQuery "paris"); CNow] eq_refl).
  - exact (H2 "Paris"%string "Paris"%string [RGeoGet (Ok geo_paris)]
             [RExecute (Ok (Rows [stale_row])); RNow today] "2025-02-16"%string
             [CGeoGet "Paris"] [CExecute (LatestDateQuery "paris"); CNow]
             eq_refl eq_refl eq_refl).
  - refine (H3 "Paris"%string "Paris"%string [RGeoGet (Ok geo_paris)]
              [CGeoGet "Paris"] (Rows [count_row 0]) (CLong 0)
              eq_refl _ _ eq_refl eq_refl);
      discriminate.
Defined.

Lemma check_data_freshness_fails_loudly_witness :
  exec (Image.get_weather true "Paris")
       ([RGeoGet (Ok geo_paris)] ++ [RExecute (Raise (ClientError "timed out"))])
  = Some (HTMLResponse "<p>An error occurred: timed out</p>",
          [CGeoGet "Paris"] ++ [CExecute (LatestDateQuery "paris")]).
Proof.
  exact (proj2 (proj2 (check_data_freshness_fails_loudly "paris" (ClientError "timed out")))
           "Paris"%string "Paris"%string lat lon [RGeoGet (Ok geo_paris)]
           [CGeoGet "Paris"] eq_refl eq_refl eq_refl).
Defined.

Lemma prepare_ingestion_data_shape_witness :
  exists rows : list string,
    Image.prepare_ingestion_data "paris" (JSeries daily)
    = Some (rows, Image.weather_attributes daily)
    /\ Main.prepare_ingestion_data "paris" (JSeries daily)
       = Some (rows, Main.weather_attributes daily)
    /\ List.length rows = 2%nat
    /\ rows = map (fun i => join "," (row_fields "paris" daily i)) (range 2)
    /\ forall i, (i < 2)%nat ->
         nth_error rows i = Some (join "," (row_fields "paris" daily i))
         /\ List.length (row_fields "paris" daily i)
            = (2 + List.length (Image.weather_attributes daily))%nat.
Proof.
  refine (prepare_ingestion_data_shape "paris" daily
            [SStr "2025-02-16"; SStr "2025-02-17"] eq_refl _ _); repeat constructor.
Defined.

Lemma weather_code_mapping_witness :
  (forall stats calls,
      exec (Image.get_weather_stats "paris") [RExecute (Ok (Rows [stats_row 0]))]
      = Some (Ok (Some stats), calls) ->
      Image.weather_description stats = "Clear sky"%string
      /\ Image.weather_icon_url stats
         = "https://openweathermap.org/img/wn/01d@2x.png"%string)
  /\ (forall stats calls,
         exec (Image.get_weather_stats "paris") [RExecute (Ok (Rows [stats_row 7]))]
         = Some (Ok (Some stats), calls) ->
         Image.weather_description stats = "Unknown"%string
         /\ Image.weather_icon_url stats
            = "https://openweathermap.org/img/wn/01d@2x.png"%string)
  /\ exists stats calls,
       exec (Image.get_weather_stats "paris") [RExecute (Ok (Rows [stats_row 7]))]
       = Some (Ok (Some stats), calls).
Proof.
  destruct weather_code_mapping as (_ & _ & _ & H).
  split; [| split].
  - intros stats calls E.
    exact (proj1 (H "paris"%string (stats_row 0) [] 0 stats calls eq_refl E) eq_refl).
  - intros stats calls E.
    refine (proj2 (H "paris"%string (stats_row 7) [] 7 stats calls eq_refl E) _).
    simpl. intuition discriminate.
  - eexists. eexists. vm_compute. reflexivity.
Defined.


(** A first ingestion, end to end, in a world that answers from a list:
    the store has no row of the city, the forecast is ingested as fetched,
    the check after the append sees 30 rows, and the page shows code 0 as
    clear sky. *)
Example first_ingestion_end_to_end :
  let '(p, _, replies) :=
    run Worlds.scripted (Image.get_weather true "Paris")
      [ RGeoGet (Ok geo_paris); RExecute (Ok (Rows [unknown_row]));
        RForecastGet (Ok weather);
        RIngest (Ok tt); RExecute (Ok (Rows [fresh_row])); RNow today;
        RExecute (Ok (Rows [stats_row 0])) ] in
  (exists numbers,
      p = Rendered "weather.html" "Paris" numbers (Some "Clear sky"%string)
            (Some "https://openweathermap.org/img/wn/01d@2x.png"%string))
  /\ option_map snd (exec (Image.get_weather true "Paris") replies)
     = Some [ CGeoGet "Paris"; CExecute (LatestDateQuery "paris");
              CForecastGet lat lon;
              CIngest (join newline
                         [ "paris,2025-02-16,3,12.5,2025-02-16T07:58";
                           "paris,2025-02-17,0,,2025-02-17T07:56" ]%string);
              CExecute (LatestDateQuery "paris"); CNow;
              CExecute (StatsQuery "paris") ].
Proof. vm_compute. split; [eexists; reflexivity | reflexivity]. Qed.

End Witnesses.

(** ** src/image/main.py: the shape of every run of the refresh *)

Module RunFacts.
Import Py Eff Web Image Dedup PyFacts EffFacts DictFacts DedupFacts ImageFacts
       PipelineFacts EnsureFacts RefreshFacts.

(** The calls of the check after an append: none when the append raised. *)
Lemma ingest_and_verify_calls (city : string) (data : list string)
    (s : list reply) (r : result bool) (calls : list call) :
  exec (ingest_and_verify city data) s = Some (r, calls) ->
  (exists b, r = Ok b)
  /\ exists c4,
      calls = CIngest (join newline data) :: c4
      /\ (c4 = [] \/ c4 = [CExecute (LatestDateQuery city)]
          \/ c4 = [CExecute (LatestDateQuery city); CNow]).
Proof.
  intros H.
  destruct (ingest_and_verify_runs _ _ _ _ _ H) as (res & s4 & c4 & -> & -> & Hafter).
  destruct res as [u | e].
  - destruct Hafter as (checked & E4 & ->). split; [eauto |].
    exists c4. split; [reflexivity |].
    destruct (check_data_freshness_runs _ _ _ _ E4)
      as [(t & _ & ->) | (t & d & _ & ->)]; auto.
  - destruct Hafter as (-> & -> & ->). split; [eauto |]. exists []. auto.
Qed.

(** Every run of the refresh: one forecast fetch; on a refresh of a city
    with a stored date, one query for the existing dates; then nothing, or
    one append and its check.  The block returns a boolean on every path. *)
Lemma refresh_runs (city : string) (lat lon : scalar) (latest : string)
    (s : list reply) (r : result bool) (calls : list call) :
  exec (refresh city lat lon latest) s = Some (r, calls) ->
  (exists b, r = Ok b)
  /\ exists cmid ctail,
      calls = CForecastGet lat lon :: cmid ++ ctail
      /\ (cmid = []
          \/ (latest <> ""%string
              /\ cmid = [CExecute (ExistingDatesQuery (lower city))]))
      /\ (ctail = []
          \/ exists csv c4,
              ctail = CIngest csv :: c4
              /\ (c4 = [] \/ c4 = [CExecute (LatestDateQuery city)]
                  \/ c4 = [CExecute (LatestDateQuery city); CNow])).
Proof.
  unfold refresh, get_weather_data, forecast_get, lift.
  cbn [catch bind ret raise Monad_M MonadExc_M pbind].
  destruct s as [| [| freply | | | |] s]; try discriminate.
  cbn [exec].
  destruct (exec _ s) as [[r' c'] |] eqn:E; [| discriminate].
  intros H. injection H as <- <-.
  destruct freply as [weather | e]; cbn [pbind] in E.
  2: { cbn [lacks_daily] in E. ret_inv E. split; [eauto |].
       exists [], []. auto. }
  destruct (lacks_daily (Some weather)) eqn:Hlack.
  { cbn [pbind] in E. ret_inv E. split; [eauto |]. exists [], []. auto. }
  assert (exists daily_json, dict_get "daily" weather = Some daily_json)
    as [daily_json Hd].
  { apply dict_mem_get. unfold lacks_daily in Hlack.
    destruct weather; [discriminate |]. now apply negb_false_iff in Hlack. }
  unfold getitem in E. rewrite Hd in E. cbn [pbind] in E.
  apply exec_pbind_elim in E.
  destruct E as (mid & tail & cont & cmid & ctail & -> & -> & Emid & Etail).
  assert ((cmid = []
           \/ (latest <> ""%string
               /\ cmid = [CExecute (ExistingDatesQuery (lower city))]))
          /\ exists out, cont = Ok out) as [Hcmid [out ->]].
  { destruct (String.eqb_spec latest "") as [-> | Hne]; cbn [negb] in Emid.
    - cbn in Emid. ret_inv Emid. split; [auto | eauto].
    - destruct (dedup_runs _ _ _ _ _ Emid) as (treply & _ & -> & Hout).
      split; [auto |].
      destruct Hout as [-> | (? & ? & ? & ? & ? & _ & _ & _ & _ & _
                              & [[_ ->] | [_ ->]])]; eauto. }
  cbn [pbind] in Etail.
  destruct out as [returned | prepared].
  - ret_inv Etail. split; [eauto |]. exists cmid, []. auto.
  - destruct (prepare_ingestion_data city prepared)
      as [[[| row rows] attrs] |]; cbn [pbind] in Etail.
    1, 3: ret_inv Etail; split; [eauto |]; exists cmid, []; auto.
    destruct (ingest_and_verify_calls _ _ _ _ _ Etail) as (Hb & c4 & -> & Hc4).
    split; [exact Hb |]. exists cmid, (CIngest (join newline (row :: rows)) :: c4).
    repeat split; auto. right. eauto.
Qed.

Lemma first_before {A : Type} (x y : A) (a : list A) :
  forall b pre post,
    a ++ x :: b = pre ++ y :: post -> ~ In y a -> x <> y -> In x pre.
Proof.
  induction a as [| z a IH]; intros b pre post Heq Hy Hxy.
  - destruct pre as [| p pre]; simpl in Heq.
    + injection Heq as -> _. contradiction.
    + injection Heq as <- _. now left.
  - destruct pre as [| p pre]; simpl in Heq.
    + injection Heq as -> _. exfalso. apply Hy. now left.
    + injection Heq as <- Heq. right.
      apply (IH _ _ _ Heq); [| exact Hxy]. intros Hin. apply Hy. now right.
Qed.

(** The forecast is fetched at most once, an append is made at most once
    and only after the fetch. *)
Lemma ensure_fresh_data_call_counts (city : string) (lat lon : scalar)
    (script : list reply) (r : result bool) (calls : list call) :
  exec (ensure_fresh_data city lat lon) script = Some (r, calls) ->
  (count_calls is_forecast_get calls <= 1)%nat
  /\ (count_calls is_ingest calls <= 1)%nat
  /\ forall pre csv post,
       calls = pre ++ CIngest csv :: post -> In (CForecastGet lat lon) pre.
Proof.
  intros H.
  destruct (ensure_fresh_data_runs _ _ _ _ _ _ H)
    as (s1 & s2 & checked & c1 & c2 & _ & -> & E1 & Hrest).
  destruct (check_data_freshness_quiet _ _ _ _ E1) as (Hf1 & Hi1 & _).
  assert (c2 = [] \/ exists cmid ctail,
             c2 = CForecastGet lat lon :: cmid ++ ctail
             /\ (cmid = [] \/ exists q, cmid = [CExecute q])
             /\ (ctail = []
                 \/ exists csv c4,
                     ctail = CIngest csv :: c4
                     /\ (c4 = [] \/ c4 = [CExecute (LatestDateQuery city)]
                         \/ c4 = [CExecute (LatestDateQuery city); CNow])))
    as Hc2.
  { destruct checked as [[[|] latest] | e].
    - left. tauto.
    - right. destruct (refresh_runs _ _ _ _ _ _ _ Hrest)
        as (_ & cmid & ctail & -> & Hcmid & Hctail).
      exists cmid, ctail. repeat split; auto.
      destruct Hcmid as [-> | (_ & ->)]; eauto.
    - left. tauto. }
  assert (~ exists csv, In (CIngest csv) c1) as Hno1.
  { intros [csv Hin].
    destruct (check_calls_no_ingest _ _ _ _ _ E1 Hin); discriminate. }
  split; [| split].
  - unfold count_calls in *. rewrite filter_app, length_app, Hf1.
    destruct Hc2 as [-> | (cmid & ctail & -> & Hcmid & Hctail)]; [simpl; lia |].
    destruct Hcmid as [-> | [q ->]];
      destruct Hctail as [-> | (csv' & c4 & -> & [-> | [-> | ->]])]; simpl; lia.
  - unfold count_calls in *. rewrite filter_app, length_app, Hi1.
    destruct Hc2 as [-> | (cmid & ctail & -> & Hcmid & Hctail)]; [simpl; lia |].
    destruct Hcmid as [-> | [q ->]];
      destruct Hctail as [-> | (csv' & c4 & -> & [-> | [-> | ->]])]; simpl; lia.
  - intros pre csv post Heq.
    destruct Hc2 as [-> | (cmid & ctail & -> & _)].
    + exfalso. apply Hno1. exists csv. rewrite app_nil_r in Heq. rewrite Heq.
      apply in_or_app. right. now left.
    + apply (first_before _ (CIngest csv) _ _ _ _ Heq); [| discriminate].
      intros Hin. apply Hno1. eauto.
Qed.

(** X1. A run of [ensure_fresh_data] fetches the forecast at most once and
    appends at most once, and an append comes only after the fetch. *)
Theorem ensure_fresh_data_at_most_once (city : string) (lat lon : scalar)
    (script : list reply) (r : result bool) (calls : list call) :
  exec (ensure_fresh_data city lat lon) script = Some (r, calls) ->
  (count_calls is_forecast_get calls <= 1)%nat
  /\ (count_calls is_ingest calls <= 1)%nat
  /\ forall pre csv post,
       calls = pre ++ CIngest csv :: post -> In (CForecastGet lat lon) pre.
Proof. exact (ensure_fresh_data_call_counts city lat lon script r calls). Qed.

End RunFacts.

(** ** src/image/main.py: what [ensure_fresh_data] lets through *)

Module EnsureMoreFacts.
Import Py Eff Web Image Dedup PyFacts EffFacts DictFacts DedupFacts ImageFacts
       PipelineFacts EnsureFacts RefreshFacts RunFacts.

(** X2. The only exception [ensure_fresh_data] lets through is that of its
    first freshness check: a run that raises is a run of the check alone,
    and a run that reached the forecast fetch returns a boolean. *)
Theorem ensure_fresh_data_raises_only_first_check (city : string) (lat lon : scalar)
    (script : list reply) (r : result bool) (calls : list call) :
  exec (ensure_fresh_data city lat lon) script = Some (r, calls) ->
  (forall e, r = Raise e ->
             exec (check_data_freshness city) script = Some (Raise e, calls))
  /\ (In (CForecastGet lat lon) calls -> exists b, r = Ok b).
Proof.
  intros H.
  destruct (ensure_fresh_data_runs _ _ _ _ _ _ H)
    as (s1 & s2 & checked & c1 & c2 & -> & -> & E1 & Hrest).
  destruct checked as [[[|] latest] | e0].
  - destruct Hrest as (-> & -> & ->). rewrite !app_nil_r.
    split; [discriminate | eauto].
  - destruct (refresh_runs _ _ _ _ _ _ _ Hrest) as ([b ->] & _).
    split; [discriminate | eauto].
  - destruct Hrest as (-> & -> & ->). rewrite !app_nil_r. split.
    + intros e He. injection He as <-. exact E1.
    + intros Hin. destruct (check_calls_no_ingest _ _ _ _ _ E1 Hin); discriminate.
Qed.

(** X3. For a city the store has no dated row of (the check answers not
    fresh, with no latest date), [ensure_fresh_data] never asks for the
    existing dates, and what it appends is every row prepared from the
    series as fetched. *)
Theorem first_ingestion_unfiltered (city : string) (lat lon : scalar)
    (s1 rest : list reply) (c1 : list call) (r : result bool) (calls : list call) :
  exec (check_data_freshness city) s1 = Some (Ok (false, ""%string), c1) ->
  exec (ensure_fresh_data city lat lon) (s1 ++ rest) = Some (r, calls) ->
  (forall c, ~ In (CExecute (ExistingDatesQuery c)) calls)
  /\ forall csv,
       In (CIngest csv) calls ->
       exists weather daily_json rows attrs,
         In (RForecastGet (Ok weather)) rest
         /\ dict_get "daily" weather = Some daily_json
         /\ prepare_ingestion_data city daily_json = Some (rows, attrs)
         /\ csv = join newline rows.
Proof.
  intros E1 H.
  destruct (ensure_fresh_data_refresh_of _ _ _ _ _ _ _ _ _ E1 H) as (c2 & -> & E2).
  destruct (refresh_runs _ _ _ _ _ _ _ E2) as (_ & cmid & ctail & Hc2 & Hcmid & Hctail).
  destruct Hcmid as [-> | (Hne & _)]; [| contradiction].
  split.
  - intros c Hin. apply in_app_or in Hin. destruct Hin as [Hin | Hin].
    { destruct (check_calls_no_ingest _ _ _ _ _ E1 Hin); discriminate. }
    subst c2. simpl in Hin.
    destruct Hin as [Hin | Hin]; try discriminate.
    destruct Hctail as [-> | (csv & c4 & -> & [-> | [-> | ->]])]; simpl in Hin;
      intuition discriminate.
  - intros csv Hin.
    assert (In (CIngest csv) c2) as Hin2.
    { apply in_app_or in Hin. destruct Hin as [Hin | Hin]; [| exact Hin].
      destruct (check_calls_no_ingest _ _ _ _ _ E1 Hin); discriminate. }
    destruct (refresh_ingest_run _ _ _ _ _ _ _ E2 (ex_intro _ csv Hin2))
      as (weather & daily_json & mid & cmid' & prepared & data & attrs & tail & ctail'
          & -> & Hcalls & Hd & Hsrc & Hprep & Hdata & Etail).
    destruct Hsrc as [(_ & -> & -> & ->) | (Hne & _)]; [| contradiction].
    destruct (ingest_and_verify_calls _ _ _ _ _ Etail) as (_ & c4' & -> & Hc4').
    exists weather, daily_json, data, attrs.
    repeat split; auto; [now left |].
    rewrite Hcalls in Hin2. simpl in Hin2.
    destruct Hin2 as [Hx | [Hx | Hx]]; try discriminate.
    + injection Hx as <-. reflexivity.
    + destruct Hc4' as [-> | [-> | ->]]; simpl in Hx; intuition discriminate.
Qed.

(** X4. When the query for the existing dates fails, the refresh is given
    up: [ensure_fresh_data] returns [False] and appends nothing, rather than
    ingesting the series unfiltered. *)
Theorem existing_dates_failure_stops_refresh (city : string) (lat lon : scalar)
    (s1 : list reply) (c1 : list call) (latest : string)
    (weather : dict json) (daily_json : json) (e : exn) :
  exec (check_data_freshness city) s1 = Some (Ok (false, latest), c1) ->
  latest <> ""%string ->
  dict_get "daily" weather = Some daily_json ->
  exec (ensure_fresh_data city lat lon)
       (s1 ++ [RForecastGet (Ok weather); RExecute (Raise e)])
  = Some (Ok false,
          c1 ++ [CForecastGet lat lon; CExecute (ExistingDatesQuery (lower city))])
  /\ count_calls is_ingest
       (c1 ++ [CForecastGet lat lon; CExecute (ExistingDatesQuery (lower city))])
     = 0%nat.
Proof.
  intros E1 Hne Hd. split.
  - apply (ensure_fresh_data_refreshes _ _ _ _ _ _ _ _ _ E1).
    unfold refresh, get_weather_data, forecast_get, lift.
    cbn [catch bind ret raise Monad_M MonadExc_M pbind exec].
    rewrite (lacks_daily_false _ _ Hd). unfold getitem. rewrite Hd.
    cbn [pbind].
    destruct (String.eqb_spec latest "") as [-> | _]; [contradiction |].
    reflexivity.
  - destruct (check_data_freshness_quiet _ _ _ _ E1) as (_ & Hi & _).
    unfold count_calls in *. rewrite filter_app, length_app, Hi. reflexivity.
Qed.

End EnsureMoreFacts.

(** ** src/image/main.py: more on the dedup filter *)

Module FilterFacts.
Import Py Eff Web Image Dedup Rows PyFacts EffFacts DictFacts DedupFacts ImageFacts
       PipelineFacts EnsureFacts RefreshFacts RowsFacts.

Lemma map_nth_all {A : Type} (d : A) (l : list A) :
  forall pre : list A,
    map (fun i => nth i (pre ++ l) d) (seq (List.length pre) (List.length l)) = l.
Proof.
  induction l as [| x l IH]; intros pre; [reflexivity |].
  simpl. rewrite nth_middle. f_equal.
  specialize (IH (pre ++ [x])).
  rewrite <- app_assoc, length_app in IH. simpl in IH.
  rewrite Nat.add_1_r in IH. exact IH.
Qed.

Lemma map_nth_range {A : Type} (d : A) (l : list A) :
  map (fun i => nth i l d) (seq 0 (List.length l)) = l.
Proof. exact (map_nth_all d l []). Qed.

Lemma select_all (column : list scalar) :
  select column (range (List.length column)) = column.
Proof. exact (map_nth_all SNone column []). Qed.

Lemma select_length (column : list scalar) (indices : list nat) :
  List.length (select column indices) = List.length indices.
Proof. unfold select. apply length_map. Qed.

Lemma nth_select (column : list scalar) (indices : list nat) (j : nat) :
  (j < List.length indices)%nat ->
  nth j (select column indices) SNone = nth (nth j indices 0%nat) column SNone.
Proof.
  intros Hj. unfold select.
  rewrite (nth_indep _ SNone (nth 0 column SNone)) by (rewrite length_map; exact Hj).
  apply (map_nth (fun i => nth i column SNone)).
Qed.

Lemma not_in_nothing (date : scalar) : not_in date [] = true.
Proof. destruct date; reflexivity. Qed.

Lemma kept_indices_nothing_stored (dates : list scalar) :
  kept_indices dates [] = range (List.length dates).
Proof.
  unfold kept_indices. apply forallb_filter_id.
  apply forallb_forall. intros i _. apply not_in_nothing.
Qed.

Lemma kept_indices_all_stored (dates : list scalar) (existing_dates : list string) :
  Forall (fun v => exists s, v = SStr s /\ In s existing_dates) dates ->
  kept_indices dates existing_dates = [].
Proof.
  intros Hall. unfold kept_indices.
  assert (forall i, In i (range (List.length dates)) ->
                    not_in (nth i dates SNone) existing_dates = false) as Hno.
  { intros i Hi. unfold range in Hi. apply in_seq in Hi.
    rewrite Forall_forall in Hall.
    destruct (Hall (nth i dates SNone)) as (s & -> & Hs); [apply nth_In; lia |].
    simpl. apply negb_false_iff. apply existsb_exists.
    exists s. split; [exact Hs | apply String.eqb_refl]. }
  induction (range (List.length dates)) as [| i l IH]; [reflexivity |].
  simpl. rewrite Hno by now left. apply IH. intros j Hj. apply Hno. now right.
Qed.

Lemma kept_indices_bound (dates : list scalar) (existing_dates : list string) (i : nat) :
  In i (kept_indices dates existing_dates) -> (i < List.length dates)%nat.
Proof. intros Hi. now apply kept_indices_spec in Hi. Qed.

(** X5. With no date in the store's answer, the filter changes nothing:
    the series comes out as it was fetched. *)
Theorem filter_daily_data_nothing_stored (daily_data : series) (dates : list scalar) :
  NoDup (keys daily_data) ->
  dict_get "time" daily_data = Some dates ->
  Forall (fun kv => List.length (snd kv) = List.length dates) daily_data ->
  filter_daily_data daily_data [] = Ok daily_data.
Proof.
  intros Hnd Htime Hlen.
  rewrite (filter_daily_data_closed_form _ _ _ Hnd Htime Hlen).
  rewrite kept_indices_nothing_stored. f_equal.
  unfold filtered_by_index. rewrite <- (map_id daily_data) at 2.
  apply map_ext_in. intros [k column] Hin.
  rewrite Forall_forall in Hlen. specialize (Hlen _ Hin). simpl in *.
  rewrite <- Hlen. now rewrite select_all.
Qed.

(** X6. When every fetched date is already stored, the filter leaves every
    attribute sequence empty, and the refresh ends as success without an
    append: a second refresh over the same days ingests nothing. *)
Theorem refresh_twice_ingests_nothing (city : string) (lat lon : scalar)
    (s1 : list reply) (c1 : list call) (latest : string)
    (weather : dict json) (daily_data : series) (dates : list scalar)
    (tbl : table) (existing_dates : list string) :
  exec (check_data_freshness city) s1 = Some (Ok (false, latest), c1) ->
  latest <> ""%string ->
  dict_get "daily" weather = Some (JSeries daily_data) ->
  existing_dates_of tbl = Ok existing_dates ->
  NoDup (keys daily_data) ->
  dict_get "time" daily_data = Some dates ->
  Forall (fun kv => List.length (snd kv) = List.length dates) daily_data ->
  Forall (fun v => exists s, v = SStr s /\ In s existing_dates) dates ->
  filter_daily_data daily_data existing_dates
  = Ok (map (fun kv => (fst kv, [])) daily_data)
  /\ exec (ensure_fresh_data city lat lon)
          (s1 ++ [RForecastGet (Ok weather); RExecute (Ok tbl)])
     = Some (Ok true,
             c1 ++ [CForecastGet lat lon; CExecute (ExistingDatesQuery (lower city))]).
Proof.
  intros E1 Hne Hd Hex Hnd Htime Hlen Hall.
  assert (filter_daily_data daily_data existing_dates
          = Ok (map (fun kv => (fst kv, [])) daily_data)) as Hf.
  { rewrite (filter_daily_data_closed_form _ _ _ Hnd Htime Hlen).
    now rewrite (kept_indices_all_stored _ _ Hall). }
  split; [exact Hf |].
  apply (ensure_fresh_data_refreshes _ _ _ _ _ _ _ _ _ E1).
  unfold refresh, get_weather_data, forecast_get, lift.
  cbn [catch bind ret raise Monad_M MonadExc_M pbind exec].
  rewrite (lacks_daily_false _ _ Hd). unfold getitem. rewrite Hd.
  cbn [pbind].
  destruct (String.eqb_spec latest "") as [-> | _]; [contradiction |].
  cbn [negb]. unfold dedup, execute, lift.
  cbn [catch bind ret raise Monad_M MonadExc_M pbind exec].
  rewrite Hex. cbn [pbind]. rewrite Hf. cbn [pbind].
  unfold getitem.
  change (map (fun kv : string * list scalar => (fst kv, [])) daily_data)
    with (filtered_by_index daily_data []).
  rewrite dict_get_filtered_by_index, Htime. reflexivity.
Qed.

(** X7. The filter keeps a series well formed: the same attribute names in
    the same order, and every sequence, [time] included, as long as the
    number of kept dates, which is at most the number fetched. *)
Theorem filter_daily_data_keeps_alignment (daily_data : series) (dates : list scalar)
    (existing_dates : list string) :
  NoDup (keys daily_data) ->
  dict_get "time" daily_data = Some dates ->
  Forall (fun kv => List.length (snd kv) = List.length dates) daily_data ->
  exists filtered time,
    filter_daily_data daily_data existing_dates = Ok filtered
    /\ keys filtered = keys daily_data
    /\ dict_get "time" filtered = Some time
    /\ Forall (fun kv => List.length (snd kv) = List.length time) filtered
    /\ (List.length time <= List.length dates)%nat
    /\ (Forall (fun v => is_str v = true) dates ->
        Forall (fun v => is_str v = true) time).
Proof.
  intros Hnd Htime Hlen.
  exists (filtered_by_index daily_data (kept_indices dates existing_dates)),
         (select dates (kept_indices dates existing_dates)).
  split; [exact (filter_daily_data_closed_form _ _ _ Hnd Htime Hlen) |].
  split; [apply keys_filtered_by_index |].
  split; [rewrite dict_get_filtered_by_index, Htime; reflexivity |].
  split; [| split].
  - unfold filtered_by_index. apply Forall_map. apply Forall_forall.
    intros kv _. simpl. now rewrite !select_length.
  - rewrite select_length. unfold kept_indices.
    etransitivity; [apply filter_length_le |].
    unfold range. now rewrite length_seq.
  - intros Hstr. unfold select. apply Forall_map. apply Forall_forall.
    intros i Hi. rewrite Forall_forall in Hstr. apply Hstr.
    apply nth_In. exact (kept_indices_bound _ _ _ Hi).
Qed.

End FilterFacts.

(** ** [prepare_ingestion_data]: after the filter, and on malformed series *)

Module PrepareFacts.
Import Py Eff Web Image Dedup Rows PyFacts EffFacts DictFacts DedupFacts ImageFacts
       PipelineFacts EnsureFacts RefreshFacts RowsFacts FilterFacts.

(** The rows of a well-formed series, in closed form. *)
Lemma prepare_ingestion_data_rows (city : string) (daily_data : series)
    (dates : list scalar) :
  dict_get "time" daily_data = Some dates ->
  Forall (fun v => is_str v = true) dates ->
  Forall (fun kv => List.length (snd kv) = List.length dates) daily_data ->
  prepare_ingestion_data city (JSeries daily_data)
  = Some (map (fun i => join "," (row_fields city daily_data i))
              (range (List.length dates)),
          weather_attributes daily_data).
Proof.
  intros Htime Hstr Hlen.
  unfold prepare_ingestion_data, prepare_ingestion_body, getitem.
  rewrite Htime. cbn [bind ret Monad_result].
  rewrite (mapM_pointwise _ (fun i => join "," (row_fields city daily_data i))).
  - reflexivity.
  - intros i Hin. unfold range in Hin. apply in_seq in Hin.
    apply prepare_row_fields; auto. lia.
Qed.

Lemma nth_column_filtered (daily_data : series) (indices : list nat)
    (attr : string) (j : nat) :
  (j < List.length indices)%nat ->
  nth j (column (filtered_by_index daily_data indices) attr) SNone
  = nth (nth j indices 0%nat) (column daily_data attr) SNone.
Proof.
  intros Hj. unfold column. rewrite dict_get_filtered_by_index.
  destruct (dict_get attr daily_data) as [values |]; simpl.
  - now apply nth_select.
  - destruct j; destruct (nth _ indices 0%nat); reflexivity.
Qed.

Lemma row_fields_filtered (city : string) (daily_data : series) (indices : list nat)
    (j : nat) :
  (j < List.length indices)%nat ->
  row_fields city (filtered_by_index daily_data indices) j
  = row_fields city daily_data (nth j indices 0%nat).
Proof.
  intros Hj. unfold row_fields.
  rewrite keys_filtered_by_index, (nth_column_filtered _ _ "time" _ Hj).
  f_equal. f_equal. apply map_ext. intros attr.
  now rewrite (nth_column_filtered _ _ attr _ Hj).
Qed.

(** The rows prepared from a filtered series are the rows of the kept
    dates of the series as fetched. *)
Lemma prepare_filtered_rows (city : string) (daily_data : series)
    (dates : list scalar) (indices : list nat) :
  dict_get "time" daily_data = Some dates ->
  Forall (fun v => is_str v = true) dates ->
  Forall (fun kv => List.length (snd kv) = List.length dates) daily_data ->
  Forall (fun i => (i < List.length dates)%nat) indices ->
  prepare_ingestion_data city (JSeries (filtered_by_index daily_data indices))
  = Some (map (fun i => join "," (row_fields city daily_data i)) indices,
          weather_attributes daily_data).
Proof.
  intros Htime Hstr Hlen Hbound.
  rewrite (prepare_ingestion_data_rows city _ (select dates indices)).
  - rewrite select_length.
    replace (weather_attributes (filtered_by_index daily_data indices))
      with (weather_attributes daily_data)
      by (unfold weather_attributes; now rewrite keys_filtered_by_index).
    do 2 f_equal.
    rewrite <- (map_nth_range 0%nat indices) at 2. rewrite map_map.
    apply map_ext_in. intros j Hj. unfold range in Hj. apply in_seq in Hj.
    rewrite row_fields_filtered by lia. reflexivity.
  - rewrite dict_get_filtered_by_index, Htime. reflexivity.
  - unfold select. apply Forall_map. apply Forall_forall.
    intros i Hi. rewrite Forall_forall in Hstr, Hbound. apply Hstr.
    apply nth_In. exact (Hbound _ Hi).
  - unfold filtered_by_index. apply Forall_map. apply Forall_forall.
    intros kv _. simpl. now rewrite !select_length.
Qed.

Lemma kept_indices_bounded (dates : list scalar) (existing_dates : list string) :
  Forall (fun i => (i < List.length dates)%nat) (kept_indices dates existing_dates).
Proof.
  apply Forall_forall. intros i Hi. exact (kept_indices_bound _ _ _ Hi).
Qed.

(** X8. Filtering and then preparing gives the rows of the kept dates of
    the fetched series, in their order, under the same attribute list: the
    filter drops whole rows and changes none. *)
Theorem filter_then_prepare (city : string) (daily_data : series)
    (dates : list scalar) (existing_dates : list string) :
  NoDup (keys daily_data) ->
  dict_get "time" daily_data = Some dates ->
  Forall (fun v => is_str v = true) dates ->
  Forall (fun kv => List.length (snd kv) = List.length dates) daily_data ->
  exists filtered,
    filter_daily_data daily_data existing_dates = Ok filtered
    /\ prepare_ingestion_data city (JSeries filtered)
       = Some (map (fun i => join "," (row_fields city daily_data i))
                   (kept_indices dates existing_dates),
               weather_attributes daily_data).
Proof.
  intros Hnd Htime Hstr Hlen.
  exists (filtered_by_index daily_data (kept_indices dates existing_dates)).
  split; [exact (filter_daily_data_closed_form _ _ _ Hnd Htime Hlen) |].
  exact (prepare_filtered_rows city daily_data dates _ Htime Hstr Hlen
           (kept_indices_bounded dates existing_dates)).
Qed.

Lemma mapM_raises {A B : Type} (f : A -> result B) (l : list A) (a : A) (e : exn) :
  In a l -> f a = Raise e -> exists e', mapM f l = Raise e'.
Proof.
  induction l as [| x l IH]; intros Hin Hf; [contradiction |].
  simpl. destruct (f x) as [b | e0] eqn:Hx; [| eauto].
  destruct Hin as [-> | Hin]; [congruence |].
  destruct (IH Hin Hf) as [e' ->]. eauto.
Qed.

Lemma prepare_row_short_column (city : string) (daily_data : series)
    (dates : list scalar) (attributes : list string) (attr : string)
    (values : list scalar) (i : nat) :
  In attr attributes ->
  dict_get attr daily_data = Some values ->
  (List.length values <= i)%nat ->
  exists e, prepare_row city daily_data dates attributes i = Raise e.
Proof.
  intros Hattr Hget Hshort. unfold prepare_row. cbn [bind ret Monad_result].
  destruct (index dates i) as [date_i | e]; [| eauto].
  match goal with
  | |- context [mapM ?F attributes] =>
      destruct (mapM_raises F attributes attr IndexError Hattr) as [e' ->]
  end; [| eauto].
  unfold getitem, index. rewrite Hget.
  now rewrite (proj2 (nth_error_None values i) Hshort).
Qed.

Lemma prepare_row_date_not_str (city : string) (daily_data : series)
    (dates : list scalar) (attributes : list string) (i : nat) :
  (i < List.length dates)%nat ->
  is_str (nth i dates SNone) = false ->
  exists e, prepare_row city daily_data dates attributes i = Raise e.
Proof.
  intros Hi Hstr. unfold prepare_row. cbn [bind ret Monad_result].
  rewrite (index_lt dates i SNone Hi).
  match goal with
  | |- context [mapM ?F attributes] => destruct (mapM F attributes) as [values | e]
  end; [| eauto].
  unfold str_join. cbn [bind ret Monad_result mapM].
  destruct (nth i dates SNone); try discriminate; eauto.
Qed.

(** X9. [prepare_ingestion_data] answers [(None, None)], and raises
    nothing, for a series without [time], for one with an attribute
    sequence shorter than [time], and for one with a date that is no
    string. *)
Theorem prepare_ingestion_data_malformed (city : string) (daily_data : series) :
  (dict_get "time" daily_data = None
   \/ (exists dates attr values,
          dict_get "time" daily_data = Some dates
          /\ In attr (weather_attributes daily_data)
          /\ dict_get attr daily_data = Some values
          /\ (List.length values < List.length dates)%nat)
   \/ (exists dates i,
          dict_get "time" daily_data = Some dates
          /\ (i < List.length dates)%nat
          /\ is_str (nth i dates SNone) = false)) ->
  prepare_ingestion_data city (JSeries daily_data) = None.
Proof.
  unfold prepare_ingestion_data, prepare_ingestion_body, getitem.
  intros [Hno | [(dates & attr & values & Htime & Hattr & Hget & Hshort)
                | (dates & i & Htime & Hi & Hstr)]].
  - now rewrite Hno.
  - rewrite Htime. cbn [bind ret Monad_result].
    destruct (prepare_row_short_column city daily_data dates _ attr values
                (List.length values) Hattr Hget (le_n _)) as [e He].
    destruct (mapM_raises _ (range (List.length dates)) (List.length values) e
                ltac:(unfold range; apply in_seq; lia) He) as [e' ->].
    reflexivity.
  - rewrite Htime. cbn [bind ret Monad_result].
    destruct (prepare_row_date_not_str city daily_data dates
                (weather_attributes daily_data) i Hi Hstr) as [e He].
    destruct (mapM_raises _ (range (List.length dates)) i e
                ltac:(unfold range; apply in_seq; lia) He) as [e' ->].
    reflexivity.
Qed.

(** X10. On a first ingestion, which is every run whose check answers not
    fresh with no latest date, a forecast whose series prepares to nothing
    (no date at all, or a malformed series) makes [ensure_fresh_data] return
    [False] without an append; an empty series is no success there. *)
Theorem first_ingestion_nothing_prepared (city : string) (lat lon : scalar)
    (s1 : list reply) (c1 : list call) (weather : dict json) (daily_json : json) :
  exec (check_data_freshness city) s1 = Some (Ok (false, ""%string), c1) ->
  dict_get "daily" weather = Some daily_json ->
  (prepare_ingestion_data city daily_json = None
   \/ exists attrs, prepare_ingestion_data city daily_json = Some ([], attrs)) ->
  exec (ensure_fresh_data city lat lon) (s1 ++ [RForecastGet (Ok weather)])
  = Some (Ok false, c1 ++ [CForecastGet lat lon])
  /\ count_calls is_ingest (c1 ++ [CForecastGet lat lon]) = 0%nat.
Proof.
  intros E1 Hd Hprep. split.
  - apply (ensure_fresh_data_refreshes _ _ _ _ _ _ _ _ _ E1).
    unfold refresh, get_weather_data, forecast_get, lift.
    cbn [catch bind ret raise Monad_M MonadExc_M pbind exec].
    rewrite (lacks_daily_false _ _ Hd). unfold getitem. rewrite Hd.
    cbn [pbind String.eqb negb].
    destruct Hprep as [-> | [attrs ->]]; reflexivity.
  - destruct (check_data_freshness_quiet _ _ _ _ E1) as (_ & Hi & _).
    unfold count_calls in *. rewrite filter_app, length_app, Hi. reflexivity.
Qed.

Lemma prepare_ingestion_data_no_dates (city : string) (daily_data : series) :
  dict_get "time" daily_data = Some [] ->
  prepare_ingestion_data city (JSeries daily_data)
  = Some ([], weather_attributes daily_data).
Proof.
  intros Htime. unfold prepare_ingestion_data, prepare_ingestion_body, getitem.
  now rewrite Htime.
Qed.

End PrepareFacts.

(** ** src/image/main.py: the dedup filter of a refresh *)

Module DedupSpecFacts.
Import Py Eff Web Image Dedup Rows PyFacts EffFacts DictFacts DedupFacts ImageFacts
       PipelineFacts EnsureFacts RefreshFacts RowsFacts FilterFacts PrepareFacts.

(** A refresh that ingests, read back from its run: the check before it
    left a latest date, so the series went through the filter. *)
Lemma refresh_ingests_filtered (city : string) (lat lon : scalar) (latest : string)
    (s2 : list reply) (r : result bool) (c2 : list call) (csv : string) :
  latest <> ""%string ->
  exec (refresh city lat lon latest) s2 = Some (r, c2) ->
  In (CIngest csv) c2 ->
  exists weather daily_data tbl existing_dates filtered time rows attrs res s4 c4,
    s2 = RForecastGet (Ok weather) :: RExecute (Ok tbl) :: RIngest res :: s4
    /\ c2 = CForecastGet lat lon :: CExecute (ExistingDatesQuery (lower city))
            :: CIngest csv :: c4
    /\ dict_get "daily" weather = Some (JSeries daily_data)
    /\ existing_dates_of tbl = Ok existing_dates
    /\ filter_daily_data daily_data existing_dates = Ok filtered
    /\ dict_get "time" filtered = Some time
    /\ (forall s, In s existing_dates -> ~ In (SStr s) time)
    /\ prepare_ingestion_data city (JSeries filtered) = Some (rows, attrs)
    /\ csv = join newline rows.
Proof.
  intros Hne E2 Hing.
  destruct (refresh_ingest_run _ _ _ _ _ _ _ E2 (ex_intro _ csv Hing))
    as (weather & daily_json & mid & cmid & prepared & data & attrs & tail & ctail
        & -> & -> & Hd & Hsrc & Hprep & Hdata & Etail).
  destruct (ingest_and_verify_runs _ _ _ _ _ Etail)
    as (res & s4 & c4 & -> & -> & Hafter).
  assert (forall c, In c c4 -> c = CExecute (LatestDateQuery city) \/ c = CNow)
    as Hc4.
  { intros c Hc. destruct res as [u | e].
    - destruct Hafter as (checked' & E4 & _).
      exact (check_calls_no_ingest _ _ _ _ _ E4 Hc).
    - destruct Hafter as (_ & -> & _). contradiction. }
  destruct Hsrc as [(-> & _)
                   | (_ & tbl & existing & daily & filtered & time & -> & ->
                      & Hex & -> & Hf & Ht & Hnil & ->)]; [contradiction |].
  assert (csv = join newline data) as ->.
  { simpl in Hing.
    destruct Hing as [Hx | [Hx | [Hx | Hx]]]; try discriminate.
    - injection Hx as <-. reflexivity.
    - destruct (Hc4 _ Hx); discriminate. }
  exists weather, daily, tbl, existing, filtered, time, data, attrs, res, s4, c4.
  repeat split; auto.
  exact (filter_daily_data_new_dates _ _ _ _ Hf Ht).
Qed.

(** A refresh over a well-formed series of which a date is new: the query
    for the stored dates, then the append of the rows of the new dates. *)
Lemma refresh_appends_new_dates (city : string) (lat lon : scalar) (latest : string)
    (weather : dict json) (daily_data : series) (dates : list scalar)
    (tbl : table) (existing_dates : list string)
    (s4 : list reply) (checked : result (bool * string)) (c4 : list call) :
  latest <> ""%string ->
  dict_get "daily" weather = Some (JSeries daily_data) ->
  existing_dates_of tbl = Ok existing_dates ->
  NoDup (keys daily_data) ->
  dict_get "time" daily_data = Some dates ->
  Forall (fun v => is_str v = true) dates ->
  Forall (fun kv => List.length (snd kv) = List.length dates) daily_data ->
  kept_indices dates existing_dates <> [] ->
  exec (check_data_freshness city) s4 = Some (checked, c4) ->
  exec (refresh city lat lon latest)
       (RForecastGet (Ok weather) :: RExecute (Ok tbl) :: RIngest (Ok tt) :: s4)
  = Some (Ok (verdict checked),
          CForecastGet lat lon :: CExecute (ExistingDatesQuery (lower city))
          :: CIngest (join newline
                        (map (fun i => join "," (row_fields city daily_data i))
                             (kept_indices dates existing_dates)))
          :: c4).
Proof.
  intros Hne Hd Hex Hnd Htime Hstr Hlen Hkept E4.
  pose proof (filter_daily_data_closed_form _ _ existing_dates Hnd Htime Hlen) as Hf.
  pose proof (prepare_filtered_rows city daily_data dates _ Htime Hstr Hlen
                (kept_indices_bounded dates existing_dates)) as Hprep.
  pose proof (ingest_and_verify_returns city
                (map (fun i => join "," (row_fields city daily_data i))
                     (kept_indices dates existing_dates)) s4 checked c4 E4) as Hrun.
  assert (dict_get "time" (filtered_by_index daily_data
                             (kept_indices dates existing_dates))
          = Some (select dates (kept_indices dates existing_dates))) as Ht
    by (rewrite dict_get_filtered_by_index, Htime; reflexivity).
  destruct (kept_indices dates existing_dates) as [| i kept]; [contradiction |].
  unfold refresh, get_weather_data, forecast_get, lift.
  cbn [catch bind ret raise Monad_M MonadExc_M pbind exec].
  rewrite (lacks_daily_false _ _ Hd). unfold getitem. rewrite Hd.
  cbn [pbind].
  destruct (String.eqb_spec latest "") as [-> | _]; [contradiction |].
  cbn [negb]. unfold dedup, execute, lift.
  cbn [catch bind ret raise Monad_M MonadExc_M pbind exec].
  rewrite Hex. cbn [pbind]. rewrite Hf. cbn [pbind].
  unfold getitem. rewrite Ht. unfold select. cbn [map pbind].
  rewrite Hprep. cbn [map].
  cbn [map] in Hrun. rewrite Hrun. reflexivity.
Qed.

(** C2. On a fetched series (unique attribute names, a [time] sequence,
    every sequence as long as [time]) the filter is the cut of every
    attribute sequence by one index set, the indices whose date is absent
    from the existing dates.  A run of [ensure_fresh_data] whose check left
    a latest date and that ingests has asked the store for the existing
    dates, and what it ingests are the rows prepared from the series as the
    filter made it with the dates of that reply: no existing date is in it.
    And on a well-formed series of which a date is new, such a run does
    ingest: the rows of the new dates, and no other. *)
Theorem dedup_filter_spec :
  (forall (daily_data : series) (existing_dates : list string) (dates : list scalar),
      NoDup (keys daily_data) ->
      dict_get "time" daily_data = Some dates ->
      Forall (fun kv => List.length (snd kv) = List.length dates) daily_data ->
      filter_daily_data daily_data existing_dates
      = Ok (filtered_by_index daily_data (kept_indices dates existing_dates))
      /\ (forall i, In i (kept_indices dates existing_dates)
                    <-> (i < List.length dates)%nat
                        /\ not_in (nth i dates SNone) existing_dates = true)
      /\ (forall key column,
             dict_get key daily_data = Some column ->
             dict_get key (filtered_by_index daily_data
                             (kept_indices dates existing_dates))
             = Some (select column (kept_indices dates existing_dates))))
  /\ (forall (city : string) (lat lon : scalar) (s1 s2 : list reply)
             (c1 : list call) (latest : string)
             (r : result bool) (calls : list call) (csv : string),
         exec (check_data_freshness city) s1 = Some (Ok (false, latest), c1) ->
         latest <> ""%string ->
         exec (ensure_fresh_data city lat lon) (s1 ++ s2) = Some (r, calls) ->
         In (CIngest csv) calls ->
         exists weather daily_data tbl existing_dates filtered time rows attrs
                res s4 c4,
           s2 = RForecastGet (Ok weather) :: RExecute (Ok tbl) :: RIngest res :: s4
           /\ calls = c1 ++ CForecastGet lat lon
                         :: CExecute (ExistingDatesQuery (lower city))
                         :: CIngest csv :: c4
           /\ dict_get "daily" weather = Some (JSeries daily_data)
           /\ existing_dates_of tbl = Ok existing_dates
           /\ filter_daily_data daily_data existing_dates = Ok filtered
           /\ dict_get "time" filtered = Some time
           /\ (forall s, In s existing_dates -> ~ In (SStr s) time)
           /\ prepare_ingestion_data city (JSeries filtered) = Some (rows, attrs)
           /\ csv = join newline rows)
  /\ (forall (city : string) (lat lon : scalar) (s1 : list reply) (c1 : list call)
             (latest : string) (weather : dict json) (daily_data : series)
             (dates : list scalar) (tbl : table) (existing_dates : list string)
             (s4 : list reply) (checked : result (bool * string)) (c4 : list call),
         exec (check_data_freshness city) s1 = Some (Ok (false, latest), c1) ->
         latest <> ""%string ->
         dict_get "daily" weather = Some (JSeries daily_data) ->
         existing_dates_of tbl = Ok existing_dates ->
         NoDup (keys daily_data) ->
         dict_get "time" daily_data = Some dates ->
         Forall (fun v => is_str v = true) dates ->
         Forall (fun kv => List.length (snd kv) = List.length dates) daily_data ->
         kept_indices dates existing_dates <> [] ->
         exec (check_data_freshness city) s4 = Some (checked, c4) ->
         exec (ensure_fresh_data city lat lon)
              (s1 ++ RForecastGet (Ok weather) :: RExecute (Ok tbl)
                  :: RIngest (Ok tt) :: s4)
         = Some (Ok (verdict checked),
                 c1 ++ CForecastGet lat lon
                    :: CExecute (ExistingDatesQuery (lower city))
                    :: CIngest (join newline
                                  (map (fun i => join "," (row_fields city daily_data i))
                                       (kept_indices dates existing_dates)))
                    :: c4)).
Proof.
  split; [| split].
  - intros daily_data existing_dates dates Hnd Htime Hlen.
    split; [exact (filter_daily_data_closed_form _ _ _ Hnd Htime Hlen) |].
    split; [intros i; apply kept_indices_spec |].
    intros key column Hk. rewrite dict_get_filtered_by_index, Hk. reflexivity.
  - intros city lat lon s1 s2 c1 latest r calls csv E1 Hne H Hing.
    destruct (ensure_fresh_data_refresh_of _ _ _ _ _ _ _ _ _ E1 H) as (c2 & -> & E2).
    assert (In (CIngest csv) c2) as Hing2.
    { apply in_app_or in Hing. destruct Hing as [Hin | Hin]; [| exact Hin].
      destruct (check_calls_no_ingest _ _ _ _ _ E1 Hin); discriminate. }
    destruct (refresh_ingests_filtered _ _ _ _ _ _ _ _ Hne E2 Hing2)
      as (weather & daily & tbl & existing & filtered & time & rows & attrs
          & res & s4 & c4 & -> & -> & Hrest).
    exists weather, daily, tbl, existing, filtered, time, rows, attrs, res, s4, c4.
    auto.
  - intros city lat lon s1 c1 latest weather daily_data dates tbl existing_dates
           s4 checked c4 E1 Hne Hd Hex Hnd Htime Hstr Hlen Hkept E4.
    apply (ensure_fresh_data_refreshes _ _ _ _ _ _ _ _ _ E1).
    exact (refresh_appends_new_dates city lat lon latest weather daily_data dates
             tbl existing_dates s4 checked c4 Hne Hd Hex Hnd Htime Hstr Hlen Hkept E4).
Qed.

End DedupSpecFacts.

(** ** src/image/main.py: more on the freshness check *)

Module CheckFacts.
Import Py Eff Web Image Dedup PyFacts EffFacts DictFacts ImageFacts.

Lemma strftime_length (d : date) : String.length (strftime_ymd d) = 10%nat.
Proof. reflexivity. Qed.

(** X11. The row count is looked at only when the latest date is within a
    day of today: further away, the check answers not fresh whatever the
    count cell holds; within a day, a count that is no number makes the
    check raise.  The latest date is of the year 1000 or later, where the
    check reads its own date text back. *)
Theorem check_data_freshness_count_short_circuit (city : string) (row : row)
    (rest : list Eff.row) (dt : datetime) (points : cell) (today : date) :
  valid_date (dt_date dt) = true ->
  four_digit_year (dt_date dt) = true ->
  dict_get "LatestDate" row = Some (CDatetime dt) ->
  dict_get "DataPoints" row = Some points ->
  (1 < Z.abs (days_between today (dt_date dt)) ->
   exec (check_data_freshness city) [RExecute (Ok (Rows (row :: rest))); RNow today]
   = Some (Ok (false, strftime_ymd (dt_date dt)),
           [CExecute (LatestDateQuery city); CNow]))
  /\ (Z.abs (days_between today (dt_date dt)) <= 1 ->
      forall e, ge_30 points = Raise e ->
      exec (check_data_freshness city) [RExecute (Ok (Rows (row :: rest))); RNow today]
      = Some (Raise e, [CExecute (LatestDateQuery city); CNow])).
Proof.
  intros Hv _ Hd Hp.
  rewrite (check_data_freshness_dated city row rest dt points today Hv Hd Hp).
  split.
  - intros Hfar. apply Z.leb_gt in Hfar. now rewrite Hfar.
  - intros Hnear e He. apply Z.leb_le in Hnear. now rewrite Hnear, He.
Qed.

(** X12. The date text the check returns is empty exactly when it did not
    read the clock, that is when the store's answer had no dated first row;
    otherwise it is a ten-character date.  A fresh verdict always comes with
    a date. *)
Theorem check_data_freshness_latest_date (city : string) (script : list reply)
    (is_fresh : bool) (latest : string) (calls : list call) :
  exec (check_data_freshness city) script = Some (Ok (is_fresh, latest), calls) ->
  (latest = ""%string <-> ~ In CNow calls)
  /\ (latest = ""%string ->
      is_fresh = false
      /\ (script = [RExecute (Ok NoColumns)]
          \/ exists row rest,
               script = [RExecute (Ok (Rows (row :: rest)))]
               /\ dict_get "LatestDate" row = Some CNull))
  /\ (latest <> ""%string ->
      String.length latest = 10%nat
      /\ exists row rest dt today,
           script = [RExecute (Ok (Rows (row :: rest))); RNow today]
           /\ dict_get "LatestDate" row = Some (CDatetime dt)
           /\ latest = strftime_ymd (dt_date dt)).
Proof.
  unfold check_data_freshness, execute, lift, now.
  cbn [bind ret raise Monad_M MonadExc_M pbind exec].
  destruct script as [| [t | | | | |] script]; try discriminate.
  destruct t as [[| [| row rest]] | e]; unfold index; cbn [pbind exec nth_error].
  - destruct script; [| discriminate]. intros H. injection H as <- <- <-.
    split; [split; [intros _ [H | []]; discriminate | reflexivity] |].
    split; [auto | intros Hne; contradiction].
  - destruct script; discriminate.
  - unfold getitem.
    destruct (dict_get "LatestDate" row) as [latest_cell |] eqn:Hd; cbn [pbind exec].
    2: { destruct script; discriminate. }
    destruct (dict_get "DataPoints" row) as [points |] eqn:Hp; cbn [pbind exec].
    2: { destruct script; discriminate. }
    destruct latest_cell; cbn [pbind exec];
      try (destruct script; discriminate).
    + destruct script; [| discriminate]. intros H. injection H as <- <- <-.
      split; [split; [intros _ [H | []]; discriminate | reflexivity] |].
      split; [| intros Hne; contradiction].
      intros _. split; [reflexivity |]. right. eauto.
    + destruct (strptime_ymd (strftime_ymd (dt_date dt))) as [obj | e];
        cbn [pbind exec]; [| destruct script; discriminate].
      destruct script as [| [| | | | d |] script]; try discriminate.
      assert (forall f c,
                 Some (Ok (f, strftime_ymd (dt_date dt)),
                       CExecute (LatestDateQuery city) :: CNow :: c)
                 = Some (Ok (is_fresh, latest), calls) ->
                 c = [] -> script = [] ->
                 (latest = ""%string <-> ~ In CNow calls)
                 /\ (latest = ""%string ->
                     is_fresh = false
                     /\ ([RExecute (Ok (Rows (row :: rest))); RNow d] = [RExecute (Ok NoColumns)]
                         \/ exists row0 rest0,
                              [RExecute (Ok (Rows (row :: rest))); RNow d]
                              = [RExecute (Ok (Rows (row0 :: rest0)))]
                              /\ dict_get "LatestDate" row0 = Some CNull))
                 /\ (latest <> ""%string ->
                     String.length latest = 10%nat
                     /\ exists row0 rest0 dt0 today,
                          [RExecute (Ok (Rows (row :: rest))); RNow d]
                          = [RExecute (Ok (Rows (row0 :: rest0))); RNow today]
                          /\ dict_get "LatestDate" row0 = Some (CDatetime dt0)
                          /\ latest = strftime_ymd (dt_date dt0))) as Hdone.
      { intros f c H -> _. injection H as <- <- <-.
        pose proof (strftime_not_empty (dt_date dt)) as Hne.
        split; [split; [contradiction | intros Hno; exfalso; apply Hno; simpl; auto] |].
        split; [contradiction |].
        intros _. split; [apply strftime_length |].
        exists row, rest, dt, d. auto. }
      destruct (Z.abs (days_between d obj) <=? 1); cbn [pbind exec].
      * destruct (ge_30 points) as [b | e]; cbn [pbind exec].
        -- destruct script; [| discriminate]. intros H.
           exact (Hdone _ [] H eq_refl eq_refl).
        -- destruct script; discriminate.
      * destruct script; [| discriminate]. intros H.
        exact (Hdone _ [] H eq_refl eq_refl).
  - destruct script; discriminate.
Qed.

End CheckFacts.

(** ** src/image/main.py: the [/weather] handler *)

Module ImageHandlerFacts.
Import Py Eff Web Image Dedup PyFacts EffFacts DictFacts ImageFacts
       PipelineFacts EnsureFacts RefreshFacts RunFacts.

Lemma lower_ascii_idempotent (c : ascii) : lower_ascii (lower_ascii c) = lower_ascii c.
Proof. destruct c as [[] [] [] [] [] [] [] []]; reflexivity. Qed.

Lemma lower_idempotent (s : string) : lower (lower s) = lower s.
Proof.
  induction s as [| c s IH]; [reflexivity |].
  simpl. now rewrite lower_ascii_idempotent, IH.
Qed.

(** Every run of [get_city_coordinates]: one geocoder call, and three
    values back, whatever the geocoder did. *)
Lemma image_get_city_coordinates_runs (city : string) (s : list reply)
    (r : result (list scalar)) (calls : list call) :
  exec (get_city_coordinates city) s = Some (r, calls) ->
  exists answer latitude longitude name,
    s = [RGeoGet answer] /\ calls = [CGeoGet city]
    /\ r = Ok [latitude; longitude; name].
Proof.
  unfold get_city_coordinates, geo_get, lift.
  cbn [catch bind ret raise Monad_M MonadExc_M pbind].
  destruct s as [| [| | answer | | |] s]; try discriminate.
  cbn [exec].
  destruct (exec _ s) as [[r' c'] |] eqn:E; [| discriminate].
  intros H. injection H as <- <-.
  exists answer.
  destruct answer as [geo_data | e]; cbn [pbind] in E.
  2: { ret_inv E. eauto 10. }
  destruct (dict_get "results" geo_data) as [[sc | d | [| result rest]] |];
    cbn [pbind] in E; try (ret_inv E; eauto 10).
  unfold getitem in E.
  destruct (dict_get "latitude" result); cbn [pbind] in E; [| ret_inv E; eauto 10].
  destruct (dict_get "longitude" result); cbn [pbind] in E; [| ret_inv E; eauto 10].
  destruct (dict_get "name" result); cbn [pbind] in E; ret_inv E; eauto 10.
Qed.

Lemma get_weather_stats_runs (city : string) (s : list reply)
    (r : result (option weather_stats)) (calls : list call) :
  exec (get_weather_stats city) s = Some (r, calls) ->
  exists t, s = [RExecute t] /\ calls = [CExecute (StatsQuery city)].
Proof.
  unfold get_weather_stats, execute, lift.
  cbn [bind ret Monad_M pbind].
  destruct s as [| [t | | | | |] s]; try discriminate.
  cbn [exec].
  destruct (exec _ s) as [[r' c'] |] eqn:E; [| discriminate].
  intros H. injection H as <- <-. exists t.
  destruct t as [[| [| row rest]] | e]; unfold index in E;
    cbn [pbind nth_error] in E; try (ret_inv E; auto).
  repeat match type of E with
         | context [match ?x with Ok _ => _ | Raise _ => _ end] =>
             destruct x; cbn [pbind] in E; [| ret_inv E; auto]
         end.
  ret_inv E. auto.
Qed.

(** The calls of [ensure_fresh_data], one by one. *)
Lemma ensure_fresh_data_calls (city : string) (lat lon : scalar)
    (script : list reply) (r : result bool) (calls : list call) (c : call) :
  exec (ensure_fresh_data city lat lon) script = Some (r, calls) ->
  In c calls ->
  c = CExecute (LatestDateQuery city) \/ c = CNow \/ c = CForecastGet lat lon
  \/ c = CExecute (ExistingDatesQuery (lower city)) \/ exists csv, c = CIngest csv.
Proof.
  intros H Hin.
  destruct (ensure_fresh_data_runs _ _ _ _ _ _ H)
    as (s1 & s2 & checked & c1 & c2 & _ & -> & E1 & Hrest).
  apply in_app_or in Hin. destruct Hin as [Hin | Hin].
  - destruct (check_calls_no_ingest _ _ _ _ _ E1 Hin); auto.
  - destruct checked as [[[|] latest] | e].
    + destruct Hrest as (_ & -> & _). contradiction.
    + destruct (refresh_runs _ _ _ _ _ _ _ Hrest)
        as (_ & cmid & ctail & -> & Hcmid & Hctail).
      destruct Hin as [<- | Hin]; [auto |].
      apply in_app_or in Hin. destruct Hin as [Hin | Hin].
      * destruct Hcmid as [-> | (_ & ->)]; [contradiction |].
        destruct Hin as [<- | []]. auto.
      * destruct Hctail as [-> | (csv & c4 & -> & Hc4)]; [contradiction |].
        destruct Hin as [<- | Hin]; [eauto 10 |].
        destruct Hc4 as [-> | [-> | ->]]; simpl in Hin; intuition (subst; auto).
    + destruct Hrest as (_ & -> & _). contradiction.
Qed.

(** Every run of the handler with its clients built: the geocoder call;
    then, only for a city the geocoder confirms, a run of
    [ensure_fresh_data] under the lowered name; then, only when that
    returned [True], the statistics query. *)
Lemma image_get_weather_runs (city : string) (script : list reply) (p : page)
    (calls : list call) :
  exec (get_weather true city) script = Some (p, calls) ->
  exists answer rest crest,
    script = RGeoGet answer :: rest /\ calls = CGeoGet city :: crest
    /\ ((rest = [] /\ crest = [] /\ exists body, p = HTMLResponse body)
        \/ exists lat lon se ce er sst cst,
             rest = se ++ sst /\ crest = ce ++ cst
             /\ exec (ensure_fresh_data (lower city) lat lon) se = Some (er, ce)
             /\ ((er <> Ok true /\ sst = [] /\ cst = []
                  /\ exists body, p = HTMLResponse body)
                 \/ (er = Ok true
                     /\ cst = [CExecute (StatsQuery (lower city))]
                     /\ (forall template shown numbers description icon,
                            p = Rendered template shown numbers description icon ->
                            shown = capitalize (lower city))))).
Proof.
  unfold get_weather. cbn [negb]. intros H.
  apply exec_pbind_elim in H.
  destruct H as (sb & sh & rb & cb & ch & -> & -> & Eb & Eh).
  assert (sh = [] /\ ch = []
          /\ p = match rb with
                 | Ok p0 => p0
                 | Raise e => HTMLResponse ("<p>An error occurred: " ++ exn_str e ++ "</p>")
                 end) as (-> & -> & Hp).
  { destruct rb; ret_inv Eh; auto. }
  rewrite !app_nil_r.
  unfold get_weather_body in Eb. cbn [bind ret Monad_M] in Eb.
  apply exec_pbind_elim in Eb.
  destruct Eb as (sg & rest & coords & cg & crest & -> & -> & Eg & Erest).
  destruct (image_get_city_coordinates_runs _ _ _ _ Eg)
    as (answer & lat & lon & name & -> & -> & ->).
  exists answer, rest, crest. split; [reflexivity |]. split; [reflexivity |].
  cbn [lift unpack3 pbind] in Erest.
  destruct name as [| b | z | repr | nm]; cbn [str_lower pbind] in Erest;
    try (ret_inv Erest; left; subst p; eauto).
  destruct (String.eqb (lower city) (lower nm)); cbn [negb] in Erest;
    [| ret_inv Erest; left; subst p; eauto].
  apply exec_pbind_elim in Erest.
  destruct Erest as (se & sst & er & ce & cst & -> & -> & Ee & Est).
  right. exists lat, lon, se, ce, er, sst, cst.
  split; [reflexivity |]. split; [reflexivity |]. split; [exact Ee |].
  destruct er as [[|] | e]; cbn [negb] in Est.
  - right. split; [reflexivity |].
    apply exec_pbind_elim in Est.
    destruct Est as (sA & sB & stats & cA & cB & -> & -> & EA & EB).
    destruct (get_weather_stats_runs _ _ _ _ EA) as (t & -> & ->).
    destruct stats as [[st |] | e]; ret_inv EB; subst p;
      (split; [reflexivity |]); intros template shown numbers description icon Hr;
      try discriminate Hr.
    injection Hr as _ <- _ _ _. reflexivity.
  - left. ret_inv Est. subst p. repeat split; eauto. discriminate.
  - left. ret_inv Est. subst p. repeat split; eauto. discriminate.
Qed.

End ImageHandlerFacts.

(** ** src/image/main.py: what the handler does and never does *)

Module ImageRequestFacts.
Import Py Eff Web Image Dedup PyFacts EffFacts DictFacts ImageFacts
       PipelineFacts EnsureFacts RefreshFacts RunFacts ImageHandlerFacts.

(** X13. In src/image/main.py an unresolved city (the geocoder raises, has
    no [results], or an empty list) is answered with the page "Invalid city
    name" after the geocoder call alone: the three-value return of
    [get_city_coordinates] unpacks on every path. *)
Theorem image_unresolved_city_page (city : string) (answer : result (dict json)) :
  (exists e, answer = Raise e)
  \/ (exists geo_data,
         answer = Ok geo_data
         /\ (dict_get "results" geo_data = None
             \/ dict_get "results" geo_data = Some (JObjects []))) ->
  exec (get_city_coordinates city) [RGeoGet answer]
  = Some (Ok [SNone; SNone; SNone], [CGeoGet city])
  /\ exec (get_weather true city) [RGeoGet answer]
     = Some (HTMLResponse "<p>Error: Invalid city name, please try again.</p>",
             [CGeoGet city]).
Proof.
  intros Hun.
  assert (exec (get_city_coordinates city) [RGeoGet answer]
          = Some (Ok [SNone; SNone; SNone], [CGeoGet city])) as Hgcc.
  { unfold get_city_coordinates, geo_get.
    cbn [catch bind ret raise Monad_M MonadExc_M pbind exec].
    destruct Hun as [[e ->] | (geo_data & -> & [Hres | Hres])];
      cbn [pbind]; try rewrite Hres; reflexivity. }
  split; [exact Hgcc |].
  unfold get_weather. cbn [negb].
  change [RGeoGet answer] with (([RGeoGet answer] ++ []) ++ []).
  change [CGeoGet city] with (([CGeoGet city] ++ []) ++ []).
  eapply exec_pbind_intro.
  - unfold get_weather_body. cbn [bind ret Monad_M].
    eapply exec_pbind_intro; [exact Hgcc | reflexivity].
  - reflexivity.
Qed.

(** X14. For a request and a match in ASCII letters: when the geocoder's
    best match has another name than the request (letter case aside), the
    handler answers "Inaccurate city name" with the match in it, and touches
    neither the store nor the forecast service. *)
Theorem image_inaccurate_city_page (city name : string) (lat lon : scalar)
    (sg : list reply) (cg : list call) :
  is_ascii city = true ->
  is_ascii name = true ->
  exec (get_city_coordinates city) sg = Some (Ok [lat; lon; SStr name], cg) ->
  lower city <> lower name ->
  exec (get_weather true city) sg
  = Some (HTMLResponse ("<p>Error: Inaccurate city name, Did you mean "
                        ++ name ++ "? </p>")%string,
          cg)
  /\ cg = [CGeoGet city].
Proof.
  intros _ _ Eg Hne. split.
  - unfold get_weather. cbn [negb].
    rewrite <- (app_nil_r sg), <- (app_nil_r cg).
    eapply exec_pbind_intro.
    + unfold get_weather_body. cbn [bind ret Monad_M].
      rewrite <- (app_nil_r sg), <- (app_nil_r cg).
      eapply exec_pbind_intro; [exact Eg |].
      cbn [lift unpack3 pbind str_lower].
      destruct (String.eqb_spec (lower city) (lower name)) as [Heq | _];
        [contradiction |].
      reflexivity.
    + reflexivity.
  - destruct (image_get_city_coordinates_runs _ _ _ _ Eg)
      as (? & ? & ? & ? & _ & -> & _). reflexivity.
Qed.

(** X15. Every store query of a request in ASCII letters is made under one
    key, the lowered request text: the freshness check, the query for the
    existing dates and the statistics query all address the same city. *)
Theorem image_one_city_key (initialized : bool) (city : string)
    (script : list reply) (p : page) (calls : list call) (q : query) :
  is_ascii city = true ->
  exec (get_weather initialized city) script = Some (p, calls) ->
  In (CExecute q) calls ->
  q = LatestDateQuery (lower city) \/ q = ExistingDatesQuery (lower city)
  \/ q = StatsQuery (lower city).
Proof.
  intros _. destruct initialized.
  2: { unfold get_weather. cbn [negb]. intros H. ret_inv H. contradiction. }
  intros H Hin.
  destruct (image_get_weather_runs _ _ _ _ H)
    as (answer & rest & crest & -> & -> & Hrest).
  destruct Hin as [Hin | Hin]; [discriminate |].
  destruct Hrest as [(_ & -> & _)
                    | (lat & lon & se & ce & er & sst & cst & -> & -> & Ee & Hst)];
    [contradiction |].
  apply in_app_or in Hin. destruct Hin as [Hin | Hin].
  - destruct (ensure_fresh_data_calls _ _ _ _ _ _ _ Ee Hin)
      as [Hc | [Hc | [Hc | [Hc | [csv Hc]]]]]; try discriminate.
    + injection Hc as ->. auto.
    + injection Hc as ->. rewrite lower_idempotent. auto.
  - destruct Hst as [(_ & _ & -> & _) | (_ & -> & _)]; [contradiction |].
    destruct Hin as [Hc | []]. injection Hc as <-. auto.
Qed.

(** X16. The statistics query is made only after [ensure_fresh_data]
    returned [True] in the same request, and a weather page is rendered only
    after that query, under the capitalised city key. *)
Theorem image_stats_only_after_fresh (initialized : bool) (city : string)
    (script : list reply) (p : page) (calls : list call) :
  exec (get_weather initialized city) script = Some (p, calls) ->
  (forall key,
      In (CExecute (StatsQuery key)) calls ->
      exists answer lat lon se ce rest crest,
        script = RGeoGet answer :: se ++ rest
        /\ calls = CGeoGet city :: ce ++ crest
        /\ exec (ensure_fresh_data (lower city) lat lon) se = Some (Ok true, ce))
  /\ (forall template shown numbers description icon,
         p = Rendered template shown numbers description icon ->
         In (CExecute (StatsQuery (lower city))) calls
         /\ shown = capitalize (lower city)).
Proof.
  destruct initialized.
  2: { unfold get_weather. cbn [negb]. intros H. ret_inv H.
       split; [intros key [] | discriminate]. }
  intros H.
  destruct (image_get_weather_runs _ _ _ _ H)
    as (answer & rest & crest & -> & -> & Hrest).
  destruct Hrest as [(-> & -> & body & ->)
                    | (lat & lon & se & ce & er & sst & cst & -> & -> & Ee & Hst)].
  { split; [| discriminate]. intros key [Hin | []]. discriminate. }
  destruct Hst as [(Her & -> & -> & body & ->) | (-> & -> & Hshown)].
  - split; [| discriminate].
    intros key [Hin | Hin]; [discriminate |].
    rewrite app_nil_r in Hin.
    destruct (ensure_fresh_data_calls _ _ _ _ _ _ _ Ee Hin)
      as [Hc | [Hc | [Hc | [Hc | [csv Hc]]]]]; discriminate.
  - split.
    + intros key _. exists answer, lat, lon, se, ce, sst,
                           [CExecute (StatsQuery (lower city))]. auto.
    + intros template shown numbers description icon Hr. split.
      * right. apply in_or_app. right. now left.
      * exact (Hshown _ _ _ _ _ Hr).
Qed.

(** X17. A request appends to the store at most once and fetches the
    forecast at most once, whatever the store and the services answer. *)
Theorem image_request_at_most_one_ingest (initialized : bool) (city : string)
    (script : list reply) (p : page) (calls : list call) :
  exec (get_weather initialized city) script = Some (p, calls) ->
  (count_calls is_ingest calls <= 1)%nat
  /\ (count_calls is_forecast_get calls <= 1)%nat.
Proof.
  destruct initialized.
  2: { unfold get_weather. cbn [negb]. intros H. ret_inv H. unfold count_calls. simpl. lia. }
  intros H.
  destruct (image_get_weather_runs _ _ _ _ H)
    as (answer & rest & crest & -> & -> & Hrest).
  destruct Hrest as [(-> & -> & _)
                    | (lat & lon & se & ce & er & sst & cst & -> & -> & Ee & Hst)].
  { unfold count_calls. simpl. lia. }
  destruct (ensure_fresh_data_call_counts _ _ _ _ _ _ Ee) as (Hf & Hi & _).
  unfold count_calls in *. simpl. rewrite !filter_app, !length_app.
  destruct Hst as [(_ & _ & -> & _) | (_ & -> & _)]; simpl; lia.
Qed.

End ImageRequestFacts.

(** ** [get_weather_stats]: empty and null answers *)

Module StatsEdgeFacts.
Import Py Eff Web Image EffFacts ImageFacts PipelineFacts ImageHandlerFacts.

(** X18. [get_weather_stats] answers [None] only for a result without
    columns.  A result that has its columns and no row raises an
    [IndexError] at [[0]]; a row whose average temperature is null, as an
    aggregate over no row has it, makes [round] raise a [TypeError].  The
    function catches neither. *)
Theorem get_weather_stats_empty_and_null (city : string) :
  exec (get_weather_stats city) [RExecute (Ok NoColumns)]
  = Some (Ok None, [CExecute (StatsQuery city)])
  /\ exec (get_weather_stats city) [RExecute (Ok (Rows []))]
     = Some (Raise IndexError, [CExecute (StatsQuery city)])
  /\ (forall (row : row) (rest : list Eff.row) (code min_temp max_temp : cell)
             (key : option Z),
         dict_get "CurrentWeatherCode" row = Some code ->
         cell_key code = Ok key ->
         dict_get "MinTemp" row = Some min_temp ->
         dict_get "MaxTemp" row = Some max_temp ->
         dict_get "AvgTemp" row = Some CNull ->
         exists msg,
           exec (get_weather_stats city) [RExecute (Ok (Rows (row :: rest)))]
           = Some (Raise (TypeError msg), [CExecute (StatsQuery city)]))
  /\ (forall (script : list reply) (calls : list call),
         exec (get_weather_stats city) script = Some (Ok None, calls) ->
         script = [RExecute (Ok NoColumns)]).
Proof.
  split; [reflexivity |]. split; [reflexivity |]. split.
  - intros row rest code min_temp max_temp key Hcode Hkey Hmin Hmax Havg.
    unfold get_weather_stats, execute, lift, getitem, get_default, index.
    cbn [bind ret Monad_M Monad_result pbind exec nth_error].
    rewrite Hcode. cbn [pbind]. rewrite Hkey. cbn [pbind].
    rewrite Hmin. cbn [pbind]. rewrite Hmax. cbn [pbind]. rewrite Havg.
    eexists. reflexivity.
  - intros script calls H.
    destruct (get_weather_stats_runs _ _ _ _ H) as (t & -> & ->).
    unfold get_weather_stats, execute, lift, index in H.
    cbn [bind ret Monad_M pbind exec nth_error] in H.
    destruct t as [[| [| row rest]] | e];
      [reflexivity | discriminate H | exfalso | discriminate H].
    cbn [pbind exec nth_error] in H.
    repeat match type of H with
           | context [match ?x with Ok _ => _ | Raise _ => _ end] =>
               destruct x; cbn [pbind exec] in H; [| discriminate H]
           end.
    discriminate H.
Qed.

End StatsEdgeFacts.

(** ** src/main.py: every run of the handler *)

Module MainRunFacts.
Import Py Eff Web Main EffFacts DictFacts PipelineFacts RefreshFacts MainFacts.

Lemma main_get_city_coordinates_runs (city : string) (s : list reply)
    (r : result (list scalar)) (calls : list call) :
  exec (get_city_coordinates city) s = Some (r, calls) ->
  exists answer coordinates,
    s = [RGeoGet answer] /\ calls = [CGeoGet city] /\ r = Ok coordinates.
Proof.
  intros H.
  assert (exists answer, s = [RGeoGet answer]) as [answer ->].
  { revert H. unfold get_city_coordinates, geo_get, lift.
    cbn [catch bind ret raise Monad_M MonadExc_M pbind].
    destruct s as [| [| | answer | | |] s]; try discriminate.
    cbn [exec].
    destruct (exec _ s) as [[r' c'] |] eqn:E; [| discriminate].
    intros _. exists answer. f_equal.
    destruct answer as [geo_data | e]; cbn [pbind] in E.
    2: { now ret_inv E. }
    destruct (dict_get "results" geo_data) as [[sc | d | [| result rest]] |];
      cbn [pbind] in E; try (now ret_inv E).
    unfold getitem in E.
    destruct (dict_get "latitude" result); cbn [pbind] in E; [| now ret_inv E].
    destruct (dict_get "longitude" result); cbn [pbind] in E; [| now ret_inv E].
    destruct (dict_get "name" result); cbn [pbind] in E; now ret_inv E. }
  destruct (get_city_coordinates_arity city answer) as (coordinates & Hrun & _).
  rewrite Hrun in H. injection H as <- <-. eauto.
Qed.

(** Every run of the verification block: the append; when it returned, a
    pause of three seconds and one count of the rows. *)
Lemma store_and_verify_runs (city : string) (data : list string)
    (s : list reply) (r : result (option page)) (calls : list call) :
  exec (store_and_verify city data) s = Some (r, calls) ->
  exists res,
    (exists out, r = Ok out)
    /\ match res with
       | Raise e =>
           s = [RIngest (Raise e)] /\ calls = [CIngest (join newline data)]
           /\ r = Ok (Some (HTMLResponse
                   ("<p>Error storing weather data: " ++ exn_str e ++ "</p>")))
       | Ok u =>
           exists t,
             s = [RIngest (Ok u); RSleep; RExecute t]
             /\ calls = [CIngest (join newline data); CSleep 3;
                         CExecute (RecordCountQuery city)]
             /\ (r = Ok None ->
                 exists tbl count,
                   t = Ok tbl /\ record_count tbl = Ok count
                   /\ lt_30 count = Ok false)
       end.
Proof.
  unfold store_and_verify, ingest_from_stream, sleep, execute, lift.
  cbn [catch bind ret raise Monad_M MonadExc_M pbind].
  destruct s as [| [| | | res | |] s]; try discriminate.
  cbn [exec].
  destruct (exec _ s) as [[r' c'] |] eqn:E; [| discriminate].
  intros H. injection H as <- <-. exists res.
  destruct res as [u | e]; cbn [pbind] in E.
  2: { ret_inv E. split; [eauto | auto]. }
  destruct s as [| [| | | | |] s]; try discriminate. cbn [exec pbind] in E.
  destruct s as [| [t | | | | |] s]; try discriminate. cbn [exec pbind] in E.
  destruct (exec _ s) as [[r2 c2] |] eqn:E2; [| discriminate].
  injection E as <- <-.
  destruct t as [tbl | e]; cbn [pbind] in E2.
  2: { ret_inv E2. split; [eauto |]. eexists. repeat split. discriminate. }
  destruct (record_count tbl) as [count | e] eqn:Hcount; cbn [pbind] in E2.
  2: { ret_inv E2. split; [eauto |]. eexists. repeat split. discriminate. }
  destruct (lt_30 count) as [[|] | e] eqn:Hlt; cbn [pbind] in E2; ret_inv E2;
    (split; [eauto |]); eexists; repeat split; try discriminate.
  intros _. eauto.
Qed.

(** Every run of the block that fetches and stores: nothing, when a
    coordinate is null; else one forecast fetch, and then at most one
    verification block, over every row prepared from the series as
    fetched. *)
Lemma fetch_and_store_runs (city : string) (lat lon : scalar)
    (s : list reply) (r : result (option page)) (calls : list call) :
  exec (fetch_and_store city lat lon) s = Some (r, calls) ->
  (exists out, r = Ok out)
  /\ ((s = [] /\ calls = [] /\ (lat = SNone \/ lon = SNone)
       /\ r = Ok (Some (HTMLResponse "<p>Could not find coordinates for this city.</p>")))
      \/ exists answer tail ctail,
           s = RForecastGet answer :: tail
           /\ calls = CForecastGet lat lon :: ctail
           /\ lat <> SNone /\ lon <> SNone
           /\ ((tail = [] /\ ctail = [] /\ exists p, r = Ok (Some p))
               \/ exists weather daily_json rows attrs,
                    answer = Ok weather
                    /\ dict_get "daily" weather = Some daily_json
                    /\ prepare_ingestion_data city daily_json = Some (rows, attrs)
                    /\ rows <> []
                    /\ exec (store_and_verify city rows) tail = Some (r, ctail))).
Proof.
  intros H.
  assert (lat = SNone \/ lon = SNone \/ (lat <> SNone /\ lon <> SNone)) as Hcases.
  { destruct lat; destruct lon; auto; right; right; split; discriminate. }
  destruct Hcases as [-> | [-> | [Hlat Hlon]]].
  - unfold fetch_and_store in H. ret_inv H. split; [eauto |]. left. auto.
  - unfold fetch_and_store in H.
    destruct lat; ret_inv H; (split; [eauto |]); left; auto.
  - assert (exec (weather_data <- get_weather_data city lat lon ;;
                  if lacks_daily weather_data
                  then ret (Some (HTMLResponse
                         "<p>Error: Invalid response from weather API.</p>"))
                  else
                    match weather_data with
                    | None => ret (Some (HTMLResponse
                         "<p>Error: Invalid response from weather API.</p>"))
                    | Some weather_data =>
                        daily_data <- lift (getitem weather_data "daily") ;;
                        match prepare_ingestion_data city daily_data with
                        | None | Some ([], _) =>
                            ret (Some (HTMLResponse
                              "<p>Error: Could not prepare weather data for storage.</p>"))
                        | Some (ingestion_data, _) =>
                            store_and_verify city ingestion_data
                        end
                    end) s = Some (r, calls)) as H'.
    { unfold fetch_and_store in H.
      destruct lat; try contradiction; destruct lon; try contradiction; exact H. }
    clear H. revert H'.
    unfold get_weather_data, forecast_get, lift.
    cbn [catch bind ret raise Monad_M MonadExc_M pbind].
    destruct s as [| [| answer | | | |] s]; try discriminate.
    cbn [exec].
    destruct (exec _ s) as [[r' c'] |] eqn:E; [| discriminate].
    intros H. injection H as <- <-.
    assert ((exists out, r' = Ok out)
            /\ ((s = [] /\ c' = [] /\ exists p, r' = Ok (Some p))
                \/ exists weather daily_json rows attrs,
                     answer = Ok weather
                     /\ dict_get "daily" weather = Some daily_json
                     /\ prepare_ingestion_data city daily_json = Some (rows, attrs)
                     /\ rows <> []
                     /\ exec (store_and_verify city rows) s = Some (r', c')))
      as [Hout Hshape].
    { destruct answer as [weather | e]; cbn [pbind] in E.
      2: { cbn [lacks_daily] in E. ret_inv E. split; [eauto |]. left. eauto. }
      destruct (lacks_daily (Some weather)) eqn:Hlack.
      { cbn [pbind] in E. ret_inv E. split; [eauto |]. left. eauto. }
      assert (exists daily_json, dict_get "daily" weather = Some daily_json)
        as [daily_json Hd].
      { apply dict_mem_get. unfold lacks_daily in Hlack.
        destruct weather; [discriminate |]. now apply negb_false_iff in Hlack. }
      unfold getitem in E. rewrite Hd in E. cbn [pbind] in E.
      destruct (prepare_ingestion_data city daily_json)
        as [[[| row rows] attrs] |] eqn:Hprep; cbn [pbind] in E.
      1, 3: ret_inv E; split; [eauto |]; left; eauto.
      destruct (store_and_verify_runs _ _ _ _ _ E) as (res & Hr & _).
      split; [exact Hr |]. right.
      exists weather, daily_json, (row :: rows), attrs.
      repeat split; auto. discriminate. }
    split; [exact Hout |]. right. exists answer, s, c'. repeat split; auto.
Qed.

Lemma render_stats_runs (city : string) (s : list reply) (r : result page)
    (calls : list call) :
  exec (render_stats city) s = Some (r, calls) ->
  exists t, s = [RExecute t] /\ calls = [CExecute (StatsQueryNoCode city)].
Proof.
  unfold render_stats, execute, lift.
  cbn [bind ret Monad_M pbind].
  destruct s as [| [t | | | | |] s]; try discriminate.
  cbn [exec].
  destruct (exec _ s) as [[r' c'] |] eqn:E; [| discriminate].
  intros H. injection H as <- <-. exists t.
  destruct t as [[| [| row rest]] | e]; unfold index in E;
    cbn [pbind nth_error] in E; try (ret_inv E; auto).
  repeat match type of E with
         | context [match ?x with Ok _ => _ | Raise _ => _ end] =>
             destruct x; cbn [pbind] in E; [| ret_inv E; auto]
         end.
  ret_inv E. auto.
Qed.

End MainRunFacts.

(** ** src/main.py: what the handler does and never does *)

Module MainRequestFacts.
Import Py Eff Web Main EffFacts DictFacts PipelineFacts RefreshFacts MainFacts
       MainRunFacts.

Lemma unpack3_ok {A : Type} (t : list A) (a b c : A) :
  unpack3 t = Ok (a, b, c) -> t = [a; b; c].
Proof.
  destruct t as [| x [| y [| z [| w t]]]]; simpl; try discriminate.
  intros H. now injection H as -> -> ->.
Qed.

(** Every run of the handler with its clients built: the geocoder call;
    for a resolved city, the count of its recent rows under the lowered name
    of the geocoder's match; when fewer than 30 are counted, the block that
    fetches and stores; and, unless a page was returned before, the
    statistics query. *)
Lemma main_get_weather_runs (city : string) (script : list reply) (p : page)
    (calls : list call) :
  exec (get_weather true city) script = Some (p, calls) ->
  exists answer rest crest,
    script = RGeoGet answer :: rest /\ calls = CGeoGet city :: crest
    /\ ((rest = [] /\ crest = [])
        \/ exists lat lon name t sF cF sS cS,
             exec (get_city_coordinates city) [RGeoGet answer]
             = Some (Ok [lat; lon; SStr name], [CGeoGet city])
             /\ rest = RExecute t :: sF ++ sS
             /\ crest = CExecute (RecordCountQuery (lower name)) :: cF ++ cS
             /\ ((sF = [] /\ cF = [])
                 \/ exists tbl count out,
                      t = Ok tbl /\ record_count tbl = Ok count
                      /\ lt_30 count = Ok true
                      /\ exec (fetch_and_store (lower name) lat lon) sF
                         = Some (out, cF))
             /\ ((sS = [] /\ cS = [])
                 \/ exists ts, sS = [RExecute ts]
                               /\ cS = [CExecute (StatsQueryNoCode (lower name))])).
Proof.
  unfold get_weather. cbn [negb]. intros H.
  apply exec_pbind_elim in H.
  destruct H as (sb & sh & rb & cb & ch & -> & -> & Eb & Eh).
  assert (sh = [] /\ ch = []) as (-> & ->) by (destruct rb; ret_inv Eh; auto).
  clear Eh. rewrite !app_nil_r.
  unfold get_weather_body in Eb. cbn [bind ret Monad_M] in Eb.
  apply exec_pbind_elim in Eb.
  destruct Eb as (sg & rest & coords & cg & crest & -> & -> & Eg & Erest).
  destruct (main_get_city_coordinates_runs _ _ _ _ Eg)
    as (answer & coordinates & -> & -> & ->).
  exists answer, rest, crest. split; [reflexivity |]. split; [reflexivity |].
  cbn [lift pbind] in Erest.
  destruct (unpack3 coordinates) as [[[lat lon] guessed] | e] eqn:Hun;
    cbn [pbind] in Erest; [| ret_inv Erest; auto].
  apply unpack3_ok in Hun. subst coordinates.
  destruct guessed as [| b | z | repr | name]; cbn [str_lower pbind] in Erest;
    try (ret_inv Erest; auto).
  unfold execute in Erest. cbn [pbind] in Erest.
  destruct rest as [| [t | | | | |] rest]; try discriminate.
  cbn [exec] in Erest.
  destruct (exec _ rest) as [[r2 c2] |] eqn:E2; [| discriminate].
  injection Erest as <- <-.
  right. exists lat, lon, name, t.
  assert (forall q, exec (Ret q) rest = Some (r2, c2) ->
                    exists sF cF sS cS,
                      rest = sF ++ sS /\ c2 = cF ++ cS
                      /\ sF = [] /\ cF = [] /\ sS = [] /\ cS = []) as Hstop.
  { intros q Hq. ret_inv Hq. exists [], [], [], []. auto 10. }
  assert (exists sF cF sS cS,
             rest = sF ++ sS /\ c2 = cF ++ cS
             /\ ((sF = [] /\ cF = [])
                 \/ exists tbl count out,
                      t = Ok tbl /\ record_count tbl = Ok count
                      /\ lt_30 count = Ok true
                      /\ exec (fetch_and_store (lower name) lat lon) sF
                         = Some (out, cF))
             /\ ((sS = [] /\ cS = [])
                 \/ exists ts, sS = [RExecute ts]
                               /\ cS = [CExecute (StatsQueryNoCode (lower name))]))
    as (sF & cF & sS & cS & -> & -> & HF & HS).
  { destruct t as [tbl | e]; cbn [pbind] in E2.
    2: { destruct (Hstop _ E2) as (sF & cF & sS & cS & -> & -> & -> & -> & -> & ->).
         exists [], [], [], []. auto 10. }
    destruct (record_count tbl) as [count | e] eqn:Hcount; cbn [pbind] in E2.
    2: { destruct (Hstop _ E2) as (sF & cF & sS & cS & -> & -> & -> & -> & -> & ->).
         exists [], [], [], []. auto 10. }
    destruct (lt_30 count) as [too_few | e] eqn:Hlt; cbn [pbind] in E2.
    2: { destruct (Hstop _ E2) as (sF & cF & sS & cS & -> & -> & -> & -> & -> & ->).
         exists [], [], [], []. auto 10. }
    apply exec_pbind_elim in E2.
    destruct E2 as (sF & sS & returned & cF & cS & -> & -> & EF & ES).
    exists sF, cF, sS, cS. split; [reflexivity |]. split; [reflexivity |].
    split.
    - destruct too_few.
      + right. exists tbl, count, returned. auto.
      + ret_inv EF. auto.
    - destruct returned as [[p0 |] | e].
      + ret_inv ES. auto.
      + destruct (render_stats_runs _ _ _ _ ES) as (ts & -> & ->). right. eauto.
      + ret_inv ES. auto. }
  exists sF, cF, sS, cS. repeat split; auto.
Qed.

(** X19. src/main.py decides by a row count alone: no run of its handler
    reads the clock or asks the store for the latest or the existing dates.
    Its calls are the geocoder, the count, the forecast, the append, the
    pause of three seconds and its own statistics query. *)
Theorem main_never_reads_clock_or_dates (initialized : bool) (city : string)
    (script : list reply) (p : page) (calls : list call) (c : call) :
  exec (get_weather initialized city) script = Some (p, calls) ->
  In c calls ->
  c = CGeoGet city
  \/ (exists key, c = CExecute (RecordCountQuery key))
  \/ (exists key, c = CExecute (StatsQueryNoCode key))
  \/ (exists lat lon, c = CForecastGet lat lon)
  \/ (exists csv, c = CIngest csv)
  \/ c = CSleep 3.
Proof.
  destruct initialized.
  2: { unfold get_weather. cbn [negb]. intros H. ret_inv H. contradiction. }
  intros H Hin.
  destruct (main_get_weather_runs _ _ _ _ H)
    as (answer & rest & crest & -> & -> & Hrest).
  destruct Hin as [<- | Hin]; [auto |].
  destruct Hrest as [(_ & ->)
                    | (lat & lon & name & t & sF & cF & sS & cS & _ & _ & -> & HF & HS)];
    [contradiction |].
  destruct Hin as [<- | Hin]; [eauto 10 |].
  apply in_app_or in Hin. destruct Hin as [Hin | Hin].
  - destruct HF as [(_ & ->) | (tbl & count & out & _ & _ & _ & EF)];
      [contradiction |].
    destruct (fetch_and_store_runs _ _ _ _ _ _ EF) as (_ & Hshape).
    destruct Hshape as [(_ & -> & _) | (fa & tail & ctail & _ & -> & _ & _ & Htail)];
      [contradiction |].
    destruct Hin as [<- | Hin]; [eauto 10 |].
    destruct Htail as [(_ & -> & _) | (w & dj & rows & attrs & _ & _ & _ & _ & Ev)];
      [contradiction |].
    destruct (store_and_verify_runs _ _ _ _ _ Ev) as (res & _ & Hres).
    destruct res as [u | e].
    + destruct Hres as (tv & _ & -> & _). simpl in Hin.
      destruct Hin as [<- | [<- | [<- | []]]]; eauto 10.
    + destruct Hres as (_ & -> & _). destruct Hin as [<- | []]. eauto 10.
  - destruct HS as [(_ & ->) | (ts & _ & ->)]; [contradiction |].
    destruct Hin as [<- | []]. eauto 10.
Qed.

(** X20. src/main.py appends at most once in a request, and what it appends
    is every row prepared from the forecast as fetched: nothing is compared
    with the rows the store already has. *)
Theorem main_appends_unfiltered (initialized : bool) (city : string)
    (script : list reply) (p : page) (calls : list call) :
  exec (get_weather initialized city) script = Some (p, calls) ->
  (count_calls is_ingest calls <= 1)%nat
  /\ forall csv,
       In (CIngest csv) calls ->
       exists key weather daily_json rows attrs,
         In (RForecastGet (Ok weather)) script
         /\ dict_get "daily" weather = Some daily_json
         /\ prepare_ingestion_data key daily_json = Some (rows, attrs)
         /\ csv = join newline rows.
Proof.
  destruct initialized.
  2: { unfold get_weather. cbn [negb]. intros H. ret_inv H.
       split; [unfold count_calls; simpl; lia | intros csv []]. }
  intros H.
  destruct (main_get_weather_runs _ _ _ _ H)
    as (answer & rest & crest & -> & -> & Hrest).
  destruct Hrest as [(_ & ->)
                    | (lat & lon & name & t & sF & cF & sS & cS & _ & -> & -> & HF & HS)].
  { split; [unfold count_calls; simpl; lia |].
    intros csv [Hin | []]. discriminate. }
  assert (count_calls is_ingest cS = 0%nat /\ forall csv, ~ In (CIngest csv) cS)
    as [HcS HnS].
  { destruct HS as [(_ & ->) | (ts & _ & ->)]; split; try reflexivity;
      intros csv Hin; simpl in Hin; intuition discriminate. }
  assert ((cF = []
           \/ exists fa ctail, cF = CForecastGet lat lon :: ctail
                /\ (ctail = []
                    \/ exists weather daily_json rows attrs c3,
                         In (RForecastGet (Ok weather)) sF
                         /\ dict_get "daily" weather = Some daily_json
                         /\ prepare_ingestion_data (lower name) daily_json
                            = Some (rows, attrs)
                         /\ ctail = CIngest (join newline rows) :: c3
                         /\ fa = Ok weather
                         /\ (c3 = [] \/ c3 = [CSleep 3;
                                              CExecute (RecordCountQuery (lower name))]))))
    as HcF.
  { destruct HF as [(_ & ->) | (tbl & count & out & _ & _ & _ & EF)]; [auto |].
    destruct (fetch_and_store_runs _ _ _ _ _ _ EF) as (_ & Hshape).
    destruct Hshape as [(_ & -> & _) | (fa & tail & ctail & -> & -> & _ & _ & Htail)];
      [auto |].
    right. exists fa, ctail. split; [reflexivity |].
    destruct Htail as [(_ & -> & _) | (w & dj & rows & attrs & -> & Hd & Hprep & _ & Ev)];
      [auto |].
    right. destruct (store_and_verify_runs _ _ _ _ _ Ev) as (res & _ & Hres).
    destruct res as [u | e].
    - destruct Hres as (tv & _ & -> & _).
      exists w, dj, rows, attrs, [CSleep 3; CExecute (RecordCountQuery (lower name))].
      repeat split; auto. now left.
    - destruct Hres as (_ & -> & _).
      exists w, dj, rows, attrs, []. repeat split; auto. now left. }
  split.
  - unfold count_calls in *. simpl. rewrite filter_app, length_app, HcS.
    destruct HcF as [-> | (fa & ctail & -> & [-> | (w & dj & rows & attrs & c3 & _ & _ & _
                                                   & -> & _ & [-> | ->])])];
      simpl; lia.
  - intros csv Hin.
    destruct Hin as [Hin | [Hin | Hin]]; try discriminate.
    apply in_app_or in Hin. destruct Hin as [Hin | Hin]; [| destruct (HnS _ Hin)].
    destruct HcF as [-> | (fa & ctail & -> & Hctail)]; [contradiction |].
    destruct Hin as [Hin | Hin]; [discriminate |].
    destruct Hctail as [-> | (w & dj & rows & attrs & c3 & Hw & Hd & Hprep
                             & -> & _ & Hc3)]; [contradiction |].
    exists (lower name), w, dj, rows, attrs.
    repeat split; auto.
    + right. right. apply in_or_app. left. exact Hw.
    + destruct Hin as [Hx | Hin]; [now injection Hx as <- |].
      destruct Hc3 as [-> | ->]; simpl in Hin; intuition discriminate.
Qed.

End MainRequestFacts.

(** ** src/main.py: the paths of a request *)

Module MainPathFacts.
Import Py Eff Web Main EffFacts DictFacts PipelineFacts RefreshFacts MainFacts
       MainRunFacts MainRequestFacts.

(** The handler up to the block that fetches and stores, when that block
    returns a page. *)
Lemma main_get_weather_block_page (city name : string) (lat lon : scalar)
    (sg sF : list reply) (cg cF : list call) (tbl : table) (count : cell) (p : page) :
  exec (get_city_coordinates city) sg = Some (Ok [lat; lon; SStr name], cg) ->
  record_count tbl = Ok count -> lt_30 count = Ok true ->
  exec (fetch_and_store (lower name) lat lon) sF = Some (Ok (Some p), cF) ->
  exec (get_weather true city) (sg ++ RExecute (Ok tbl) :: sF)
  = Some (p, cg ++ CExecute (RecordCountQuery (lower name)) :: cF).
Proof.
  intros Eg Hcount Hlt EF.
  unfold get_weather. cbn [negb].
  rewrite <- (app_nil_r (sg ++ _)), <- (app_nil_r (cg ++ _)).
  eapply exec_pbind_intro.
  - unfold get_weather_body. cbn [bind ret Monad_M].
    eapply exec_pbind_intro; [exact Eg |].
    unfold execute, lift.
    cbn [unpack3 pbind str_lower exec]. rewrite Hcount. cbn [pbind].
    rewrite Hlt. cbn [pbind].
    rewrite <- (app_nil_r sF), <- (app_nil_r cF).
    erewrite exec_pbind_intro; [reflexivity | exact EF | reflexivity].
  - reflexivity.
Qed.

(** X21. With 30 or more recent rows counted, the handler of src/main.py
    goes straight to its statistics query: no forecast fetch, no append,
    whatever the coordinates are and whatever the request text was, the key
    being the lowered name of the geocoder's match. *)
Theorem main_enough_rows_no_refresh (city name : string) (lat lon : scalar)
    (sg sS : list reply) (cg cS : list call) (tbl : table) (count : cell)
    (r : result page) :
  exec (get_city_coordinates city) sg = Some (Ok [lat; lon; SStr name], cg) ->
  record_count tbl = Ok count -> lt_30 count = Ok false ->
  exec (render_stats (lower name)) sS = Some (r, cS) ->
  exec (get_weather true city) (sg ++ RExecute (Ok tbl) :: sS)
  = Some (match r with
          | Ok p => p
          | Raise e => HTMLResponse ("<p>An error occurred: " ++ exn_str e ++ "</p>")
          end,
          cg ++ CExecute (RecordCountQuery (lower name)) :: cS)
  /\ cg = [CGeoGet city]
  /\ cS = [CExecute (StatsQueryNoCode (lower name))].
Proof.
  intros Eg Hcount Hlt ES. split; [| split].
  - unfold get_weather. cbn [negb].
    rewrite <- (app_nil_r (sg ++ _)), <- (app_nil_r (cg ++ _)).
    eapply exec_pbind_intro.
    + unfold get_weather_body. cbn [bind ret Monad_M].
      eapply exec_pbind_intro; [exact Eg |].
      unfold execute, lift.
      cbn [unpack3 pbind str_lower exec]. rewrite Hcount. cbn [pbind].
      rewrite Hlt. cbn [pbind]. rewrite ES. reflexivity.
    + destruct r; reflexivity.
  - destruct (main_get_city_coordinates_runs _ _ _ _ Eg) as (? & ? & _ & -> & _).
    reflexivity.
  - destruct (render_stats_runs _ _ _ _ ES) as (t & _ & ->). reflexivity.
Qed.

(** X22. The page "Could not find coordinates for this city." is what
    src/main.py answers when the geocoder's match has a null coordinate and
    fewer than 30 rows are counted; the forecast is not fetched. *)
Theorem main_null_coordinates_page (city name : string) (lat lon : scalar)
    (sg : list reply) (cg : list call) (tbl : table) (count : cell) :
  exec (get_city_coordinates city) sg = Some (Ok [lat; lon; SStr name], cg) ->
  lat = SNone \/ lon = SNone ->
  record_count tbl = Ok count -> lt_30 count = Ok true ->
  exec (get_weather true city) (sg ++ [RExecute (Ok tbl)])
  = Some (HTMLResponse "<p>Could not find coordinates for this city.</p>",
          cg ++ [CExecute (RecordCountQuery (lower name))]).
Proof.
  intros Eg Hnull Hcount Hlt.
  apply (main_get_weather_block_page city name lat lon sg [] cg [] tbl count _
           Eg Hcount Hlt).
  unfold fetch_and_store.
  destruct Hnull as [-> | ->]; [reflexivity | destruct lat; reflexivity].
Qed.

(** X23. When the append raises, src/main.py answers with the storage-error
    page carrying the exception's text, and neither pauses nor counts the
    rows again. *)
Theorem main_append_failure_page (city name : string) (lat lon : scalar)
    (sg : list reply) (cg : list call) (tbl : table) (count : cell)
    (weather : dict json) (daily_json : json) (row : string) (rows attrs : list string)
    (e : exn) :
  exec (get_city_coordinates city) sg = Some (Ok [lat; lon; SStr name], cg) ->
  lat <> SNone -> lon <> SNone ->
  record_count tbl = Ok count -> lt_30 count = Ok true ->
  dict_get "daily" weather = Some daily_json ->
  prepare_ingestion_data (lower name) daily_json = Some (row :: rows, attrs) ->
  exec (get_weather true city)
       (sg ++ [RExecute (Ok tbl); RForecastGet (Ok weather); RIngest (Raise e)])
  = Some (HTMLResponse ("<p>Error storing weather data: " ++ exn_str e ++ "</p>"),
          cg ++ [CExecute (RecordCountQuery (lower name)); CForecastGet lat lon;
                 CIngest (join newline (row :: rows))]).
Proof.
  intros Eg Hlat Hlon Hcount Hlt Hd Hprep.
  apply (main_get_weather_block_page city name lat lon sg _ cg _ tbl count _
           Eg Hcount Hlt).
  unfold fetch_and_store, get_weather_data, forecast_get, lift.
  destruct lat; try contradiction; destruct lon; try contradiction;
    cbn [catch bind ret raise Monad_M MonadExc_M pbind exec];
    rewrite (lacks_daily_false _ _ Hd); unfold getitem; rewrite Hd;
    cbn [pbind]; rewrite Hprep; reflexivity.
Qed.

(** X24. After an append that returned, src/main.py pauses three seconds,
    counts the rows once more, and goes on to the statistics exactly when
    that count is no longer below 30; with fewer, the request ends on the
    verification-failure page. *)
Theorem main_verification_decides (city name : string) (lat lon : scalar)
    (sg : list reply) (cg : list call) (tbl verified : table) (count recount : cell)
    (weather : dict json) (daily_json : json) (row : string) (rows attrs : list string)
    (too_few : bool) (sS : list reply) (cS : list call) (r : result page) :
  exec (get_city_coordinates city) sg = Some (Ok [lat; lon; SStr name], cg) ->
  lat <> SNone -> lon <> SNone ->
  record_count tbl = Ok count -> lt_30 count = Ok true ->
  dict_get "daily" weather = Some daily_json ->
  prepare_ingestion_data (lower name) daily_json = Some (row :: rows, attrs) ->
  record_count verified = Ok recount -> lt_30 recount = Ok too_few ->
  exec (render_stats (lower name)) sS = Some (r, cS) ->
  exec (get_weather true city)
       (sg ++ [RExecute (Ok tbl); RForecastGet (Ok weather); RIngest (Ok tt);
               RSleep; RExecute (Ok verified)]
           ++ (if too_few then [] else sS))
  = Some (if too_few
          then HTMLResponse
                 "<p>Error: Data storage verification failed. Please try again in a few minutes.</p>"
          else match r with
               | Ok p => p
               | Raise e =>
                   HTMLResponse ("<p>An error occurred: " ++ exn_str e ++ "</p>")
               end,
          cg ++ [CExecute (RecordCountQuery (lower name)); CForecastGet lat lon;
                 CIngest (join newline (row :: rows)); CSleep 3;
                 CExecute (RecordCountQuery (lower name))]
             ++ (if too_few then [] else cS)).
Proof.
  intros Eg Hlat Hlon Hcount Hlt Hd Hprep Hrecount Hlt2 ES.
  unfold get_weather. cbn [negb].
  rewrite <- (app_nil_r (sg ++ _)), <- (app_nil_r (cg ++ _)).
  destruct too_few.
  - eapply exec_pbind_intro.
    + unfold get_weather_body. cbn [bind ret Monad_M].
      eapply exec_pbind_intro; [exact Eg |].
      unfold execute, lift.
      cbn [unpack3 pbind str_lower exec app]. rewrite Hcount. cbn [pbind].
      rewrite Hlt. cbn [pbind].
      unfold fetch_and_store, get_weather_data, forecast_get, lift.
      destruct lat; try contradiction; destruct lon; try contradiction;
        cbn [catch bind ret raise Monad_M MonadExc_M pbind exec];
        rewrite (lacks_daily_false _ _ Hd); unfold getitem; rewrite Hd;
        cbn [pbind]; rewrite Hprep;
        unfold store_and_verify, ingest_from_stream, sleep, execute, lift;
        cbn [catch bind ret raise Monad_M MonadExc_M pbind exec];
        rewrite Hrecount; cbn [pbind]; rewrite Hlt2; reflexivity.
    + reflexivity.
  - eapply exec_pbind_intro.
    + unfold get_weather_body. cbn [bind ret Monad_M].
      eapply exec_pbind_intro; [exact Eg |].
      unfold execute, lift.
      cbn [unpack3 pbind str_lower exec app]. rewrite Hcount. cbn [pbind].
      rewrite Hlt. cbn [pbind].
      unfold fetch_and_store, get_weather_data, forecast_get, lift.
      destruct lat; try contradiction; destruct lon; try contradiction;
        cbn [catch bind ret raise Monad_M MonadExc_M pbind exec];
        rewrite (lacks_daily_false _ _ Hd); unfold getitem; rewrite Hd;
        cbn [pbind]; rewrite Hprep;
        unfold store_and_verify, ingest_from_stream, sleep, execute, lift;
        cbn [catch bind ret raise Monad_M MonadExc_M pbind exec];
        rewrite Hrecount; cbn [pbind]; rewrite Hlt2; cbn [pbind exec];
        rewrite ES; reflexivity.
    + destruct r; reflexivity.
Qed.

End MainPathFacts.

(** ** The further properties on the sample data *)

Module MoreWitnesses.
Import Py Eff Web Dedup Rows Samples.
Import RunFacts EnsureMoreFacts FilterFacts PrepareFacts DedupSpecFacts CheckFacts
       ImageRequestFacts StatsEdgeFacts MainRequestFacts MainPathFacts.

(** The refresh of the samples: the store has yesterday, the forecast brings
    yesterday and today, and the row of today alone is appended. *)
Lemma dedup_filter_spec_witness :
  (Image.filter_daily_data daily ["2025-02-16"%string]
   = Ok (filtered_by_index daily
           (kept_indices [SStr "2025-02-16"; SStr "2025-02-17"] ["2025-02-16"%string]))
   /\ kept_indices [SStr "2025-02-16"; SStr "2025-02-17"] ["2025-02-16"%string]
      = [1%nat])
  /\ (exists weather daily_data tbl existing_dates filtered time rows attrs
             res s4 c4,
        [RForecastGet (Ok Samples.weather); RExecute (Ok yesterday_stored);
         RIngest (Ok tt); RExecute (Ok (Rows [stale_row])); RNow today]
        = RForecastGet (Ok weather) :: RExecute (Ok tbl) :: RIngest res :: s4
        /\ refresh_calls
           = [CExecute (LatestDateQuery "paris"); CNow]
             ++ CForecastGet lat lon
                :: CExecute (ExistingDatesQuery (lower "paris"))
                :: CIngest "paris,2025-02-17,0,,2025-02-17T07:56" :: c4
        /\ dict_get "daily" weather = Some (JSeries daily_data)
        /\ Image.existing_dates_of tbl = Ok existing_dates
        /\ Image.filter_daily_data daily_data existing_dates = Ok filtered
        /\ dict_get "time" filtered = Some time
        /\ (forall s, In s existing_dates -> ~ In (SStr s) time)
        /\ Image.prepare_ingestion_data "paris" (JSeries filtered) = Some (rows, attrs)
        /\ "paris,2025-02-17,0,,2025-02-17T07:56"%string = join newline rows)
  /\ exec (Image.ensure_fresh_data "paris" lat lon)
          ([RExecute (Ok (Rows [stale_row])); RNow today]
           ++ RForecastGet (Ok Samples.weather) :: RExecute (Ok yesterday_stored)
              :: RIngest (Ok tt) :: [RExecute (Ok (Rows [stale_row])); RNow today])
     = Some (Ok (verdict (Ok (false, "2025-02-16"%string))),
             [CExecute (LatestDateQuery "paris"); CNow]
             ++ CForecastGet lat lon
                :: CExecute (ExistingDatesQuery (lower "paris"))
                :: CIngest (join newline
                              (map (fun i => join "," (row_fields "paris" daily i))
                                   (kept_indices [SStr "2025-02-16"; SStr "2025-02-17"]
                                                 ["2025-02-16"%string])))
                :: [CExecute (LatestDateQuery "paris"); CNow]).
Proof.
  destruct dedup_filter_spec as (Hfilter & Hrefresh & Hingests).
  split; [| split].
  - split; [| reflexivity].
    refine (proj1 (Hfilter daily ["2025-02-16"%string]
                     [SStr "2025-02-16"; SStr "2025-02-17"] _ eq_refl _)).
    + repeat (constructor; [simpl; intuition discriminate |]). constructor.
    + repeat constructor.
  - refine (Hrefresh "paris"%string lat lon
              [RExecute (Ok (Rows [stale_row])); RNow today]
              [RForecastGet (Ok Samples.weather); RExecute (Ok yesterday_stored);
               RIngest (Ok tt); RExecute (Ok (Rows [stale_row])); RNow today]
              [CExecute (LatestDateQuery "paris"); CNow] "2025-02-16"%string
              (Ok false) refresh_calls "paris,2025-02-17,0,,2025-02-17T07:56"%string
              eq_refl _ eq_refl _).
    + discriminate.
    + simpl. auto 10.
  - refine (Hingests "paris"%string lat lon
              [RExecute (Ok (Rows [stale_row])); RNow today]
              [CExecute (LatestDateQuery "paris"); CNow] "2025-02-16"%string
              Samples.weather daily [SStr "2025-02-16"; SStr "2025-02-17"]
              yesterday_stored ["2025-02-16"%string]
              [RExecute (Ok (Rows [stale_row])); RNow today]
              (Ok (false, "2025-02-16"%string))
              [CExecute (LatestDateQuery "paris"); CNow]
              eq_refl _ eq_refl eq_refl _ eq_refl _ _ _ eq_refl).
    + discriminate.
    + repeat (constructor; [simpl; intuition discriminate |]). constructor.
    + repeat constructor.
    + repeat constructor.
    + discriminate.
Defined.

Lemma ensure_fresh_data_at_most_once_witness :
  (count_calls is_forecast_get refresh_calls <= 1)%nat
  /\ (count_calls is_ingest refresh_calls <= 1)%nat
  /\ forall pre csv post,
       refresh_calls = pre ++ CIngest csv :: post -> In (CForecastGet lat lon) pre.
Proof.
  exact (ensure_fresh_data_at_most_once "paris" lat lon refresh_script (Ok false)
           refresh_calls eq_refl).
Defined.

Lemma ensure_fresh_data_raises_only_first_check_witness :
  (forall e, @Raise bool (ClientError "timed out") = Raise e ->
             exec (Image.check_data_freshness "paris")
                  [RExecute (Raise (ClientError "timed out"))]
             = Some (Raise e, [CExecute (LatestDateQuery "paris")]))
  /\ (In (CForecastGet lat lon) [CExecute (LatestDateQuery "paris")] ->
      exists b : bool, Raise (ClientError "timed out") = Ok b).
Proof.
  exact (ensure_fresh_data_raises_only_first_check "paris" lat lon
           [RExecute (Raise (ClientError "timed out"))]
           (Raise (ClientError "timed out"))
           [CExecute (LatestDateQuery "paris")] eq_refl).
Defined.

Lemma first_ingestion_unfiltered_witness :
  (forall c, ~ In (CExecute (ExistingDatesQuery c)) first_ingestion_calls)
  /\ forall csv,
       In (CIngest csv) first_ingestion_calls ->
       exists weather daily_json rows attrs,
         In (RForecastGet (Ok weather)) first_ingestion_rest
         /\ dict_get "daily" weather = Some daily_json
         /\ Image.prepare_ingestion_data "paris" daily_json = Some (rows, attrs)
         /\ csv = join newline rows.
Proof.
  exact (first_ingestion_unfiltered "paris" lat lon
           [RExecute (Ok (Rows [unknown_row]))] first_ingestion_rest
           [CExecute (LatestDateQuery "paris")] (Ok true)
           first_ingestion_calls eq_refl eq_refl).
Defined.

Lemma existing_dates_failure_stops_refresh_witness :
  exec (Image.ensure_fresh_data "paris" lat lon)
       ([RExecute (Ok (Rows [stale_row])); RNow today]
        ++ [RForecastGet (Ok weather); RExecute (Raise (ClientError "timed out"))])
  = Some (Ok false,
          [CExecute (LatestDateQuery "paris"); CNow]
          ++ [CForecastGet lat lon; CExecute (ExistingDatesQuery (lower "paris"))])
  /\ count_calls is_ingest
       ([CExecute (LatestDateQuery "paris"); CNow]
        ++ [CForecastGet lat lon; CExecute (ExistingDatesQuery (lower "paris"))])
     = 0%nat.
Proof.
  refine (existing_dates_failure_stops_refresh "paris" lat lon
            [RExecute (Ok (Rows [stale_row])); RNow today]
            [CExecute (LatestDateQuery "paris"); CNow] "2025-02-16"%string
            weather (JSeries daily) (ClientError "timed out") eq_refl _ eq_refl).
  discriminate.
Defined.

Lemma filter_daily_data_nothing_stored_witness :
  Image.filter_daily_data daily [] = Ok daily.
Proof.
  refine (filter_daily_data_nothing_stored daily
            [SStr "2025-02-16"; SStr "2025-02-17"] _ eq_refl _).
  - repeat (constructor; [simpl; intuition discriminate |]). constructor.
  - repeat constructor.
Defined.

Lemma refresh_twice_ingests_nothing_witness :
  Image.filter_daily_data daily ["2025-02-17"; "2025-02-16"]%string
  = Ok (map (fun kv => (fst kv, [])) daily)
  /\ exec (Image.ensure_fresh_data "paris" lat lon)
          ([RExecute (Ok (Rows [stale_row])); RNow today]
           ++ [RForecastGet (Ok weather); RExecute (Ok both_stored)])
     = Some (Ok true,
             [CExecute (LatestDateQuery "paris"); CNow]
             ++ [CForecastGet lat lon; CExecute (ExistingDatesQuery (lower "paris"))]).
Proof.
  refine (refresh_twice_ingests_nothing "paris" lat lon
            [RExecute (Ok (Rows [stale_row])); RNow today]
            [CExecute (LatestDateQuery "paris"); CNow] "2025-02-16"%string
            weather daily [SStr "2025-02-16"; SStr "2025-02-17"] both_stored
            ["2025-02-17"; "2025-02-16"]%string
            eq_refl _ eq_refl eq_refl _ eq_refl _ _).
  - discriminate.
  - repeat (constructor; [simpl; intuition discriminate |]). constructor.
  - repeat constructor.
  - repeat constructor; eexists; (split; [reflexivity | simpl; auto]).
Defined.

Lemma filter_daily_data_keeps_alignment_witness :
  exists filtered time,
    Image.filter_daily_data daily ["2025-02-16"%string] = Ok filtered
    /\ keys filtered = keys daily
    /\ dict_get "time" filtered = Some time
    /\ Forall (fun kv => List.length (snd kv) = List.length time) filtered
    /\ (List.length time <= 2)%nat
    /\ (Forall (fun v => is_str v = true) [SStr "2025-02-16"; SStr "2025-02-17"] ->
        Forall (fun v => is_str v = true) time).
Proof.
  refine (filter_daily_data_keeps_alignment daily
            [SStr "2025-02-16"; SStr "2025-02-17"] ["2025-02-16"%string]
            _ eq_refl _).
  - repeat (constructor; [simpl; intuition discriminate |]). constructor.
  - repeat constructor.
Defined.

Lemma filter_then_prepare_witness :
  exists filtered,
    Image.filter_daily_data daily ["2025-02-16"%string] = Ok filtered
    /\ Image.prepare_ingestion_data "paris" (JSeries filtered)
       = Some (map (fun i => join "," (row_fields "paris" daily i))
                   (kept_indices [SStr "2025-02-16"; SStr "2025-02-17"]
                                 ["2025-02-16"%string]),
               Image.weather_attributes daily).
Proof.
  refine (filter_then_prepare "paris" daily
            [SStr "2025-02-16"; SStr "2025-02-17"] ["2025-02-16"%string]
            _ eq_refl _ _).
  - repeat (constructor; [simpl; intuition discriminate |]). constructor.
  - repeat constructor.
  - repeat constructor.
Defined.

Lemma prepare_ingestion_data_malformed_witness :
  Image.prepare_ingestion_data "paris" (JSeries daily_short) = None.
Proof.
  refine (prepare_ingestion_data_malformed "paris" daily_short
            (or_intror (or_introl
               (ex_intro _ [SStr "2025-02-16"; SStr "2025-02-17"]
                  (ex_intro _ "weather_code"%string
                     (ex_intro _ [SInt 3] (conj eq_refl (conj _ (conj eq_refl _))))))))).
  - simpl. auto.
  - simpl. lia.
Defined.

Lemma first_ingestion_nothing_prepared_witness :
  exec (Image.ensure_fresh_data "paris" lat lon)
       ([RExecute (Ok (Rows [unknown_row]))] ++ [RForecastGet (Ok weather_no_day)])
  = Some (Ok false, [CExecute (LatestDateQuery "paris")] ++ [CForecastGet lat lon])
  /\ count_calls is_ingest
       ([CExecute (LatestDateQuery "paris")] ++ [CForecastGet lat lon]) = 0%nat.
Proof.
  exact (first_ingestion_nothing_prepared "paris" lat lon
           [RExecute (Ok (Rows [unknown_row]))] [CExecute (LatestDateQuery "paris")]
           weather_no_day
           (JSeries [ ("time"%string, []); ("weather_code"%string, []) ])
           eq_refl eq_refl
           (or_intror (ex_intro _ ["weather_code"%string] eq_refl))).
Defined.

Lemma check_data_freshness_count_short_circuit_witness :
  exec (Image.check_data_freshness "paris") [RExecute (Ok (Rows [old_row])); RNow today]
  = Some (Ok (false, "2025-02-10"%string), [CExecute (LatestDateQuery "paris"); CNow])
  /\ exists e,
       exec (Image.check_data_freshness "paris")
            [RExecute (Ok (Rows [uncounted_row])); RNow today]
       = Some (Raise e, [CExecute (LatestDateQuery "paris"); CNow]).
Proof.
  split.
  - refine (proj1 (check_data_freshness_count_short_circuit "paris" old_row []
                     (mkdatetime (mkdate 2025 2 10) 0) CNull today
                     eq_refl eq_refl eq_refl eq_refl) _).
    vm_compute. reflexivity.
  - eexists.
    refine (proj2 (check_data_freshness_count_short_circuit "paris" uncounted_row []
                     (mkdatetime (mkdate 2025 2 17) 0) CNull today
                     eq_refl eq_refl eq_refl eq_refl) _ _ eq_refl).
    vm_compute. discriminate.
Defined.

Lemma check_data_freshness_latest_date_witness :
  ("2025-02-16"%string = ""%string
   <-> ~ In CNow [CExecute (LatestDateQuery "paris"); CNow])
  /\ ("2025-02-16"%string = ""%string ->
      false = false
      /\ ([RExecute (Ok (Rows [stale_row])); RNow today] = [RExecute (Ok NoColumns)]
          \/ exists row rest,
               [RExecute (Ok (Rows [stale_row])); RNow today]
               = [RExecute (Ok (Rows (row :: rest)))]
               /\ dict_get "LatestDate" row = Some CNull))
  /\ ("2025-02-16"%string <> ""%string ->
      String.length "2025-02-16" = 10%nat
      /\ exists row rest dt today0,
           [RExecute (Ok (Rows [stale_row])); RNow today]
           = [RExecute (Ok (Rows (row :: rest))); RNow today0]
           /\ dict_get "LatestDate" row = Some (CDatetime dt)
           /\ "2025-02-16"%string = strftime_ymd (dt_date dt)).
Proof.
  exact (check_data_freshness_latest_date "paris"
           [RExecute (Ok (Rows [stale_row])); RNow today] false "2025-02-16"
           [CExecute (LatestDateQuery "paris"); CNow] eq_refl).
Defined.

Lemma image_unresolved_city_page_witness :
  exec (Image.get_city_coordinates "Atlantis") [RGeoGet (Ok geo_nowhere)]
  = Some (Ok [SNone; SNone; SNone], [CGeoGet "Atlantis"])
  /\ exec (Image.get_weather true "Atlantis") [RGeoGet (Ok geo_nowhere)]
     = Some (HTMLResponse "<p>Error: Invalid city name, please try again.</p>",
             [CGeoGet "Atlantis"]).
Proof.
  exact (image_unresolved_city_page "Atlantis" (Ok geo_nowhere)
           (or_intror (ex_intro _ geo_nowhere (conj eq_refl (or_introl eq_refl))))).
Defined.

Lemma image_inaccurate_city_page_witness :
  exec (Image.get_weather true "Parijs") [RGeoGet (Ok geo_paris)]
  = Some (HTMLResponse "<p>Error: Inaccurate city name, Did you mean Paris? </p>",
          [CGeoGet "Parijs"])
  /\ [CGeoGet "Parijs"] = [CGeoGet "Parijs"].
Proof.
  refine (image_inaccurate_city_page "Parijs" "Paris" lat lon
            [RGeoGet (Ok geo_paris)] [CGeoGet "Parijs"] eq_refl eq_refl eq_refl _).
  vm_compute. discriminate.
Defined.

Lemma image_one_city_key_witness :
  StatsQuery "paris" = LatestDateQuery (lower "Paris")
  \/ StatsQuery "paris" = ExistingDatesQuery (lower "Paris")
  \/ StatsQuery "paris" = StatsQuery (lower "Paris").
Proof.
  refine (image_one_city_key true "Paris" fresh_request fresh_request_page
            fresh_request_calls (StatsQuery "paris") eq_refl eq_refl _).
  simpl. auto.
Defined.

Lemma image_stats_only_after_fresh_witness :
  (forall key,
      In (CExecute (StatsQuery key)) fresh_request_calls ->
      exists answer lat0 lon0 se ce rest crest,
        fresh_request = RGeoGet answer :: se ++ rest
        /\ fresh_request_calls = CGeoGet "Paris" :: ce ++ crest
        /\ exec (Image.ensure_fresh_data (lower "Paris") lat0 lon0) se
           = Some (Ok true, ce))
  /\ (forall template shown numbers description icon,
         fresh_request_page = Rendered template shown numbers description icon ->
         In (CExecute (StatsQuery (lower "Paris"))) fresh_request_calls
         /\ shown = capitalize (lower "Paris")).
Proof.
  exact (image_stats_only_after_fresh true "Paris" fresh_request fresh_request_page
           fresh_request_calls eq_refl).
Defined.

Lemma image_request_at_most_one_ingest_witness :
  (count_calls is_ingest (CGeoGet "Paris" :: refresh_calls) <= 1)%nat
  /\ (count_calls is_forecast_get (CGeoGet "Paris" :: refresh_calls) <= 1)%nat.
Proof.
  exact (image_request_at_most_one_ingest true "Paris"
           (RGeoGet (Ok geo_paris) :: refresh_script)
           (HTMLResponse "<p>Error: Could not ensure fresh weather data.</p>")
           (CGeoGet "Paris" :: refresh_calls) eq_refl).
Defined.

Lemma get_weather_stats_empty_and_null_witness :
  exists msg,
    exec (Image.get_weather_stats "paris") [RExecute (Ok (Rows [null_stats_row]))]
    = Some (Raise (TypeError msg), [CExecute (StatsQuery "paris")]).
Proof.
  exact (proj1 (proj2 (proj2 (get_weather_stats_empty_and_null "paris")))
           null_stats_row [] CNull CNull CNull None
           eq_refl eq_refl eq_refl eq_refl eq_refl).
Defined.

Lemma main_never_reads_clock_or_dates_witness :
  CSleep 3 = CGeoGet "Paris"
  \/ (exists key, CSleep 3 = CExecute (RecordCountQuery key))
  \/ (exists key, CSleep 3 = CExecute (StatsQueryNoCode key))
  \/ (exists lat0 lon0, CSleep 3 = CForecastGet lat0 lon0)
  \/ (exists csv, CSleep 3 = CIngest csv)
  \/ CSleep 3 = CSleep 3.
Proof.
  refine (main_never_reads_clock_or_dates true "Paris" main_request main_request_page
            main_request_calls (CSleep 3) eq_refl _).
  simpl. auto 10.
Defined.

Lemma main_appends_unfiltered_witness :
  (count_calls is_ingest main_request_calls <= 1)%nat
  /\ forall csv,
       In (CIngest csv) main_request_calls ->
       exists key weather daily_json rows attrs,
         In (RForecastGet (Ok weather)) main_request
         /\ dict_get "daily" weather = Some daily_json
         /\ Main.prepare_ingestion_data key daily_json = Some (rows, attrs)
         /\ csv = join newline rows.
Proof.
  exact (main_appends_unfiltered true "Paris" main_request main_request_page
           main_request_calls eq_refl).
Defined.

Lemma main_enough_rows_no_refresh_witness :
  exec (Main.get_weather true "Parijs")
       ([RGeoGet (Ok geo_no_latitude)]
        ++ RExecute (Ok (Rows [count_row 30]))
           :: [RExecute (Ok (Rows [stats_row 0]))])
  = Some (main_stats_page,
          [CGeoGet "Parijs"]
          ++ CExecute (RecordCountQuery (lower "Paris"))
             :: [CExecute (StatsQueryNoCode "paris")])
  /\ [CGeoGet "Parijs"] = [CGeoGet "Parijs"]
  /\ [CExecute (StatsQueryNoCode "paris")]
     = [CExecute (StatsQueryNoCode (lower "Paris"))].
Proof.
  exact (main_enough_rows_no_refresh "Parijs" "Paris" SNone lon
           [RGeoGet (Ok geo_no_latitude)] [RExecute (Ok (Rows [stats_row 0]))]
           [CGeoGet "Parijs"] [CExecute (StatsQueryNoCode "paris")]
           (Rows [count_row 30]) (CLong 30) (Ok main_stats_page)
           eq_refl eq_refl eq_refl eq_refl).
Defined.

Lemma main_null_coordinates_page_witness :
  exec (Main.get_weather true "Paris")
       ([RGeoGet (Ok geo_no_latitude)] ++ [RExecute (Ok (Rows [count_row 0]))])
  = Some (HTMLResponse "<p>Could not find coordinates for this city.</p>",
          [CGeoGet "Paris"] ++ [CExecute (RecordCountQuery (lower "Paris"))]).
Proof.
  exact (main_null_coordinates_page "Paris" "Paris" SNone lon
           [RGeoGet (Ok geo_no_latitude)] [CGeoGet "Paris"]
           (Rows [count_row 0]) (CLong 0)
           eq_refl (or_introl eq_refl) eq_refl eq_refl).
Defined.

Lemma main_append_failure_page_witness :
  exec (Main.get_weather true "Paris")
       ([RGeoGet (Ok geo_paris)]
        ++ [RExecute (Ok (Rows [count_row 0])); RForecastGet (Ok weather);
            RIngest (Raise (ClientError "throttled"))])
  = Some (HTMLResponse "<p>Error storing weather data: throttled</p>",
          [CGeoGet "Paris"]
          ++ [CExecute (RecordCountQuery (lower "Paris")); CForecastGet lat lon;
              CIngest (join newline
                         ("paris,2025-02-16,3,12.5,2025-02-16T07:58"%string
                          :: ["paris,2025-02-17,0,,2025-02-17T07:56"%string]))]).
Proof.
  refine (main_append_failure_page "Paris" "Paris" lat lon
            [RGeoGet (Ok geo_paris)] [CGeoGet "Paris"] (Rows [count_row 0]) (CLong 0)
            weather (JSeries daily) _ _ _ (ClientError "throttled")
            eq_refl _ _ eq_refl eq_refl eq_refl eq_refl); discriminate.
Defined.

Lemma main_verification_decides_witness :
  exec (Main.get_weather true "Paris")
       ([RGeoGet (Ok geo_paris)]
        ++ [RExecute (Ok (Rows [count_row 0])); RForecastGet (Ok weather);
            RIngest (Ok tt); RSleep; RExecute (Ok (Rows [count_row 2]))]
        ++ [])
  = Some (HTMLResponse
            "<p>Error: Data storage verification failed. Please try again in a few minutes.</p>",
          [CGeoGet "Paris"]
          ++ [CExecute (RecordCountQuery (lower "Paris")); CForecastGet lat lon;
              CIngest (join newline
                         ("paris,2025-02-16,3,12.5,2025-02-16T07:58"%string
                          :: ["paris,2025-02-17,0,,2025-02-17T07:56"%string]));
              CSleep 3; CExecute (RecordCountQuery (lower "Paris"))]
          ++ []).
Proof.
  refine (main_verification_decides "Paris" "Paris" lat lon
            [RGeoGet (Ok geo_paris)] [CGeoGet "Paris"]
            (Rows [count_row 0]) (Rows [count_row 2])
            (CLong 0) (CLong 2) weather (JSeries daily) _ _ _ true
            [RExecute (Ok (Rows [stats_row 0]))] [CExecute (StatsQueryNoCode "paris")]
            (Ok main_stats_page)
            eq_refl _ _ eq_refl eq_refl eq_refl eq_refl eq_refl eq_refl eq_refl);
    discriminate.
Defined.

End MoreWitnesses.
